(** * Business-card output cleaner: a shallow embedding of [output_cleaner.py]

    The Python class [OutputCleaner] is embedded function by function:
    [extract_json_from_response], [clean_business_card_data],
    [_clean_field_value], [_clean_phone_number], [_clean_email] and
    [create_final_result].  A Python [str] is a list of Unicode code
    points, a Python value ([Any]) is a [pyval], a dictionary is a finite
    map, and a call is an [outcome]: it returns a value or raises.

    The calls the cleaner makes into the standard library ([str.split],
    [str.strip], [str.lower], [str()], [re.match], [re.sub], [json.loads])
    are modelled next to it.  What they take from the interpreter's
    tables and limits is a parameter, [PyRuntime].  Not modelled: the
    order of the keys of a dictionary (only [str()] of a dictionary
    shows it) and the binary value of a [float].  [json.loads] has the
    two limits of the interpreter that stop it, the recursion limit and
    the limit on the digits of an integer.  [str()] is stopped by the
    same two: [OutputCleaner] has the cleaner where [str()] returns, and
    [Bounded] has it with the limits.

    Definitions come first, the statements about them afterwards. *)

From Stdlib Require Import NArith ZArith Lia Bool Ascii String DecimalString.
From stdpp Require Import gmap list fin_maps.

Set Warnings "-register-all".
Set Default Proof Using "Type".

(** ** Python strings *)

(** A Python [str] is a sequence of code points. *)
Definition pystr : Type := list N.

(** The literals of the source are written as UTF-8 byte strings; [u8]
    decodes them, and [py "..."] is the decoded literal.  [cont] is the
    payload of a continuation byte. *)
Definition cont (a : ascii) : N := (N_of_ascii a - 128)%N.

Fixpoint u8 (s : string) : pystr :=
  match s with
  | EmptyString => []
  | String a s1 =>
    let b0 := N_of_ascii a in
    if (b0 <? 128)%N then b0 :: u8 s1
    else if (b0 <? 224)%N then
      match s1 with
      | String b s2 => ((b0 - 192) * 64 + cont b)%N :: u8 s2
      | _ => []
      end
    else if (b0 <? 240)%N then
      match s1 with
      | String b (String c s3) =>
        ((b0 - 224) * 4096 + cont b * 64 + cont c)%N :: u8 s3
      | _ => []
      end
    else
      match s1 with
      | String b (String c (String d s4)) =>
        ((b0 - 240) * 262144 + cont b * 4096 + cont c * 64 + cont d)%N :: u8 s4
      | _ => []
      end
  end.

Abbreviation py s :=
  (ltac:(let v := eval vm_compute in (u8 s%string) in exact v)) (only parsing).

Module Str.

(** [c.isspace()]: the characters [str.strip()] removes, which are the
    ASCII white space and separators, NEL, NBSP and the Unicode spaces. *)
Definition isspace (c : N) : bool :=
  ((9 <=? c) && (c <=? 13) || (28 <=? c) && (c <=? 32)
   || (c =? 133) || (c =? 160) || (c =? 5760)
   || (8192 <=? c) && (c <=? 8202)
   || (c =? 8232) || (c =? 8233) || (c =? 8239) || (c =? 8287)
   || (c =? 12288))%N.

Fixpoint lstrip (s : pystr) : pystr :=
  match s with
  | [] => []
  | c :: s' => if isspace c then lstrip s' else s
  end.

Definition rstrip (s : pystr) : pystr := reverse (lstrip (reverse s)).

(** [s.strip()] *)
Definition strip (s : pystr) : pystr := rstrip (lstrip s).

(** [s.startswith(p)] *)
Fixpoint startswith (p s : pystr) : bool :=
  match p, s with
  | [], _ => true
  | a :: p', b :: s' => (a =? b)%N && startswith p' s'
  | _ :: _, [] => false
  end.

(** [sub in s] *)
Fixpoint contains (sub s : pystr) : bool :=
  startswith sub s
  || match s with
     | [] => false
     | _ :: s' => contains sub s'
     end.

(** [s.split(sep)] for a non-empty [sep]: the text is scanned from the
    left, every occurrence of [sep] closes the current piece and the
    scan resumes after it.  [skip] counts the characters of an
    occurrence still to be passed over, [cur] is the current piece in
    reverse. *)
Fixpoint split_go (sep : pystr) (skip : nat) (cur : pystr) (s : pystr)
  : list pystr :=
  match s with
  | [] => [reverse cur]
  | c :: s' =>
    match skip with
    | S k => split_go sep k cur s'
    | O =>
      if startswith sep s
      then reverse cur :: split_go sep (pred (length sep)) [] s'
      else split_go sep O (c :: cur) s'
    end
  end.

Definition split (sep s : pystr) : list pystr := split_go sep O [] s.

Definition isascii (c : N) : bool := (c <? 128)%N.
Definition isupper_ascii (c : N) : bool := ((65 <=? c) && (c <=? 90))%N.
Definition lower_ascii (c : N) : N :=
  if isupper_ascii c then (c + 32)%N else c.

(** [str(n)] for a Python [int]. *)
Definition of_int (z : Z) : pystr :=
  u8 (NilZero.string_of_int (Z.to_int z)).

End Str.

(** ** Regular expressions

    The two patterns of the cleaner use character classes, concatenation
    and repetition only; they are matched by derivatives. *)
Module Re.

Inductive regex :=
| Void
| Eps
| Cls (p : N -> bool)
| Cat (r1 r2 : regex)
| Alt (r1 r2 : regex)
| Star (r : regex).

(** [r+] and [r{2,}] *)
Definition Plus (r : regex) : regex := Cat r (Star r).
Definition AtLeast2 (r : regex) : regex := Cat r (Cat r (Star r)).
Definition Chr (c : N) : regex := Cls (N.eqb c).

Fixpoint nullable (r : regex) : bool :=
  match r with
  | Void => false
  | Eps => true
  | Cls _ => false
  | Cat r1 r2 => nullable r1 && nullable r2
  | Alt r1 r2 => nullable r1 || nullable r2
  | Star _ => true
  end.

Fixpoint deriv (c : N) (r : regex) : regex :=
  match r with
  | Void => Void
  | Eps => Void
  | Cls p => if p c then Eps else Void
  | Cat r1 r2 =>
    if nullable r1
    then Alt (Cat (deriv c r1) r2) (deriv c r2)
    else Cat (deriv c r1) r2
  | Alt r1 r2 => Alt (deriv c r1) (deriv c r2)
  | Star r1 => Cat (deriv c r1) (Star r1)
  end.

(** The whole of [s] is a word of [r]. *)
Fixpoint fullmatch (r : regex) (s : pystr) : bool :=
  match s with
  | [] => nullable r
  | c :: s' => fullmatch (deriv c r) s'
  end.

(** [re.match('^' r '$', s)]: without [re.MULTILINE], [$] matches at the
    end of the text and also just before a newline that ends it. *)
Definition match_anchored (r : regex) (s : pystr) : bool :=
  fullmatch r s
  || match reverse s with
     | 10%N :: t => fullmatch r (reverse t)
     | _ => false
     end.

(** [re.sub(p, repl, s)] for a pattern [p] that is one character class:
    every character of the class is replaced by [repl]. *)
Definition sub_class (p : N -> bool) (repl s : pystr) : pystr :=
  flat_map (fun c => if p c then repl else [c]) s.

End Re.


(** ** Python values, exceptions and the interpreter's tables *)

(** The values the cleaner handles: what [json.loads] can return, which is
    also what the cleaner's dictionaries hold.  A [float] is kept as the
    text [float()] was called on. *)
Inductive pyval :=
| PNone
| PBool (b : bool)
| PInt (z : Z)
| PFloat (text : pystr)
| PStr (s : pystr)
| PList (l : list pyval)
| PDict (m : gmap pystr pyval).

(** The messages of [json.JSONDecodeError]. *)
Inductive decode_error :=
| UnexpectedBOM
| ExpectingValue
| ExtraData
| UnterminatedString
| InvalidControlCharacter
| InvalidEscape
| InvalidUnicodeEscape
| ExpectingPropertyName
| ExpectingColon
| ExpectingComma.

(** The limits of the interpreter a call can run into. *)
Inductive limit :=
| Depth     (* the recursion limit *)
| Digits.   (* the limit on the digits of an integer *)

(** Exceptions a call of the cleaner could raise.  [JSONDecodeError]
    carries its message and the document.  [RecursionError] is what the
    decoder raises when arrays and objects are nested deeper than the
    interpreter lets it recurse, and [IntTooLong] is the [ValueError] of
    [int()] on more digits than the interpreter converts; [str()] raises
    the two for the same reasons. *)
Inductive exn :=
| IndexError
| KeyError
| RecursionError
| IntTooLong
| JSONDecodeError (msg : decode_error) (doc : pystr).

(** A call either returns or raises. *)
Inductive outcome (A : Type) :=
| Return (a : A)
| Raise (e : exn).
Arguments Return {A} a.
Arguments Raise {A} e.

#[global] Instance outcome_ret : MRet outcome := fun A a => Return a.
#[global] Instance outcome_bind : MBind outcome := fun A B f m =>
  match m with
  | Return a => f a
  | Raise e => Raise e
  end.

(** What the cleaner takes from the interpreter and its Unicode database
    rather than from this repository: the decimal digits beyond ASCII that
    [\d] matches, [str.lower] on text that is not pure ASCII, the zero test
    of a [float], [str()] of floats, lists and dictionaries, and the text
    of a [JSONDecodeError].  No decimal digit is white space.

    Two limits of the interpreter bound what [json.loads] decodes.
    [json_depth] is how many arrays and objects inside one another the
    decoder can enter where it is called, before the recursion limit
    stops it with [RecursionError] (of [sys.getrecursionlimit()], 1000
    by default, what the frames of the callers leave).
    [int_max_str_digits] is [sys.get_int_max_str_digits()], 4300 by
    default: [int()] raises [ValueError] on more digits, and 0 turns the
    limit off; the interpreter accepts no limit between 1 and 639.

    The same limits bound [str()].  [repr_depth] is how many values
    inside one another [str()] can enter below the value it is called
    on, where the cleaner calls it.  [dict_values] is the values of a
    dictionary in the order of its keys, which the interpreter keeps and
    a finite map does not. *)
Class PyRuntime := {
  unicode_decimal : N -> bool;
  unicode_lower : pystr -> pystr;
  float_is_zero : pystr -> bool;
  repr_other : pyval -> pystr;
  str_JSONDecodeError : decode_error -> pystr -> pystr;
  json_depth : nat;
  int_max_str_digits : nat;
  repr_depth : nat;
  dict_values : gmap pystr pyval -> list pyval;
  unicode_decimal_not_space :
    forall c, unicode_decimal c = true -> Str.isspace c = false;
  int_max_str_digits_range :
    int_max_str_digits = 0 \/ 640 <= int_max_str_digits;
  dict_values_items :
    forall m, dict_values m ≡ₚ (map_to_list m).*2
}.

Module Builtins.

(** [s.lower()]: ASCII letters are mapped one by one; text with other
    characters is left to the runtime. *)
Definition lower `{PyRuntime} (s : pystr) : pystr :=
  if forallb Str.isascii s then map Str.lower_ascii s else unicode_lower s.

(** [\d] of a [str] pattern *)
Definition isdecimal `{PyRuntime} (c : N) : bool :=
  ((48 <=? c) && (c <=? 57))%N || negb (Str.isascii c) && unicode_decimal c.

(** [bool(v)], the test of [if v:] *)
Definition truthy `{PyRuntime} (v : pyval) : bool :=
  match v with
  | PNone => false
  | PBool b => b
  | PInt z => negb (z =? 0)%Z
  | PFloat t => negb (float_is_zero t)
  | PStr s => negb (bool_decide (s = []))
  | PList l => negb (bool_decide (length l = 0%nat))
  | PDict m => negb (bool_decide (size m = 0%nat))
  end.

(** [int()] and [str()] refuse more digits than the limit, the sign not
    counted. *)
Definition too_many_digits `{PyRuntime} (n : nat) : bool :=
  negb (int_max_str_digits =? 0) && (int_max_str_digits <? n).

(** [str(v)], when it returns; see [Bounded.str] for when it does. *)
Definition str `{PyRuntime} (v : pyval) : pystr :=
  match v with
  | PNone => py "None"
  | PBool true => py "True"
  | PBool false => py "False"
  | PInt z => Str.of_int z
  | PStr s => s
  | PFloat _ | PList _ | PDict _ => repr_other v
  end.

(** [v is None] *)
Definition is_None (v : pyval) : bool :=
  match v with
  | PNone => true
  | _ => false
  end.

(** [v == s] for a [str] literal [s] *)
Definition eq_str (v : pyval) (s : pystr) : bool :=
  match v with
  | PStr t => bool_decide (t = s)
  | _ => false
  end.

(** [l[i]] *)
Definition list_getitem {A} (l : list A) (i : nat) : outcome A :=
  match l !! i with
  | Some x => Return x
  | None => Raise IndexError
  end.

(** [d[k]] *)
Definition dict_getitem (d : gmap pystr pyval) (k : pystr) : outcome pyval :=
  match d !! k with
  | Some v => Return v
  | None => Raise KeyError
  end.

(** [k in d] *)
Definition dict_contains (d : gmap pystr pyval) (k : pystr) : bool :=
  bool_decide (is_Some (d !! k)).

(** [d.get(k)] *)
Definition dict_get (d : gmap pystr pyval) (k : pystr) : pyval :=
  default PNone (d !! k).

End Builtins.

(** ** [json.loads]

    The decoder of the standard library ([json.decoder], [json.scanner])
    with its default options, on the remaining text instead of an index
    into it. *)
Module Json.

(** A scan runs into a limit, stops with an error, or yields a value and
    the rest of the text. *)
Inductive scan (A : Type) :=
| Halt (l : limit)
| Stop (e : decode_error)
| Got (a : A) (rest : pystr).
Arguments Halt {A} l.
Arguments Stop {A} e.
Arguments Got {A} a rest.

(** [WHITESPACE = ' \t\n\r'] *)
Definition is_ws (c : N) : bool :=
  ((c =? 32) || (c =? 9) || (c =? 10) || (c =? 13))%N.

Fixpoint skip_ws (s : pystr) : pystr :=
  match s with
  | [] => []
  | c :: s' => if is_ws c then skip_ws s' else s
  end.

Definition is_digit (c : N) : bool := ((48 <=? c) && (c <=? 57))%N.

Definition hexval (c : N) : option N :=
  if is_digit c then Some (c - 48)%N
  else if ((97 <=? c) && (c <=? 102))%N then Some (c - 87)%N
  else if ((65 <=? c) && (c <=? 70))%N then Some (c - 55)%N
  else None.

(** [_decode_uXXXX] on the four characters after [\u] *)
Definition hex4 (a b c d : N) : option N :=
  match hexval a, hexval b, hexval c, hexval d with
  | Some x, Some y, Some z, Some w => Some (x * 4096 + y * 256 + z * 16 + w)%N
  | _, _, _, _ => None
  end.

(** The table [BACKSLASH] *)
Definition backslash (esc : N) : option N :=
  if (esc =? 34)%N then Some 34%N            (* quote *)
  else if (esc =? 92)%N then Some 92%N       (* backslash *)
  else if (esc =? 47)%N then Some 47%N       (* slash *)
  else if (esc =? 98)%N then Some 8%N        (* b *)
  else if (esc =? 102)%N then Some 12%N      (* f *)
  else if (esc =? 110)%N then Some 10%N      (* n *)
  else if (esc =? 114)%N then Some 13%N      (* r *)
  else if (esc =? 116)%N then Some 9%N       (* t *)
  else None.

Definition is_high_surrogate (u : N) : bool := ((55296 <=? u) && (u <=? 56319))%N.
Definition is_low_surrogate (u : N) : bool := ((56320 <=? u) && (u <=? 57343))%N.
Definition join_surrogates (u u2 : N) : N :=
  (65536 + N.lor (N.shiftl (u - 55296) 10) (u2 - 56320))%N.

(** [scanstring] in strict mode, from the character after the opening
    quote; [acc] is the decoded text so far, in reverse. *)
Fixpoint scanstring (acc : pystr) (s : pystr) : scan pystr :=
  match s with
  | [] => Stop UnterminatedString
  | c :: s1 =>
    if (c =? 34)%N then Got (reverse acc) s1
    else if (c =? 92)%N then
      match s1 with
      | [] => Stop UnterminatedString
      | esc :: s2 =>
        if (esc =? 117)%N then
          match s2 with
          | h1 :: h2 :: h3 :: h4 :: s3 =>
            match hex4 h1 h2 h3 h4 with
            | None => Stop InvalidUnicodeEscape
            | Some uni =>
              if is_high_surrogate uni then
                match s3 with
                | b1 :: b2 :: s4 =>
                  if ((b1 =? 92) && (b2 =? 117))%N then
                    match s4 with
                    | g1 :: g2 :: g3 :: g4 :: s5 =>
                      match hex4 g1 g2 g3 g4 with
                      | None => Stop InvalidUnicodeEscape
                      | Some uni2 =>
                        if is_low_surrogate uni2
                        then scanstring (join_surrogates uni uni2 :: acc) s5
                        else scanstring (uni :: acc) s3
                      end
                    | _ => Stop InvalidUnicodeEscape
                    end
                  else scanstring (uni :: acc) s3
                | _ => scanstring (uni :: acc) s3
                end
              else scanstring (uni :: acc) s3
            end
          | _ => Stop InvalidUnicodeEscape
          end
        else
          match backslash esc with
          | Some ch => scanstring (ch :: acc) s2
          | None => Stop InvalidEscape
          end
      end
    else if (c <? 32)%N then Stop InvalidControlCharacter
    else scanstring (c :: acc) s1
  end.

(** The longest run of digits at the head of the text, and the rest. *)
Fixpoint digits (s : pystr) : pystr * pystr :=
  match s with
  | c :: s' =>
    if is_digit c then let '(ds, r) := digits s' in (c :: ds, r) else ([], s)
  | [] => ([], [])
  end.

Definition int_of_digits (ds : pystr) : Z :=
  fold_left (fun acc c => (10 * acc + Z.of_N (c - 48)%N)%Z) ds 0%Z.

(** [NUMBER_RE] matched at the head of the text: an integer part (an
    optional minus sign, then 0 or a non-zero digit and digits), an
    optional fraction (a point and digits) and an optional exponent (e or
    E, an optional sign and digits).  The value is an [int] unless a
    fraction or an exponent was matched. *)
Definition integer_part (s : pystr) : option (pystr * pystr) :=
  let '(sign, s1) :=
    match s with
    | c :: t => if (c =? 45)%N then ([c], t) else ([], s)
    | [] => ([], s)
    end in
  match s1 with
  | c :: t =>
    if (c =? 48)%N then Some (sign ++ [c], t)
    else if is_digit c then let '(ds, r) := digits t in Some (sign ++ c :: ds, r)
    else None
  | [] => None
  end.

Definition frac_part (s : pystr) : option (pystr * pystr) :=
  match s with
  | c :: t =>
    if (c =? 46)%N then
      match digits t with
      | ([], _) => None
      | (ds, r) => Some (c :: ds, r)
      end
    else None
  | [] => None
  end.

Definition exp_part (s : pystr) : option (pystr * pystr) :=
  match s with
  | c :: t =>
    if ((c =? 101) || (c =? 69))%N then
      let '(sign, t1) :=
        match t with
        | d :: t' => if ((d =? 45) || (d =? 43))%N then ([d], t') else ([], t)
        | [] => ([], t)
        end in
      match digits t1 with
      | ([], _) => None
      | (ds, r) => Some (c :: sign ++ ds, r)
      end
    else None
  | [] => None
  end.

(** [int(text)] for the text of an integer part; [None] is its
    [ValueError]. *)
Definition parse_int `{PyRuntime} (text : pystr) : option pyval :=
  match text with
  | c :: ds =>
    if (c =? 45)%N then
      if Builtins.too_many_digits (length ds) then None
      else Some (PInt (- int_of_digits ds))
    else
      if Builtins.too_many_digits (length text) then None
      else Some (PInt (int_of_digits text))
  | [] => Some (PInt 0)
  end.

(** The number matched at the head of the text and the rest; the number
    is [None] when [int()] raises on it. *)
Definition match_number `{PyRuntime} (s : pystr) : option (option pyval * pystr) :=
  match integer_part s with
  | None => None
  | Some (integer, r1) =>
    let '(frac, r2) :=
      match frac_part r1 with
      | Some (f, r) => (f, r)
      | None => ([], r1)
      end in
    let '(exp, r3) :=
      match exp_part r2 with
      | Some (e, r) => (e, r)
      | None => ([], r2)
      end in
    match frac ++ exp with
    | [] => Some (parse_int integer, r3)
    | _ => Some (Some (PFloat (integer ++ frac ++ exp)), r3)
    end
  end.

(** The loop of [JSONArray], from the first value on.  [fuel] is the
    model's own: more than the characters left, it never runs out
    ([array_loop_ok]). *)
Fixpoint array_loop (scan_once : pystr -> scan pyval) (fuel : nat)
    (values : list pyval) (s : pystr) : scan pyval :=
  match fuel with
  | O => Halt Depth
  | S fuel' =>
    match scan_once s with
    | Halt l => Halt l
    | Stop e => Stop e
    | Got value r1 =>
      let values := values ++ [value] in
      match skip_ws r1 with
      | c :: r2 =>
        if (c =? 93)%N then Got (PList values) r2
        else if (c =? 44)%N then array_loop scan_once fuel' values (skip_ws r2)
        else Stop ExpectingComma
      | [] => Stop ExpectingComma
      end
    end
  end.

(** [JSONArray], from the character after the bracket. *)
Definition JSONArray (scan_once : pystr -> scan pyval) (s : pystr) : scan pyval :=
  let s1 := skip_ws s in
  if Str.startswith [93%N] s1 then Got (PList []) (drop 1 s1)
  else array_loop scan_once (S (length s)) [] s1.

(** The loop of [JSONObject], from the character after the quote that
    opens a key; [fuel] as in [array_loop]. *)
Fixpoint object_loop (scan_once : pystr -> scan pyval) (fuel : nat)
    (pairs : gmap pystr pyval) (s : pystr) : scan pyval :=
  match fuel with
  | O => Halt Depth
  | S fuel' =>
    match scanstring [] s with
    | Halt l => Halt l
    | Stop e => Stop e
    | Got key r1 =>
      match skip_ws r1 with
      | c :: r2 =>
        if (c =? 58)%N then
          match scan_once (skip_ws r2) with
          | Halt l => Halt l
          | Stop e => Stop e
          | Got value r3 =>
            let pairs := <[key := value]> pairs in
            match skip_ws r3 with
            | d :: r4 =>
              if (d =? 125)%N then Got (PDict pairs) r4
              else if (d =? 44)%N then
                match skip_ws r4 with
                | q :: r5 =>
                  if (q =? 34)%N then object_loop scan_once fuel' pairs r5
                  else Stop ExpectingPropertyName
                | [] => Stop ExpectingPropertyName
                end
              else Stop ExpectingComma
            | [] => Stop ExpectingComma
            end
          end
        else Stop ExpectingColon
      | [] => Stop ExpectingColon
      end
    end
  end.

(** [JSONObject], from the character after the brace. *)
Definition JSONObject (scan_once : pystr -> scan pyval) (s : pystr) : scan pyval :=
  match skip_ws s with
  | c :: r =>
    if (c =? 125)%N then Got (PDict ∅) r
    else if (c =? 34)%N then object_loop scan_once (length s) ∅ r
    else Stop ExpectingPropertyName
  | [] => Stop ExpectingPropertyName
  end.

(** [_scan_once]; [fuel] is how many arrays and objects inside one
    another it can still enter: the scanner asks the interpreter before
    it enters one, and for nothing else. *)
Fixpoint scan_once `{PyRuntime} (fuel : nat) (s : pystr) : scan pyval :=
  match s with
  | [] => Stop ExpectingValue
  | c :: s' =>
    if (c =? 34)%N then
      match scanstring [] s' with
      | Halt l => Halt l
      | Stop e => Stop e
      | Got str r => Got (PStr str) r
      end
    else if (c =? 123)%N then
      match fuel with
      | O => Halt Depth
      | S fuel' => JSONObject (scan_once fuel') s'
      end
    else if (c =? 91)%N then
      match fuel with
      | O => Halt Depth
      | S fuel' => JSONArray (scan_once fuel') s'
      end
    else if Str.startswith (py "null") s then Got PNone (drop 4 s)
    else if Str.startswith (py "true") s then Got (PBool true) (drop 4 s)
    else if Str.startswith (py "false") s then Got (PBool false) (drop 5 s)
    else
      match match_number s with
      | Some (Some v, r) => Got v r
      | Some (None, _) => Halt Digits
      | None =>
        if Str.startswith (py "NaN") s then Got (PFloat (py "nan")) (drop 3 s)
        else if Str.startswith (py "Infinity") s then Got (PFloat (py "inf")) (drop 8 s)
        else if Str.startswith (py "-Infinity") s then Got (PFloat (py "-inf")) (drop 9 s)
        else Stop ExpectingValue
      end
  end.

(** [json.loads(s)] for a [str]: [JSONDecoder.decode] after the check
    for a byte-order mark.  The two limits raise what the interpreter
    raises, neither of which is a [JSONDecodeError]. *)
Definition loads `{PyRuntime} (s : pystr) : outcome pyval :=
  if Str.startswith [65279%N] s then Raise (JSONDecodeError UnexpectedBOM s)
  else
    match scan_once json_depth (skip_ws s) with
    | Halt Depth => Raise RecursionError
    | Halt Digits => Raise IntTooLong
    | Stop e => Raise (JSONDecodeError e s)
    | Got obj rest =>
      match skip_ws rest with
      | [] => Return obj
      | _ :: _ => Raise (JSONDecodeError ExtraData s)
      end
    end.

End Json.

(** ** The class [OutputCleaner] *)
Module OutputCleaner.
Import Builtins.

(** A dictionary display [{k1: v1, k2: v2, ...}]: the items are stored
    from left to right. *)
Definition dict_of (items : list (pystr * pyval)) : gmap pystr pyval :=
  foldl (fun d kv => <[kv.1 := kv.2]> d) ∅ items.

Definition FENCE_JSON : pystr := py "```json".
Definition FENCE : pystr := py "```".

(** The text handed to [json.loads]: the three branches of the [if]. *)
Definition json_str_of (response : pystr) : outcome pystr :=
  if Str.contains FENCE_JSON response then
    a ← list_getitem (Str.split FENCE_JSON response) 1;
    b ← list_getitem (Str.split FENCE a) 0;
    mret (Str.strip b)
  else if Str.contains FENCE response then
    a ← list_getitem (Str.split FENCE response) 1;
    mret (Str.strip a)
  else mret (Str.strip response).

(** [extract_json_from_response]: the [try] block, and the handler that
    catches [json.JSONDecodeError] and nothing else. *)
Definition extract_json_from_response `{PyRuntime} (response : pystr)
  : outcome (gmap pystr pyval) :=
  let try_block :=
    json_str ← json_str_of response;
    parsed_data ← Json.loads json_str;
    mret (dict_of [(py "success", PBool true);
                   (py "data", parsed_data);
                   (py "error", PNone)]) in
  match try_block with
  | Raise (JSONDecodeError msg doc) =>
    Return (dict_of [(py "success", PBool false);
                     (py "data", PNone);
                     (py "error", PStr (py "JSON 파싱 오류: " ++ str_JSONDecodeError msg doc));
                     (py "raw_response", PStr response)])
  | other => other
  end.

(** [_clean_phone_number]: [re.sub] with the class of everything that is
    neither a [\d] nor one of [-+()]. *)
Definition phone_junk `{PyRuntime} (c : N) : bool :=
  negb (isdecimal c || (c =? 45)%N || (c =? 43)%N || (c =? 40)%N || (c =? 41)%N).

Definition _clean_phone_number `{PyRuntime} (phone : pystr) : pyval :=
  let cleaned := Re.sub_class phone_junk [] phone in
  if bool_decide (cleaned = []) then PNone else PStr cleaned.

(** The classes and the pattern of [_clean_email]. *)
Definition is_letter (c : N) : bool :=
  ((97 <=? c) && (c <=? 122) || (65 <=? c) && (c <=? 90))%N.
Definition is_alnum (c : N) : bool :=
  is_letter c || ((48 <=? c) && (c <=? 57))%N.
(** [[a-zA-Z0-9._%+-]] *)
Definition local_char (c : N) : bool :=
  is_alnum c || (c =? 46)%N || (c =? 95)%N || (c =? 37)%N || (c =? 43)%N || (c =? 45)%N.
(** [[a-zA-Z0-9.-]] *)
Definition domain_char (c : N) : bool :=
  is_alnum c || (c =? 46)%N || (c =? 45)%N.

Definition email_pattern : Re.regex :=
  Re.Cat (Re.Plus (Re.Cls local_char))
    (Re.Cat (Re.Chr 64)
       (Re.Cat (Re.Plus (Re.Cls domain_char))
          (Re.Cat (Re.Chr 46) (Re.AtLeast2 (Re.Cls is_letter))))).

Definition _clean_email `{PyRuntime} (email : pystr) : pyval :=
  if Re.match_anchored email_pattern (Str.strip email)
  then PStr (lower (Str.strip email))
  else PNone.

(** The sentinel texts of [_clean_field_value]. *)
Definition sentinels : list pystr := [py "null"; py "none"; py "n/a"; py "-"].

Definition _clean_field_value `{PyRuntime} (value : pyval) (field_type : pystr)
  : pyval :=
  if is_None value || eq_str value [] then PNone
  else
    let str_value := Str.strip (str value) in
    if bool_decide (str_value = []) || bool_decide (lower str_value ∈ sentinels)
    then PNone
    else if bool_decide (field_type = py "phone") then _clean_phone_number str_value
    else if bool_decide (field_type = py "email") then _clean_email str_value
    else PStr str_value.

(** The table [field_mapping], in the order of the display. *)
Definition field_mapping : list (pystr * list pystr) :=
  [ (py "name", [py "name"; py "이름"; py "성명"]);
    (py "phone", [py "phone"; py "전화번호"; py "휴대폰"; py "연락처"]);
    (py "email", [py "email"; py "이메일"; py "메일"]);
    (py "social_id", [py "social_id"; py "카카오톡"; py "카톡"; py "sns"]);
    (py "position", [py "position"; py "직위"; py "직책"; py "역할"]);
    (py "company", [py "company"; py "회사"; py "기관"; py "업체"]);
    (py "address", [py "address"; py "주소"; py "소재지"]);
    (py "fax", [py "fax"; py "팩스"; py "팩시밀리"]) ].

(** The inner loop of [clean_business_card_data]: [value] stays [None]
    unless a key is present with a value other than [None], and the
    first such key ends the loop. *)
Fixpoint first_value (raw_data : gmap pystr pyval) (possible_keys : list pystr)
  : outcome pyval :=
  match possible_keys with
  | [] => Return PNone
  | key :: rest =>
    found ← (if dict_contains raw_data key
             then v ← dict_getitem raw_data key; mret (negb (is_None v))
             else mret false);
    if found : bool then dict_getitem raw_data key
    else first_value raw_data rest
  end.

(** The outer loop, over the items of [field_mapping]. *)
Fixpoint clean_fields `{PyRuntime} (raw_data : gmap pystr pyval)
    (fields : list (pystr * list pystr)) (cleaned_data : gmap pystr pyval)
  : outcome (gmap pystr pyval) :=
  match fields with
  | [] => Return cleaned_data
  | (standard_field, possible_keys) :: rest =>
    value ← first_value raw_data possible_keys;
    let cleaned_data :=
      if truthy value
      then <[standard_field := _clean_field_value value standard_field]> cleaned_data
      else <[standard_field := PNone]> cleaned_data in
    clean_fields raw_data rest cleaned_data
  end.

Definition clean_business_card_data `{PyRuntime} (raw_data : gmap pystr pyval)
  : outcome (gmap pystr pyval) :=
  clean_fields raw_data field_mapping ∅.

(** [create_final_result]; an argument that the caller leaves out is
    [None] here and takes its default. *)
Definition create_final_result (cleaned_data : gmap pystr pyval)
    (card_id : option Z) (image_path profile_image_url : option pyval)
  : gmap pystr pyval :=
  let card_id := default 1%Z card_id in
  let image_path := default PNone image_path in
  let profile_image_url := default PNone profile_image_url in
  dict_of [ (py "cardId", PInt card_id);
            (py "name", dict_get cleaned_data (py "name"));
            (py "phone", dict_get cleaned_data (py "phone"));
            (py "email", dict_get cleaned_data (py "email"));
            (py "profile_image_url", profile_image_url);
            (py "card_img_url", image_path);
            (py "address", dict_get cleaned_data (py "address"));
            (py "fax", dict_get cleaned_data (py "fax"));
            (py "position", dict_get cleaned_data (py "position"));
            (py "company", dict_get cleaned_data (py "company"));
            (py "social_id", dict_get cleaned_data (py "social_id")) ].

End OutputCleaner.

(** ** The cleaner under the limits of [str()]

    [str()] does not return for every value: an integer of more digits
    than the interpreter converts stops it with [ValueError], also inside
    a list or a dictionary, and so does, with [RecursionError], a value
    with more lists and dictionaries inside one another than the
    interpreter enters.  [OutputCleaner] describes the calls that
    return.  This module has the same functions of the cleaner with the
    two limits, under the same names. *)
Module Bounded.
Import Builtins.

(** The first limit met in the values [vs], from the left. *)
Definition first_stop (stop : pyval -> option limit) (vs : list pyval)
  : option limit :=
  foldr (fun v later => match stop v with Some l => Some l | None => later end)
        None vs.

(** The limit that stops [repr(v)], if one does; [fuel] is how many
    values inside one another can still be entered below [v].  An
    element is entered before it is looked at, and the elements of a
    list or the values of a dictionary are taken in their order. *)
Fixpoint repr_stop `{PyRuntime} (fuel : nat) (v : pyval) : option limit :=
  let inside (vs : list pyval) :=
    match fuel with
    | O => match vs with [] => None | _ :: _ => Some Depth end
    | S fuel' => first_stop (repr_stop fuel') vs
    end in
  match v with
  | PInt z =>
    if too_many_digits (length (Str.of_int (Z.abs z))) then Some Digits else None
  | PList l => inside l
  | PDict m => inside (dict_values m)
  | PNone | PBool _ | PFloat _ | PStr _ => None
  end.

Definition raised_at (l : limit) : exn :=
  match l with
  | Depth => RecursionError
  | Digits => IntTooLong
  end.

(** [str(v)] *)
Definition str `{PyRuntime} (v : pyval) : outcome pystr :=
  match repr_stop repr_depth v with
  | Some l => Raise (raised_at l)
  | None => Return (Builtins.str v)
  end.

Definition _clean_field_value `{PyRuntime} (value : pyval) (field_type : pystr)
  : outcome pyval :=
  if is_None value || eq_str value [] then Return PNone
  else
    text ← str value;
    let str_value := Str.strip text in
    if bool_decide (str_value = [])
       || bool_decide (lower str_value ∈ OutputCleaner.sentinels)
    then Return PNone
    else if bool_decide (field_type = py "phone")
    then Return (OutputCleaner._clean_phone_number str_value)
    else if bool_decide (field_type = py "email")
    then Return (OutputCleaner._clean_email str_value)
    else Return (PStr str_value).

Fixpoint clean_fields `{PyRuntime} (raw_data : gmap pystr pyval)
    (fields : list (pystr * list pystr)) (cleaned_data : gmap pystr pyval)
  : outcome (gmap pystr pyval) :=
  match fields with
  | [] => Return cleaned_data
  | (standard_field, possible_keys) :: rest =>
    value ← OutputCleaner.first_value raw_data possible_keys;
    cleaned_data ←
      (if truthy value
       then cleaned ← _clean_field_value value standard_field;
            mret (<[standard_field := cleaned]> cleaned_data)
       else mret (<[standard_field := PNone]> cleaned_data));
    clean_fields raw_data rest cleaned_data
  end.

Definition clean_business_card_data `{PyRuntime} (raw_data : gmap pystr pyval)
  : outcome (gmap pystr pyval) :=
  clean_fields raw_data OutputCleaner.field_mapping ∅.

End Bounded.

(** ** Vocabulary of the statements *)

(** An occurrence of [sep] in [a ++ rest] starts inside [a]. *)
Fixpoint occurs_within (sep a rest : pystr) : bool :=
  match a with
  | [] => false
  | _ :: a' => Str.startswith sep (a ++ rest) || occurs_within sep a' rest
  end.

(** The words of a regular expression. *)
Inductive lang : Re.regex -> pystr -> Prop :=
| lang_eps : lang Re.Eps []
| lang_cls p c : p c = true -> lang (Re.Cls p) [c]
| lang_cat r1 r2 s1 s2 : lang r1 s1 -> lang r2 s2 -> lang (Re.Cat r1 r2) (s1 ++ s2)
| lang_alt_l r1 r2 s : lang r1 s -> lang (Re.Alt r1 r2) s
| lang_alt_r r1 r2 s : lang r2 s -> lang (Re.Alt r1 r2) s
| lang_star_nil r : lang (Re.Star r) []
| lang_star_app r s1 s2 : lang r s1 -> lang (Re.Star r) s2 -> lang (Re.Star r) (s1 ++ s2).

(** Every class of [r] only holds characters with the property [P]. *)
Fixpoint classes_in (P : N -> Prop) (r : Re.regex) : Prop :=
  match r with
  | Re.Cls p => forall c, p c = true -> P c
  | Re.Cat r1 r2 | Re.Alt r1 r2 => classes_in P r1 /\ classes_in P r2
  | Re.Star r1 => classes_in P r1
  | Re.Void | Re.Eps => True
  end.

(** Every class of [r] is closed under the character map [f]. *)
Fixpoint classes_closed (f : N -> N) (r : Re.regex) : Prop :=
  match r with
  | Re.Cls p => forall c, p c = true -> p (f c) = true
  | Re.Cat r1 r2 | Re.Alt r1 r2 => classes_closed f r1 /\ classes_closed f r2
  | Re.Star r1 => classes_closed f r1
  | Re.Void | Re.Eps => True
  end.

(** No character of [x] is a backtick. *)
Definition no_tick (x : pystr) : Prop := Forall (fun c => c <> 96%N) x.

(** A visible ASCII character other than the backtick. *)
Definition solid (c : N) : Prop := (32 < c < 127)%N /\ c <> 96%N.


(** What a scan of [s] may answer: a value only after reading at least
    one character, the last of which is a visible ASCII character other
    than the backtick; and, when [deep] is set, not the recursion
    limit. *)
Definition scan_ok (deep : bool) (s : pystr) (r : Json.scan pyval) : Prop :=
  match r with
  | Json.Halt Depth => deep = false
  | Json.Halt Digits => True
  | Json.Stop _ => True
  | Json.Got _ rest => exists c, solid c /\ (c :: rest) `suffix_of` s
  end.


(** The characters phone normalization keeps: digits and [+ - ( )]. *)
Definition phone_keep `{PyRuntime} (c : N) : bool :=
  Builtins.isdecimal c || (c =? 43)%N || (c =? 45)%N || (c =? 40)%N || (c =? 41)%N.

(** The value the inner loop of [clean_business_card_data] selects: that
    of the first key that is present with a value other than [None]. *)
Fixpoint select_alias (raw_data : gmap pystr pyval) (possible_keys : list pystr)
  : pyval :=
  match possible_keys with
  | [] => PNone
  | key :: rest =>
    match raw_data !! key with
    | Some v => if Builtins.is_None v then select_alias raw_data rest else v
    | None => select_alias raw_data rest
    end
  end.

(** What [clean_business_card_data] stores for a field. *)
Definition cleaned_value `{PyRuntime} (raw_data : gmap pystr pyval)
    (standard_field : pystr) (possible_keys : list pystr) : pyval :=
  let value := select_alias raw_data possible_keys in
  if Builtins.truthy value
  then OutputCleaner._clean_field_value value standard_field
  else PNone.

(** The limit that stops the cleaning of a field, if one does: that of
    [str()] on the value selected, when the value is true as a
    condition; and the first limit met over the fields, in their
    order. *)
Definition field_stop `{PyRuntime} (raw_data : gmap pystr pyval)
    (possible_keys : list pystr) : option limit :=
  let value := select_alias raw_data possible_keys in
  if Builtins.truthy value then Bounded.repr_stop repr_depth value else None.

Fixpoint fields_stop `{PyRuntime} (raw_data : gmap pystr pyval)
    (fields : list (pystr * list pystr)) : option limit :=
  match fields with
  | [] => None
  | (_, possible_keys) :: rest =>
    match field_stop raw_data possible_keys with
    | Some l => Some l
    | None => fields_stop raw_data rest
    end
  end.

(** A text that is not empty and neither starts nor ends with white
    space. *)
Definition trimmed_text (s : pystr) : Prop :=
  s <> []
  /\ (forall c t, s = c :: t -> Str.isspace c = false)
  /\ (forall c, last s = Some c -> Str.isspace c = false).

(** The absence marker or a trimmed text. *)
Definition clean_result (v : pyval) : Prop :=
  v = PNone \/ exists s, v = PStr s /\ trimmed_text s.

(** The raw values that stand for "no value": [None], and the texts
    that are, in any letter case and with white space around them, empty
    or one of [null], [N/A], [-], [none]. *)
Definition absent_texts : list pystr := [[]; py "null"; py "N/A"; py "-"; py "none"].

Definition absent_input (value : pyval) : Prop :=
  value = PNone
  \/ exists s t, value = PStr s /\ t ∈ absent_texts
                 /\ map Str.lower_ascii (Str.strip s) = map Str.lower_ascii t.

(** The values [_clean_field_value] answers with [None] whatever the
    field: [None], and a value whose text, trimmed, is empty or, in
    lower case, one of the sentinel texts. *)
Definition dropped `{PyRuntime} (value : pyval) : bool :=
  Builtins.is_None value
  || bool_decide (Str.strip (Builtins.str value) = [])
  || bool_decide (Builtins.lower (Str.strip (Builtins.str value))
                  ∈ OutputCleaner.sentinels).

(** A raw value is missing under a key: the key is absent or bound to
    [None]. *)
Definition missing (raw_data : gmap pystr pyval) (key : pystr) : Prop :=
  raw_data !! key = None \/ raw_data !! key = Some PNone.

(** The keys of the cleaned record and of the final result. *)
Definition canonical_fields : list pystr :=
  [py "name"; py "phone"; py "email"; py "social_id";
   py "position"; py "company"; py "address"; py "fax"].

Definition final_keys : list pystr :=
  [py "cardId"; py "name"; py "phone"; py "email"; py "profile_image_url";
   py "card_img_url"; py "address"; py "fax"; py "position"; py "company";
   py "social_id"].

(** The characters of an e-mail address that matches the pattern. *)
Definition email_char (c : N) : bool :=
  OutputCleaner.local_char c || (c =? 64)%N.

(** JSON text for the examples, written with an apostrophe where the text
    has a double quote. *)
Definition jq (s : pystr) : pystr :=
  map (fun c => if (c =? 39)%N then 34%N else c) s.

Abbreviation js s :=
  (ltac:(let v := eval vm_compute in (jq (u8 s%string)) in exact v)) (only parsing).

(** The two dictionaries [extract_json_from_response] returns. *)
Definition extraction_success (parsed_data : pyval) : gmap pystr pyval :=
  OutputCleaner.dict_of [(py "success", PBool true);
                         (py "data", parsed_data);
                         (py "error", PNone)].

Definition extraction_failure `{PyRuntime} (msg : decode_error)
    (doc response : pystr) : gmap pystr pyval :=
  OutputCleaner.dict_of
    [(py "success", PBool false);
     (py "data", PNone);
     (py "error", PStr (py "JSON 파싱 오류: " ++ str_JSONDecodeError msg doc));
     (py "raw_response", PStr response)].

(** A runtime that knows ASCII only, with the default limits, 994 levels
    left to the decoder and 996 to [str()], for running the model on
    examples. *)
Definition ascii_runtime : PyRuntime :=
  {| unicode_decimal := fun _ => false;
     unicode_lower := fun s => s;
     float_is_zero := fun _ => false;
     repr_other := fun _ => py "<repr>";
     str_JSONDecodeError := fun _ _ => py "<error>";
     json_depth := 994;
     int_max_str_digits := 4300;
     repr_depth := 996;
     dict_values := fun m => (map_to_list m).*2;
     unicode_decimal_not_space := fun c (H : false = true) =>
       False_ind (Str.isspace c = false) (Bool.diff_false_true H);
     int_max_str_digits_range := or_intror (proj1 (Nat.leb_le 640 4300) eq_refl);
     dict_values_items := fun m => reflexivity _ |}.

(** * The pipeline around the cleaner

    [main.py] runs the cleaner between two calls to services:
    [vision.py] asks Google Vision for the text of the image and
    [groq_llama_paser.py] asks a language model to sort it into fields.
    These files read and write files, print and go over the network.  A
    method is embedded as a program in the monad [io]: it returns, raises,
    or puts a [request] to the outside and goes on with the answer.  The
    objects of the two client libraries are records of what the code
    reads from them.

    Not embedded: [VisionOCR.__init__] and
    [BusinessCardProcessor.__init__], which create the client objects, and
    [main], the command line. *)

(** ** Exceptions *)

(** The errors the interpreter raises on its own account, with what
    they are about. *)
Inductive fault :=
| NoKey (key : pyval)                (* KeyError: a dictionary lacks the key *)
| NoIndex                            (* IndexError: an index is out of range *)
| NotContainer (v : pyval)           (* TypeError: [x in v] *)
| NotSubscriptable (v key : pyval)   (* TypeError: [v[key]] *)
| NoLen (v : pyval)                  (* TypeError: [len(v)] *)
| NotText (v : pyval)                (* TypeError: [f.write(v)] *)
| NoAttribute (v : pyval) (name : pystr).  (* AttributeError: [v.name] *)

(** What a call of the pipeline can raise: a fault, an exception of the
    cleaner, [ValueError(msg)], [Exception(msg)], or an exception from
    inside a library call to the outside.  Of the last the code only
    uses [str(e)] and whether it is a
    [requests.exceptions.RequestException].  All of them are caught by
    [except Exception]. *)
Inductive raised :=
| Fault (f : fault)
| FromCleaner (e : exn)
| ValueError (msg : pystr)
| PlainException (msg : pystr)
| Foreign (request_exception : bool) (msg : pystr).

(** The texts of the interpreter's own error messages. *)
Class PyErrors := {
  str_fault : fault -> pystr;
  str_exn : exn -> pystr
}.

(** [str(e)] *)
Definition str_raised `{PyErrors} (e : raised) : pystr :=
  match e with
  | Fault f => str_fault f
  | FromCleaner e => str_exn e
  | ValueError msg | PlainException msg | Foreign _ msg => msg
  end.

(** ** The outside *)

Definition bytes : Type := list N.

(** What a library call answers: it returns, or raises an exception
    with the text [msg]. *)
Inductive answer (X : Type) :=
| Returned (x : X)
| Threw (request_exception : bool) (msg : pystr).
Arguments Returned {X} x.
Arguments Threw {X} request_exception msg.

(** The response of [document_text_detection]: [response.error.message],
    the [description] of each of [response.text_annotations], and
    [MessageToDict(response._pb)]. *)
Record AnnotateImageResponse := {
  error_message : pystr;
  text_annotations : list pystr;
  message_dict : pyval
}.

(** The response of [requests.post]: the text of the [HTTPError] that
    [raise_for_status()] raises, if it does, and what [json()] answers. *)
Record Response := {
  http_error : option pystr;
  json_body : answer pyval
}.

(** The requests of the pipeline.  A file opened for writing is created
    or emptied by [OpenWrite]; [Write] is [f.write(text)] and [Dump] is
    [json.dump(obj, f, indent=4, ensure_ascii=False)], each up to the
    end of its [with] block.  [Print] is [print(line)] on a standard
    output that takes the line.  On an output that cannot encode the
    line [print] raises: the runs of this model are the runs in which
    it does not. *)
Inductive request : Type -> Type :=
| Print (line : pystr) : request unit
| Getenv (name : pystr) : request (option pystr)
| ReadBinary (path : pystr) : request (answer bytes)
| DocumentTextDetection (content : bytes) : request (answer AnnotateImageResponse)
| Post (url : pystr) (headers : gmap pystr pyval) (json : pyval)
    : request (answer Response)
| OpenWrite (filename : pystr) : request (answer unit)
| Write (filename : pystr) (text : pystr) : request (answer unit)
| Dump (filename : pystr) (obj : pyval) : request (answer unit).

(** A program: it is done, it raises, or it asks and continues. *)
Inductive io (A : Type) : Type :=
| Done (a : A)
| Throw (e : raised)
| Ask {X : Type} (q : request X) (k : X -> io A).
Arguments Done {A} a.
Arguments Throw {A} e.
Arguments Ask {A X} q k.

Fixpoint io_bind {A B : Type} (f : A -> io B) (m : io A) : io B :=
  match m with
  | Done a => f a
  | Throw e => Throw e
  | Ask q k => Ask q (fun x => io_bind f (k x))
  end.

#[global] Instance io_ret : MRet io := fun A a => Done a.
#[global] Instance io_mbind : MBind io := fun A B f m => io_bind f m.

(** [try: m  except ...: h], where [h e] is [None] for an exception the
    clause does not name. *)
Fixpoint catch {A : Type} (m : io A) (h : raised -> option (io A)) : io A :=
  match m with
  | Done a => Done a
  | Throw e => match h e with Some p => p | None => Throw e end
  | Ask q k => Ask q (fun x => catch (k x) h)
  end.

Definition ask {X : Type} (q : request X) : io X := Ask q Done.

(** A library call: an exception it raises is raised at the call. *)
Definition thrown {X : Type} (a : answer X) : io X :=
  match a with
  | Returned x => Done x
  | Threw request_exception msg => Throw (Foreign request_exception msg)
  end.

Definition call {X : Type} (q : request (answer X)) : io X :=
  Ask q thrown.

(** A call of the cleaner. *)
Definition lift {A : Type} (o : outcome A) : io A :=
  match o with
  | Return a => Done a
  | Raise e => Throw (FromCleaner e)
  end.

(** ** Operators on a value of any type *)
Module Dyn.
Import Builtins.

(** [key in v] for a [str] [key]: a key of a dictionary, an item of a
    list, a part of a text. *)
Definition contains (v : pyval) (key : pystr) : io bool :=
  match v with
  | PDict m => Done (dict_contains m key)
  | PList l => Done (existsb (fun x => eq_str x key) l)
  | PStr s => Done (Str.contains key s)
  | _ => Throw (Fault (NotContainer v))
  end.

(** [v[key]] for a [str] [key] *)
Definition getitem (v : pyval) (key : pystr) : io pyval :=
  match v with
  | PDict m =>
    match m !! key with
    | Some x => Done x
    | None => Throw (Fault (NoKey (PStr key)))
    end
  | _ => Throw (Fault (NotSubscriptable v (PStr key)))
  end.

(** [v[i]] for an index [i] that is not negative *)
Definition getindex (v : pyval) (i : nat) : io pyval :=
  match v with
  | PList l =>
    match l !! i with
    | Some x => Done x
    | None => Throw (Fault NoIndex)
    end
  | PStr s =>
    match s !! i with
    | Some c => Done (PStr [c])
    | None => Throw (Fault NoIndex)
    end
  | PDict _ => Throw (Fault (NoKey (PInt (Z.of_nat i))))
  | _ => Throw (Fault (NotSubscriptable v (PInt (Z.of_nat i))))
  end.

(** [len(v)] *)
Definition len (v : pyval) : io nat :=
  match v with
  | PStr s => Done (length s)
  | PList l => Done (length l)
  | PDict m => Done (size m)
  | _ => Throw (Fault (NoLen v))
  end.

(** [d[key]] for a dictionary [d] *)
Definition item (d : gmap pystr pyval) (key : pystr) : io pyval :=
  getitem (PDict d) key.

End Dyn.

(** ** The cleaner as the pipeline calls it *)
Module CleanerCalls.
Import Builtins OutputCleaner.

(** [extract_json_from_response] on whatever the model's reply holds.
    On a value that is not a [str] the tests [in] are those of its type,
    and it has no [split] and no [strip]. *)
Definition extract_json_from_response_any `{PyRuntime} (response : pyval)
  : io (gmap pystr pyval) :=
  match response with
  | PStr s => lift (extract_json_from_response s)
  | _ =>
    tagged ← Dyn.contains response FENCE_JSON;
    if tagged : bool then Throw (Fault (NoAttribute response (py "split")))
    else
      fenced ← Dyn.contains response FENCE;
      if fenced : bool then Throw (Fault (NoAttribute response (py "split")))
      else Throw (Fault (NoAttribute response (py "strip")))
  end.

(** [clean_business_card_data] on whatever the reply decoded to: the
    loops of [first_value] and [clean_fields] with the operators of the
    value's type, and [_clean_field_value] as in [OutputCleaner], where
    [str()] returns. *)
Fixpoint first_value_any (raw_data : pyval) (possible_keys : list pystr)
  : io pyval :=
  match possible_keys with
  | [] => Done PNone
  | key :: rest =>
    present ← Dyn.contains raw_data key;
    found ← (if present : bool
             then v ← Dyn.getitem raw_data key; Done (negb (is_None v))
             else Done false);
    if found : bool then Dyn.getitem raw_data key
    else first_value_any raw_data rest
  end.

Fixpoint clean_fields_any `{PyRuntime} (raw_data : pyval)
    (fields : list (pystr * list pystr)) (cleaned_data : gmap pystr pyval)
  : io (gmap pystr pyval) :=
  match fields with
  | [] => Done cleaned_data
  | (standard_field, possible_keys) :: rest =>
    value ← first_value_any raw_data possible_keys;
    let cleaned_data :=
      if truthy value
      then <[standard_field := _clean_field_value value standard_field]> cleaned_data
      else <[standard_field := PNone]> cleaned_data in
    clean_fields_any raw_data rest cleaned_data
  end.

Definition clean_business_card_data_any `{PyRuntime} (raw_data : pyval)
  : io (gmap pystr pyval) :=
  clean_fields_any raw_data field_mapping ∅.

(** [save_result]; [filename] is [None] when the caller leaves it out. *)
Definition save_result `{PyErrors} (data : gmap pystr pyval)
    (filename : option pystr) : io bool :=
  let filename := default (py "card_classified_data.json") filename in
  catch
    (_ ← call (OpenWrite filename);
     _ ← call (Dump filename (PDict data));
     _ ← ask (Print (py "✅ 명함 분류 결과 저장 완료: " ++ filename));
     Done true)
    (fun e =>
       Some (_ ← ask (Print (py "❌ 파일 저장 오류: " ++ str_raised e));
             Done false)).

End CleanerCalls.

(** ** The class [VisionOCR] *)
Module VisionOCR.
Import Builtins OutputCleaner.

Definition extract_text_from_image `{PyErrors} (image_path : pystr)
  : io (gmap pystr pyval) :=
  catch
    (content ← call (ReadBinary image_path);
     response ← call (DocumentTextDetection content);
     if negb (bool_decide (error_message response = []))
     then Throw (PlainException (py "Vision API 오류: " ++ error_message response))
     else
       match text_annotations response with
       | description :: _ =>
         Done (dict_of [(py "success", PBool true);
                        (py "extracted_text", PStr description);
                        (py "full_response", message_dict response);
                        (py "error", PNone)])
       | [] =>
         Done (dict_of [(py "success", PBool false);
                        (py "extracted_text", PNone);
                        (py "full_response", PNone);
                        (py "error", PStr (py "OCR 결과 없음"))])
       end)
    (fun e =>
       Some (Done (dict_of [(py "success", PBool false);
                            (py "extracted_text", PNone);
                            (py "full_response", PNone);
                            (py "error", PStr (str_raised e))]))).

(** [save_ocr_results]; a file name is [None] when the caller leaves it
    out. *)
Definition save_ocr_results `{PyRuntime} `{PyErrors}
    (ocr_result : gmap pystr pyval) (text_filename json_filename : option pystr)
  : io bool :=
  let text_filename := default (py "ocr_result.txt") text_filename in
  let json_filename := default (py "ocr_result.json") json_filename in
  success ← Dyn.item ocr_result (py "success");
  if negb (truthy success) then
    error ← Dyn.item ocr_result (py "error");
    _ ← ask (Print (py "❌ OCR 결과 저장 실패: " ++ str error));
    Done false
  else
    catch
      (_ ← call (OpenWrite text_filename);
       text ← Dyn.item ocr_result (py "extracted_text");
       _ ← match text with
           | PStr s => call (Write text_filename s)
           | _ => Throw (Fault (NotText text))
           end;
       _ ← ask (Print (py "✅ OCR 텍스트 저장 완료: " ++ text_filename));
       _ ← call (OpenWrite json_filename);
       full_response ← Dyn.item ocr_result (py "full_response");
       _ ← call (Dump json_filename full_response);
       _ ← ask (Print (py "✅ OCR 결과 JSON 저장 완료: " ++ json_filename));
       Done true)
      (fun e =>
         Some (_ ← ask (Print (py "❌ 파일 저장 오류: " ++ str_raised e));
               Done false)).

End VisionOCR.

(** ** The class [GroqLLaMAParser] *)
Module GroqLLaMAParser.
Import Builtins OutputCleaner.

(** The attributes of an instance. *)
Record parser := {
  api_key : pyval;
  endpoint : pystr
}.

(** [__init__]: the key is the argument, or the environment variable
    when the argument is [None] or empty. *)
Definition __init__ `{PyRuntime} (api_key : pyval) : io parser :=
  key ← (if truthy api_key then Done api_key
         else v ← ask (Getenv (py "GROQ_API_KEY"));
              Done (from_option PStr PNone v));
  if negb (truthy key)
  then Throw (ValueError (py "GROQ_API_KEY가 설정되지 않았습니다. 환경변수나 매개변수로 제공해주세요."))
  else Done {| api_key := key;
               endpoint := py "https://api.groq.com/openai/v1/chat/completions" |}.

Definition default_model : pystr := py "llama3-70b-8192".

Definition system_prompt : pystr := py "명함에서 추출된 OCR 텍스트를 분석하여 다음 항목들을 JSON 형식으로 추출해주세요:
                    - name: 한글 이름
                    - phone: 전화번호
                    - email: 이메일
                    - social_id: 소셜 미디어 ID (카카오톡 등)
                    - position: 직위/직책
                    - company: 회사/기관명 (있는 경우)
                    - address: 주소 (있는 경우)
                    - fax: 팩스 번호 (있는 경우)

                    출력은 JSON 형식으로만 제공해주세요. 정보가 없는 필드는 null로 표시하세요.".

Definition headers `{PyRuntime} (self : parser) : gmap pystr pyval :=
  dict_of [(py "Content-Type", PStr (py "application/json"));
           (py "Authorization", PStr (py "Bearer " ++ str (api_key self)))].

Definition payload (model system_content user_content : pyval) : pyval :=
  PDict (dict_of
    [(py "model", model);
     (py "messages",
      PList [PDict (dict_of [(py "role", PStr (py "system"));
                             (py "content", system_content)]);
             PDict (dict_of [(py "role", PStr (py "user"));
                             (py "content", user_content)])]);
     (py "temperature", PFloat (py "0.3"));
     (py "max_tokens", PInt 1024)]).

(** What both methods make of the decoded reply: the [if] that follows
    [result = response.json()]. *)
Definition read_choices (result : pyval) : io (gmap pystr pyval) :=
  present ← Dyn.contains result (py "choices");
  answered ← (if present : bool
              then choices ← Dyn.getitem result (py "choices");
                   n ← Dyn.len choices;
                   Done (bool_decide (0 < n))
              else Done false);
  if answered : bool then
    choices ← Dyn.getitem result (py "choices");
    choice ← Dyn.getindex choices 0;
    message ← Dyn.getitem choice (py "message");
    ai_response ← Dyn.getitem message (py "content");
    Done (dict_of [(py "success", PBool true);
                   (py "raw_response", ai_response);
                   (py "error", PNone)])
  else
    Done (dict_of [(py "success", PBool false);
                   (py "raw_response", result);
                   (py "error", PStr (py "API 응답에 예상된 형식이 없습니다."))]).

(** The [try] statement that ends both methods: the request, the
    reading of the reply, and the clause for
    [requests.exceptions.RequestException]. *)
Definition send `{PyRuntime} (self : parser) (payload : pyval)
  : io (gmap pystr pyval) :=
  catch
    (response ← call (Post (endpoint self) (headers self) payload);
     _ ← match http_error response with
         | Some msg => Throw (Foreign true msg)
         | None => Done ()
         end;
     result ← thrown (json_body response);
     read_choices result)
    (fun e =>
       match e with
       | Foreign true msg =>
         Some (Done (dict_of [(py "success", PBool false);
                              (py "raw_response", PNone);
                              (py "error", PStr (py "API 요청 오류: " ++ msg))]))
       | _ => None
       end).

(** [model] is [None] when the caller leaves it out. *)
Definition classify_business_card_info `{PyRuntime} (self : parser)
    (text : pyval) (model : option pyval) : io (gmap pystr pyval) :=
  let model := default (PStr default_model) model in
  send self
    (payload model (PStr system_prompt)
       (PStr (py "다음은 명함에서 OCR로 추출한 텍스트입니다. 구조화된 정보로 분류해주세요:

" ++ str text))).

Definition parse_custom_prompt `{PyRuntime} (self : parser)
    (text custom_prompt : pyval) (model : option pyval) : io (gmap pystr pyval) :=
  let model := default (PStr default_model) model in
  send self (payload model custom_prompt text).

End GroqLLaMAParser.

(** ** The class [BusinessCardProcessor] *)
Module BusinessCardProcessor.
Import Builtins OutputCleaner CleanerCalls.

(** [process_business_card]; [self] is the parser the instance holds,
    the other two objects have no attributes the method reads. *)
Definition process_business_card `{PyRuntime} `{PyErrors}
    (self : GroqLLaMAParser.parser) (image_path : pystr)
    (card_id : option Z) (save_intermediate : option bool)
  : io (gmap pystr pyval) :=
  let card_id := default 1%Z card_id in
  let save_intermediate := default true save_intermediate in
  _ ← ask (Print (py "
🔹 명함 처리 시작: " ++ image_path));
  _ ← ask (Print (py "1️⃣ OCR 텍스트 추출 중..."));
  ocr_result ← VisionOCR.extract_text_from_image image_path;
  ocr_success ← Dyn.item ocr_result (py "success");
  if negb (truthy ocr_success) then
    error ← Dyn.item ocr_result (py "error");
    Done (dict_of [(py "success", PBool false);
                   (py "error", PStr (py "OCR 실패: " ++ str error));
                   (py "step", PStr (py "OCR"))])
  else
    extracted_text ← Dyn.item ocr_result (py "extracted_text");
    n ← Dyn.len extracted_text;
    _ ← ask (Print (py "✅ OCR 완료. 추출된 텍스트 길이: " ++ Str.of_int (Z.of_nat n)
                    ++ py " 문자"));
    _ ← (if save_intermediate : bool
         then _ ← VisionOCR.save_ocr_results ocr_result None None; Done ()
         else Done ());
    _ ← ask (Print (py "2️⃣ LLaMA API로 정보 분류 중..."));
    classification_result ←
      GroqLLaMAParser.classify_business_card_info self extracted_text None;
    classified ← Dyn.item classification_result (py "success");
    if negb (truthy classified) then
      error ← Dyn.item classification_result (py "error");
      Done (dict_of [(py "success", PBool false);
                     (py "error", PStr (py "분류 실패: " ++ str error));
                     (py "step", PStr (py "Classification"))])
    else
      _ ← ask (Print (py "✅ 분류 완료"));
      _ ← ask (Print (py "3️⃣ 결과 정제 중..."));
      raw_response ← Dyn.item classification_result (py "raw_response");
      json_result ← extract_json_from_response_any raw_response;
      parsed ← Dyn.item json_result (py "success");
      if negb (truthy parsed) then
        error ← Dyn.item json_result (py "error");
        raw_response ← Dyn.item classification_result (py "raw_response");
        Done (dict_of [(py "success", PBool false);
                       (py "error", PStr (py "JSON 파싱 실패: " ++ str error));
                       (py "step", PStr (py "JSON Parsing"));
                       (py "raw_response", raw_response)])
      else
        data ← Dyn.item json_result (py "data");
        cleaned_data ← clean_business_card_data_any data;
        let final_result :=
          create_final_result cleaned_data (Some card_id)
            (Some (PStr image_path)) None in
        _ ← ask (Print (py "✅ 정제 완료"));
        _ ← (if save_intermediate : bool
             then _ ← save_result final_result None; Done ()
             else Done ());
        Done (dict_of [(py "success", PBool true);
                       (py "data", PDict final_result);
                       (py "extracted_text", extracted_text);
                       (py "error", PNone)]).

(** The loop of [process_multiple_cards], at the index [i] of
    [enumerate]. *)
Fixpoint cards_loop `{PyRuntime} `{PyErrors} (self : GroqLLaMAParser.parser)
    (start_card_id : Z) (i : nat) (image_paths : list pystr)
    (results : list pyval) (success_count : Z) : io (list pyval * Z) :=
  match image_paths with
  | [] => Done (results, success_count)
  | image_path :: rest =>
    let card_id := (start_card_id + Z.of_nat i)%Z in
    result ← process_business_card self image_path (Some card_id) (Some false);
    let results :=
      results ++ [PDict (dict_of [(py "image_path", PStr image_path);
                                  (py "card_id", PInt card_id);
                                  (py "result", PDict result)])] in
    success ← Dyn.item result (py "success");
    if truthy success
    then cards_loop self start_card_id (S i) rest results (success_count + 1)%Z
    else
      error ← Dyn.item result (py "error");
      _ ← ask (Print (py "❌ 실패: " ++ image_path
                      ++ py " - " ++ str error));
      cards_loop self start_card_id (S i) rest results success_count
  end.

(** [process_multiple_cards]; [start_card_id] is 1 when the caller
    leaves it out. *)
Definition process_multiple_cards `{PyRuntime} `{PyErrors}
    (self : GroqLLaMAParser.parser) (image_paths : list pystr)
    (start_card_id : option Z) : io (gmap pystr pyval) :=
  let start_card_id := default 1%Z start_card_id in
  looped ← cards_loop self start_card_id 0 image_paths [] 0%Z;
  let results := looped.1 in
  let success_count := looped.2 in
  let total := Z.of_nat (length image_paths) in
  let batch_result :=
    dict_of [(py "total_processed", PInt total);
             (py "success_count", PInt success_count);
             (py "failure_count", PInt (total - success_count));
             (py "results", PList results)] in
  _ ← call (OpenWrite (py "batch_processing_result.json"));
  _ ← call (Dump (py "batch_processing_result.json") (PDict batch_result));
  _ ← ask (Print (py "
📊 일괄 처리 완료: " ++ Str.of_int success_count
                  ++ py "/" ++ Str.of_int total
                  ++ py " 성공"));
  Done batch_result.

End BusinessCardProcessor.

(** ** Vocabulary of the statements about the pipeline *)

(** A request with the answer it got. *)
Inductive event :=
| Printed (line : pystr)
| EnvRead (name : pystr) (value : option pystr)
| BinaryRead (path : pystr) (a : answer bytes)
| Detected (content : bytes) (a : answer AnnotateImageResponse)
| Posted (url : pystr) (headers : gmap pystr pyval) (json : pyval) (a : answer Response)
| Opened (filename : pystr) (a : answer unit)
| Wrote (filename : pystr) (text : pystr) (a : answer unit)
| Dumped (filename : pystr) (obj : pyval) (a : answer unit).

Definition event_of {X : Type} (q : request X) : X -> event :=
  match q in request X return X -> event with
  | Print line => fun _ => Printed line
  | Getenv name => EnvRead name
  | ReadBinary path => BinaryRead path
  | DocumentTextDetection content => Detected content
  | Post url headers json => Posted url headers json
  | OpenWrite filename => Opened filename
  | Write filename text => Wrote filename text
  | Dump filename obj => Dumped filename obj
  end.

(** [runs p t r]: the program [p] can exchange the events [t] with the
    outside, in this order, and end with [r], an exception or a value. *)
Fixpoint runs {A : Type} (p : io A) (t : list event) (r : raised + A) : Prop :=
  match p with
  | Done a => t = [] /\ r = inr a
  | Throw e => t = [] /\ r = inl e
  | Ask q k => exists x t', t = event_of q x :: t' /\ runs (k x) t' r
  end.

(** The events that touch a file, and the file they touch. *)
Definition written_file (e : event) : option pystr :=
  match e with
  | Opened filename _ | Wrote filename _ _ | Dumped filename _ _ => Some filename
  | _ => None
  end.

Definition is_post (e : event) : bool :=
  match e with
  | Posted _ _ _ _ => true
  | _ => false
  end.

Definition is_print (e : event) : bool :=
  match e with
  | Printed _ => true
  | _ => false
  end.

(** The dictionaries [extract_text_from_image] returns. *)
Definition ocr_success (extracted_text : pystr) (full_response : pyval)
  : gmap pystr pyval :=
  OutputCleaner.dict_of [(py "success", PBool true);
                         (py "extracted_text", PStr extracted_text);
                         (py "full_response", full_response);
                         (py "error", PNone)].

Definition ocr_failure (error : pystr) : gmap pystr pyval :=
  OutputCleaner.dict_of [(py "success", PBool false);
                         (py "extracted_text", PNone);
                         (py "full_response", PNone);
                         (py "error", PStr error)].

(** The dictionaries the two methods of [GroqLLaMAParser] return. *)
Definition reply_success (ai_response : pyval) : gmap pystr pyval :=
  OutputCleaner.dict_of [(py "success", PBool true);
                         (py "raw_response", ai_response);
                         (py "error", PNone)].

Definition reply_failure (raw_response : pyval) (error : pystr)
  : gmap pystr pyval :=
  OutputCleaner.dict_of [(py "success", PBool false);
                         (py "raw_response", raw_response);
                         (py "error", PStr error)].

(** The dictionaries [process_business_card] returns. *)
Definition stage_failure (error step : pystr) : gmap pystr pyval :=
  OutputCleaner.dict_of [(py "success", PBool false);
                         (py "error", PStr error);
                         (py "step", PStr step)].

Definition parsing_failure (error : pystr) (raw_response : pyval)
  : gmap pystr pyval :=
  OutputCleaner.dict_of [(py "success", PBool false);
                         (py "error", PStr error);
                         (py "step", PStr (py "JSON Parsing"));
                         (py "raw_response", raw_response)].

Definition card_success (final_result : gmap pystr pyval) (extracted_text : pyval)
  : gmap pystr pyval :=
  OutputCleaner.dict_of [(py "success", PBool true);
                         (py "data", PDict final_result);
                         (py "extracted_text", extracted_text);
                         (py "error", PNone)].

(** The record of all-absent fields. *)
Definition absent_record : gmap pystr pyval :=
  OutputCleaner.dict_of (map (fun field => (field, PNone)) canonical_fields).

(** Error texts for running the model on examples. *)
Definition plain_errors : PyErrors :=
  {| str_fault := fun _ => py "<fault>";
     str_exn := fun _ => py "<error>" |}.

(** [key in v] for a list or a text [v]. *)
Definition mentions (v : pyval) (key : pystr) : bool :=
  match v with
  | PList l => existsb (fun x => Builtins.eq_str x key) l
  | PStr s => Str.contains key s
  | _ => false
  end.

(** A cleaned record: the eight keys, each bound to the absence marker
    or to a trimmed text. *)
Definition cleaned_record (cleaned_data : gmap pystr pyval) : Prop :=
  dom cleaned_data = list_to_set canonical_fields
  /\ forall field v, cleaned_data !! field = Some v -> clean_result v.

(** Every event of every run of [p] has the property [P]. *)
Definition trace_all {A : Type} (P : event -> Prop) (p : io A) : Prop :=
  forall t r, runs p t r -> Forall P t.

(** The files [process_business_card] saves when asked to. *)
Definition intermediate_files : list pystr :=
  [py "ocr_result.txt"; py "ocr_result.json";
   py "card_classified_data.json"].

(** An event that touches no file, or one of the intermediate files
    when saving is on. *)
Definition saves_only (save_intermediate : bool) (e : event) : Prop :=
  match written_file e with
  | None => True
  | Some filename => save_intermediate = true /\ filename ∈ intermediate_files
  end.

(** An entry of the list [results] of [process_multiple_cards]. *)
Definition batch_entry (image_path : pystr) (card_id : Z)
    (result : gmap pystr pyval) : pyval :=
  PDict (OutputCleaner.dict_of [(py "image_path", PStr image_path);
                                (py "card_id", PInt card_id);
                                (py "result", PDict result)]).

(** The entries for the images [image_paths], the first of which has
    the index [i], with the results [outcomes]. *)
Fixpoint batch_entries (start_card_id : Z) (i : nat) (image_paths : list pystr)
    (outcomes : list (gmap pystr pyval)) : list pyval :=
  match image_paths, outcomes with
  | image_path :: paths, result :: rest =>
    batch_entry image_path (start_card_id + Z.of_nat i) result
    :: batch_entries start_card_id (S i) paths rest
  | _, _ => []
  end.

(** [outcomes] are results of [process_business_card] on the images, in
    their order, without saving, the image of index [k] with the card
    identifier [start_card_id + k]. *)
Fixpoint batch_of `{PyRuntime} `{PyErrors} (self : GroqLLaMAParser.parser)
    (start_card_id : Z) (i : nat) (image_paths : list pystr)
    (outcomes : list (gmap pystr pyval)) : Prop :=
  match image_paths, outcomes with
  | [], [] => True
  | image_path :: paths, result :: rest =>
    (exists t,
        runs (BusinessCardProcessor.process_business_card self image_path
                (Some (start_card_id + Z.of_nat i)%Z) (Some false)) t (inr result))
    /\ batch_of self start_card_id (S i) paths rest
  | _, _ => False
  end.

(** A result of [process_business_card] that reports success. *)
Definition succeeded `{PyRuntime} (result : gmap pystr pyval) : bool :=
  match result !! (py "success" : pystr) with
  | Some success => Builtins.truthy success
  | None => false
  end.

(** The dictionary [process_multiple_cards] returns. *)
Definition batch_result (total success_count : Z) (results : list pyval)
  : gmap pystr pyval :=
  OutputCleaner.dict_of [(py "total_processed", PInt total);
                         (py "success_count", PInt success_count);
                         (py "failure_count", PInt (total - success_count));
                         (py "results", PList results)].

Definition batch_file : pystr := py "batch_processing_result.json".

(** How many of the results report success. *)
Definition success_total `{PyRuntime} (outcomes : list (gmap pystr pyval)) : Z :=
  Z.of_nat (length (List.filter succeeded outcomes)).

(** ** Running a program against an outside *)

(** An outside that answers every request. *)
Definition world : Type := forall X : Type, request X -> X.

(** The run of [p] in the world [w]: the events and the result. *)
Fixpoint play {A : Type} (w : world) (p : io A) : list event * (raised + A) :=
  match p with
  | Done a => ([], inr a)
  | Throw e => ([], inl e)
  | Ask q k =>
    let x := w _ q in
    let run := play w (k x) in
    (event_of q x :: run.1, run.2)
  end.

(** The world where the image file gives [image], the Vision service
    [detected], the model's endpoint [posted], every file operation
    [files], and the environment [variable]. *)
Definition scripted (image : answer bytes) (detected : answer AnnotateImageResponse)
    (posted : answer Response) (files : answer unit) (variable : option pystr)
  : world :=
  fun X q =>
    match q in request X return X with
    | Print _ => tt
    | Getenv _ => variable
    | ReadBinary _ => image
    | DocumentTextDetection _ => detected
    | Post _ _ _ => posted
    | OpenWrite _ => files
    | Write _ _ => files
    | Dump _ _ => files
    end.

(** The reply of the chat completion service whose first choice has the
    content [content]. *)
Definition completion (content : pyval) : pyval :=
  PDict (OutputCleaner.dict_of
    [(py "choices",
      PList [PDict (OutputCleaner.dict_of
        [(py "message",
          PDict (OutputCleaner.dict_of [(py "role", PStr (py "assistant"));
                                        (py "content", content)]))])])]).

(** What [process_business_card] makes of the content [ai_response] of
    the model's reply, for the text [text] of the image. *)
Definition reply_outcome `{PyRuntime} (image_path : pystr) (card_id : Z)
    (text : pystr) (ai_response : pyval) (r : raised + gmap pystr pyval) : Prop :=
  match ai_response with
  | PStr raw =>
    (exists e,
        OutputCleaner.extract_json_from_response raw = Raise e
        /\ r = inl (FromCleaner e))
    \/ (exists msg doc,
        OutputCleaner.extract_json_from_response raw
        = Return (extraction_failure msg doc raw)
        /\ r = inr (parsing_failure
                      (py "JSON 파싱 실패: " ++ py "JSON 파싱 오류: "
                       ++ str_JSONDecodeError msg doc)
                      (PStr raw)))
    \/ (exists parsed_data,
          OutputCleaner.extract_json_from_response raw
          = Return (extraction_success parsed_data)
          /\ ((exists f,
                  CleanerCalls.clean_business_card_data_any parsed_data
                  = Throw (Fault f)
                  /\ r = inl (Fault f))
              \/ (exists cleaned_data,
                    CleanerCalls.clean_business_card_data_any parsed_data
                    = Done cleaned_data
                    /\ cleaned_record cleaned_data
                    /\ r = inr (card_success
                                 (OutputCleaner.create_final_result cleaned_data
                                    (Some card_id) (Some (PStr image_path)) None)
                                 (PStr text)))))
  | _ => exists f, r = inl (Fault f)
  end.

(** ** Example runs *)
Module Demo.
Import Builtins OutputCleaner CleanerCalls.

Definition image_path : pystr := py "card.png".

Definition parser : GroqLLaMAParser.parser :=
  {| GroqLLaMAParser.api_key := PStr (py "key");
     GroqLLaMAParser.endpoint := py "https://api.groq.com/openai/v1/chat/completions" |}.

(** The answer of the Vision service for a card with two lines. *)
Definition detected : AnnotateImageResponse :=
  {| error_message := [];
     text_annotations := [py "Kim
010 1234 5678"; py "Kim"];
     message_dict := PDict (dict_of [(py "textAnnotations", PList [])]) |}.

(** The answer of the model's endpoint whose first choice has the
    content [content]. *)
Definition answered (body : pyval) : answer Response :=
  Returned {| http_error := None; json_body := Returned body |}.

Definition replied (content : pyval) : answer Response :=
  answered (completion content).

(** Two answers that are not completions. *)
Definition error_body : gmap pystr pyval :=
  dict_of [(py "error", PStr (py "rate limit"))].

Definition truncated_choice : gmap pystr pyval :=
  dict_of [(py "index", PInt 0)].

Definition truncated_body : gmap pystr pyval :=
  dict_of [(py "choices", PList [PDict truncated_choice])].

(** The world where everything works and the model answers [content]. *)
Definition working (content : pyval) : world :=
  scripted (Returned [137%N; 80%N; 78%N; 71%N]) (Returned detected)
    (replied content) (Returned tt) None.

(** The world where the model's endpoint answers [body]. *)
Definition answering (body : pyval) : world :=
  scripted (Returned [137%N; 80%N; 78%N; 71%N]) (Returned detected)
    (answered body) (Returned tt) None.

(** The world where the image file cannot be read. *)
Definition without_image : world :=
  scripted (Threw false (py "No such file or directory")) (Returned detected)
    (replied PNone) (Returned tt) None.

(** The world where the model's endpoint cannot be reached. *)
Definition offline : world :=
  scripted (Returned [137%N; 80%N; 78%N; 71%N]) (Returned detected)
    (Threw true (py "Connection refused")) (Returned tt) None.


(** What the model answers for the card. *)
Definition card_reply : pystr :=
  js "```json
{'name': ' Kim ', 'phone': '010 1234 5678', 'note': 'x'}
```".

(** What this answer decodes to. *)
Definition card_fields : gmap pystr pyval :=
  dict_of [(py "name", PStr (py " Kim "));
           (py "phone", PStr (py "010 1234 5678"));
           (py "note", PStr (py "x"))].

(** The record it is cleaned to. *)
Definition card_record : gmap pystr pyval :=
  dict_of [(py "name", PStr (py "Kim"));
           (py "phone", PStr (py "01012345678"));
           (py "email", PNone);
           (py "social_id", PNone);
           (py "position", PNone);
           (py "company", PNone);
           (py "address", PNone);
           (py "fax", PNone)].

(** An answer that is not JSON. *)
Definition refusal : pystr := py "I cannot read this card.".

Definition ocr_run := Eval vm_compute in
    play (working PNone) (@VisionOCR.extract_text_from_image plain_errors image_path).

Definition ocr_run_without_image := Eval vm_compute in
    play without_image (@VisionOCR.extract_text_from_image plain_errors image_path).


Definition save_failed_ocr_run := Eval vm_compute in
    play (working PNone)
      (@VisionOCR.save_ocr_results ascii_runtime plain_errors
         (ocr_failure (py "no text")) None None).


Definition init_run := Eval vm_compute in
    play (working PNone) (@GroqLLaMAParser.__init__ ascii_runtime PNone).

Definition classify_run := Eval vm_compute in
    play (working (PStr card_reply))
      (@GroqLLaMAParser.classify_business_card_info ascii_runtime parser
         (PStr (py "Kim")) None).

Definition classify_run_offline := Eval vm_compute in
    play offline
      (@GroqLLaMAParser.classify_business_card_info ascii_runtime parser
         (PStr (py "Kim")) None).

Definition classify_run_error_body := Eval vm_compute in
    play (answering (PDict error_body))
      (@GroqLLaMAParser.classify_business_card_info ascii_runtime parser
         (PStr (py "Kim")) None).

Definition classify_run_truncated := Eval vm_compute in
    play (answering (PDict truncated_body))
      (@GroqLLaMAParser.classify_business_card_info ascii_runtime parser
         (PStr (py "Kim")) None).

Definition custom_run := Eval vm_compute in
    play (working (PStr card_reply))
      (@GroqLLaMAParser.parse_custom_prompt ascii_runtime parser
         (PStr (py "Kim")) (PStr (py "Name the person.")) None).

Definition card_run := Eval vm_compute in
    play (working (PStr card_reply))
      (@BusinessCardProcessor.process_business_card ascii_runtime plain_errors
         parser image_path (Some 7%Z) None).

Definition card_run_without_image := Eval vm_compute in
    play without_image
      (@BusinessCardProcessor.process_business_card ascii_runtime plain_errors
         parser image_path None None).

Definition card_run_null_reply := Eval vm_compute in
    play (working PNone)
      (@BusinessCardProcessor.process_business_card ascii_runtime plain_errors
         parser image_path None (Some false)).

Definition card_run_bad_reply := Eval vm_compute in
    play (working (PStr refusal))
      (@BusinessCardProcessor.process_business_card ascii_runtime plain_errors
         parser image_path None (Some false)).

Definition batch_run := Eval vm_compute in
    play (working (PStr card_reply))
      (@BusinessCardProcessor.process_multiple_cards ascii_runtime plain_errors
         parser [py "a.png"; py "b.png"] (Some 5%Z)).

(** The dictionary this run returns. *)
Definition batch := Eval vm_compute in
    match batch_run.2 with
    | inr d => d
    | inl _ => ∅
    end.

End Demo.

(** * Proofs *)

#[local] Arguments N.eqb : simpl never.
#[local] Arguments N.leb : simpl never.
#[local] Arguments N.ltb : simpl never.

(** Boolean range tests to linear arithmetic. *)
Ltac bool_lia :=
  repeat match goal with
  | H : _ && _ = true |- _ => apply andb_true_iff in H as [? ?]
  | H : _ || _ = true |- _ => apply orb_true_iff in H as [?|?]
  | H : _ || _ = false |- _ => apply orb_false_iff in H as [? ?]
  | H : negb _ = true |- _ => apply negb_true_iff in H
  | H : negb _ = false |- _ => apply negb_false_iff in H
  | H : (_ <=? _)%N = true |- _ => apply N.leb_le in H
  | H : (_ <? _)%N = true |- _ => apply N.ltb_lt in H
  | H : (_ =? _)%N = true |- _ => apply N.eqb_eq in H
  | H : (_ <=? _)%N = false |- _ => apply N.leb_gt in H
  | H : (_ <? _)%N = false |- _ => apply N.ltb_ge in H
  | H : (_ =? _)%N = false |- _ => apply N.eqb_neq in H
  end; try lia.

(** ** Facts about the string operations *)
Section StrFacts.
Import Str.

Lemma lstrip_app_space (w s : pystr) :
  forallb isspace w = true -> lstrip (w ++ s) = lstrip s.
Proof.
  induction w as [|c w IH]; simpl; [done|].
  intros [Hc Hw]%andb_true_iff. rewrite Hc. auto.
Qed.

Lemma lstrip_nonspace (c : N) (s : pystr) :
  isspace c = false -> lstrip (c :: s) = c :: s.
Proof. intros Hc. simpl. by rewrite Hc. Qed.

(** [lstrip] removes a run of white space and leaves a text that does
    not start with white space. *)
Lemma lstrip_split (s : pystr) :
  exists w, s = w ++ lstrip s /\ forallb isspace w = true
            /\ (forall c t, lstrip s = c :: t -> isspace c = false).
Proof.
  induction s as [|c s (w & Hs & Hw & Hh)]; simpl.
  - exists []. split_and!; [done|done|]. intros c t [=].
  - destruct (isspace c) eqn:Hc.
    + exists (c :: w). split_and!; [simpl; by rewrite <- Hs | simpl; by rewrite Hc, Hw | done].
    + exists []. split_and!; [done|done|]. by intros c' t [= <- _].
Qed.

Lemma forallb_reverse (p : N -> bool) (w : pystr) :
  forallb p w = true -> forallb p (reverse w) = true.
Proof.
  rewrite !forallb_forall. intros Hw c Hc. apply Hw.
  rewrite <- list_elem_of_In in Hc |- *. by apply elem_of_reverse.
Qed.

Lemma rstrip_app_space (s w : pystr) :
  forallb isspace w = true -> rstrip (s ++ w) = rstrip s.
Proof.
  intros Hw. unfold rstrip. rewrite reverse_app, lstrip_app_space; [done|].
  by apply forallb_reverse.
Qed.

Lemma rstrip_snoc_nonspace (s : pystr) (c : N) :
  isspace c = false -> rstrip (s ++ [c]) = s ++ [c].
Proof.
  intros Hc. unfold rstrip. rewrite reverse_app. simpl. rewrite Hc.
  change (c :: reverse s) with (reverse [c] ++ reverse s).
  by rewrite <- reverse_app, reverse_involutive.
Qed.

(** [rstrip] keeps the first character of a text that does not start
    with white space. *)
Lemma rstrip_cons_nonspace (c : N) (s : pystr) :
  isspace c = false -> exists t, rstrip (c :: s) = c :: t.
Proof.
  intros Hc. induction s as [|d s IH] using rev_ind.
  - exists []. by apply (rstrip_snoc_nonspace []).
  - destruct (isspace d) eqn:Hd.
    + rewrite app_comm_cons, rstrip_app_space; [done|]. simpl. by rewrite Hd.
    + exists (s ++ [d]). by rewrite app_comm_cons, rstrip_snoc_nonspace.
Qed.

Lemma rstrip_split (s : pystr) :
  exists w, s = rstrip s ++ w /\ forallb isspace w = true
            /\ (forall c, last (rstrip s) = Some c -> isspace c = false).
Proof.
  induction s as [|d s (w & Hs & Hw & Hl)] using rev_ind.
  - exists []. split_and!; [done|done|]. intros c [=].
  - destruct (isspace d) eqn:Hd.
    + exists (w ++ [d]). rewrite rstrip_app_space; [|simpl; by rewrite Hd].
      split_and!; [by rewrite app_assoc, <- Hs | | done].
      rewrite forallb_app, Hw. simpl. by rewrite Hd.
    + exists []. rewrite rstrip_snoc_nonspace; [|done].
      split_and!; [by rewrite app_nil_r | done |].
      intros c. rewrite last_snoc. by intros [= <-].
Qed.

(** The shape of [strip]: white space on both sides of a text that
    neither starts nor ends with white space. *)
Lemma strip_split (s : pystr) :
  exists l r, s = l ++ strip s ++ r
              /\ forallb isspace l = true /\ forallb isspace r = true
              /\ (forall c t, strip s = c :: t -> isspace c = false)
              /\ (forall c, last (strip s) = Some c -> isspace c = false).
Proof.
  destruct (lstrip_split s) as (l & Hs & Hl & Hh).
  destruct (rstrip_split (lstrip s)) as (r & Hs' & Hr & Hlast).
  exists l, r. unfold strip. split_and!; [by rewrite <- Hs' | done | done | | done].
  intros c t E. destruct (lstrip s) as [|c' t'] eqn:E'; [done|].
  destruct (rstrip_cons_nonspace c' t') as [t'' Ht'']; [eauto|].
  rewrite Ht'' in E. injection E as <- _. eauto.
Qed.

(** A text that neither starts nor ends with white space is its own
    [strip]. *)
Lemma strip_trimmed (s : pystr) :
  (forall c t, s = c :: t -> isspace c = false) ->
  (forall c, last s = Some c -> isspace c = false) ->
  strip s = s.
Proof.
  intros Hh Hl. unfold strip.
  assert (lstrip s = s) as ->.
  { destruct s as [|c t]; [done|]. apply lstrip_nonspace. eauto. }
  destruct s as [|d s _] using rev_ind; [done|].
  apply rstrip_snoc_nonspace, Hl, last_snoc.
Qed.

Lemma strip_app_space (l s r : pystr) :
  forallb isspace l = true -> forallb isspace r = true ->
  strip (l ++ s ++ r) = strip s.
Proof.
  intros Hl Hr. unfold strip. rewrite lstrip_app_space; [|done].
  destruct (lstrip_split s) as (w & Hs & Hw & Hh).
  destruct (lstrip s) as [|c t] eqn:E.
  - rewrite app_nil_r in Hs. subst w.
    rewrite <- (app_nil_r (s ++ r)), lstrip_app_space; [done|].
    by rewrite forallb_app, Hw, Hr.
  - rewrite Hs at 1. rewrite <- app_assoc, lstrip_app_space; [|done].
    simpl. rewrite (Hh c t eq_refl). by apply (rstrip_app_space (c :: t)).
Qed.
End StrFacts.

(** ** Facts about [split] *)
Section SplitFacts.
Import Str.

Lemma startswith_app (p r : pystr) : startswith p (p ++ r) = true.
Proof. induction p as [|a p IH]; simpl; [done|]. by rewrite N.eqb_refl. Qed.

Lemma startswith_prefix (p q s : pystr) :
  startswith (p ++ q) s = true -> startswith p s = true.
Proof.
  revert s. induction p as [|a p IH]; intros s; simpl; [done|].
  destruct s as [|b s]; [done|]. intros [-> H]%andb_true_iff. simpl. eauto.
Qed.

Lemma contains_startswith (sep s : pystr) :
  startswith sep s = true -> contains sep s = true.
Proof. intros H. destruct s; simpl; by rewrite H. Qed.

Lemma contains_app (sep a b : pystr) : contains sep (a ++ sep ++ b) = true.
Proof.
  induction a as [|c a IH].
  - rewrite app_nil_l. apply contains_startswith, startswith_app.
  - simpl. rewrite IH. apply orb_true_r.
Qed.

Lemma split_go_cons (sep : pystr) (k : nat) (cur s : pystr) :
  exists a tl, split_go sep k cur s = a :: tl.
Proof.
  revert k cur. induction s as [|c s IH]; intros k cur; simpl; [eauto|].
  destruct k; [|apply IH]. destruct (startswith sep (c :: s)); [eauto|apply IH].
Qed.

Lemma split_cons (sep s : pystr) : exists a tl, split sep s = a :: tl.
Proof. apply split_go_cons. Qed.

(** Passing over the rest of an occurrence. *)
Lemma split_go_skip (sep x rest cur : pystr) :
  split_go sep (length x) cur (x ++ rest) = split_go sep 0 cur rest.
Proof. induction x as [|c x IH]; simpl; done. Qed.

(** At an occurrence the current piece is closed. *)
Lemma split_go_sep (sep rest cur : pystr) :
  sep <> [] ->
  split_go sep 0 cur (sep ++ rest) = reverse cur :: split_go sep 0 [] rest.
Proof.
  intros Hsep. destruct sep as [|c sep']; [done|].
  pose proof (startswith_app (c :: sep') rest) as Hst.
  simpl in *. rewrite Hst. f_equal. apply split_go_skip.
Qed.

(** Before the first occurrence the scan only collects. *)
Lemma split_go_collect (sep a rest cur : pystr) :
  occurs_within sep a rest = false ->
  split_go sep 0 cur (a ++ rest) = split_go sep 0 (reverse a ++ cur) rest.
Proof.
  revert cur. induction a as [|c a IH]; intros cur; simpl; [done|].
  intros [Hst Hin]%orb_false_iff. rewrite Hst, IH; [|done].
  by rewrite reverse_cons, <- app_assoc.
Qed.

(** The first piece ends at the first occurrence. *)
Lemma split_cut (sep a b : pystr) :
  sep <> [] -> occurs_within sep a (sep ++ b) = false ->
  split sep (a ++ sep ++ b) = a :: split sep b.
Proof.
  intros Hsep Hin. unfold split.
  rewrite split_go_collect, split_go_sep; [|done|done].
  by rewrite app_nil_r, reverse_involutive.
Qed.

Lemma split_go_none (sep s cur : pystr) :
  contains sep s = false -> split_go sep 0 cur s = [reverse cur ++ s].
Proof.
  revert cur. induction s as [|c s IH]; intros cur; simpl.
  - by rewrite app_nil_r.
  - intros [Hst Hin]%orb_false_iff. rewrite Hst, IH; [|done].
    by rewrite reverse_cons, <- app_assoc.
Qed.

Lemma split_none (sep s : pystr) : contains sep s = false -> split sep s = [s].
Proof. intros H. unfold split. by rewrite split_go_none. Qed.

(** [sep in s] makes [s.split(sep)] at least two pieces long. *)
Lemma split_go_two (sep s cur : pystr) :
  sep <> [] -> contains sep s = true ->
  exists a b tl, split_go sep 0 cur s = a :: b :: tl.
Proof.
  intros Hsep. revert cur. induction s as [|c s IH]; intros cur; simpl.
  - destruct sep; [done|]. simpl. done.
  - destruct (startswith sep (c :: s)) eqn:Hst; simpl.
    + intros _. destruct (split_go_cons sep (pred (length sep)) [] s) as (b & tl & ->). eauto.
    + intros H. by apply IH.
Qed.

Lemma split_two (sep s : pystr) :
  sep <> [] -> contains sep s = true -> exists a b tl, split sep s = a :: b :: tl.
Proof. apply split_go_two. Qed.

Lemma contains_cons (sub : pystr) (c : N) (s : pystr) :
  contains sub (c :: s) = startswith sub (c :: s) || contains sub s.
Proof. done. Qed.

Lemma occurs_within_cons (sep : pystr) (c : N) (a rest : pystr) :
  occurs_within sep (c :: a) rest
  = startswith sep (c :: a ++ rest) || occurs_within sep a rest.
Proof. done. Qed.

Lemma startswith_cons_same (c : N) (p s : pystr) :
  startswith (c :: p) (c :: s) = startswith p s.
Proof. simpl. by rewrite N.eqb_refl. Qed.

(** An occurrence in [a ++ rest] starts inside [a] or lies in [rest]. *)
Lemma contains_app_split (sep a rest : pystr) :
  contains sep (a ++ rest) = occurs_within sep a rest || contains sep rest.
Proof.
  induction a as [|c a IH]; [done|].
  rewrite <- app_comm_cons, contains_cons, occurs_within_cons, IH.
  by rewrite orb_assoc.
Qed.

Lemma occurs_within_longer (p q a rest : pystr) :
  occurs_within p a rest = false -> occurs_within (p ++ q) a rest = false.
Proof.
  induction a as [|c a IH]; simpl; [done|].
  intros [Hst H]%orb_false_iff. rewrite IH; [|done].
  rewrite orb_false_r. destruct (startswith (p ++ q) (c :: a ++ rest)) eqn:E; [|done].
  apply startswith_prefix in E. simpl in *. congruence.
Qed.
End SplitFacts.

(** ** Facts about the decoder *)
Section JsonFacts.
Import Json.
Context {runtime : PyRuntime}.

Lemma skip_ws_suffix (s : pystr) : skip_ws s `suffix_of` s.
Proof.
  induction s as [|c s IH]; simpl; [done|].
  destruct (is_ws c); [by apply suffix_cons_r|done].
Qed.

Lemma skip_ws_nil (s : pystr) : skip_ws s = [] -> forallb is_ws s = true.
Proof.
  induction s as [|c s IH]; simpl; [done|].
  destruct (is_ws c); [done|]. discriminate.
Qed.

Lemma is_ws_not_backtick (c : N) : is_ws c = true -> c <> 96%N.
Proof. intros H ->. done. Qed.

Lemma is_ws_isspace (c : N) : is_ws c = true -> Str.isspace c = true.
Proof. unfold is_ws. intros H. bool_lia; by subst. Qed.

Lemma solid_not_space (c : N) : solid c -> Str.isspace c = false.
Proof.
  unfold solid. intros H. destruct (Str.isspace c) eqn:E; [|done].
  unfold Str.isspace in E. bool_lia.
Qed.

Lemma solid_not_ws (c : N) : solid c -> is_ws c = false.
Proof.
  intros H%solid_not_space. destruct (is_ws c) eqn:E; [|done].
  apply is_ws_isspace in E. congruence.
Qed.

Lemma digit_solid (c : N) : is_digit c = true -> solid c.
Proof. unfold is_digit, solid. intros H. bool_lia. Qed.

Lemma either_solid (a b c : N) :
  solid a -> solid b -> (c =? a)%N || (c =? b)%N = true -> solid c.
Proof. intros Ha Hb H. bool_lia; by subst. Qed.

Lemma literal_solid (p : pystr) :
  forallb (fun c => (32 <? c) && (c <? 127) && negb (c =? 96))%N p = true ->
  Forall solid p.
Proof.
  intros H. apply Forall_forall. intros c Hc.
  rewrite forallb_forall in H. apply list_elem_of_In, H in Hc.
  unfold solid. bool_lia.
Qed.

(** A string literal ends with its closing quote. *)
Lemma scanstring_suffix (s acc str rest : pystr) :
  scanstring acc s = Got str rest -> (34%N :: rest) `suffix_of` s.
Proof.
  remember (length s) as n eqn:Hn. revert s Hn acc.
  induction n as [n IH] using lt_wf_ind. intros s -> acc.
  destruct s as [|c s1]; simpl; [done|].
  repeat case_match; subst; try done.
  1: { intros [= <- <-]. apply N.eqb_eq in H. by subst. }
  all: intros Hrec; eapply IH in Hrec; [| |reflexivity]; [|simpl; lia];
    repeat (first [exact Hrec | apply suffix_cons_r]).
Qed.

Lemma scanstring_fuel (s acc : pystr) (l : limit) : scanstring acc s <> Halt l.
Proof.
  remember (length s) as n eqn:Hn. revert s Hn acc.
  induction n as [n IH] using lt_wf_ind. intros s -> acc.
  destruct s as [|c s1]; simpl; [done|].
  repeat case_match; subst; try done.
  all: eapply IH; [|reflexivity]; simpl; lia.
Qed.

Lemma scanstring_cases (s acc : pystr) :
  (exists e, scanstring acc s = Stop e) \/ (exists str r, scanstring acc s = Got str r).
Proof.
  pose proof (scanstring_fuel s acc) as Hfuel.
  destruct (scanstring acc s) as [l|e|str r]; [by destruct (Hfuel l)|eauto..].
Qed.

Lemma digits_spec (s ds r : pystr) :
  digits s = (ds, r) -> s = ds ++ r /\ Forall solid ds.
Proof.
  revert ds r. induction s as [|c s IH]; intros ds r; simpl.
  - intros [= <- <-]. split; [done|constructor].
  - destruct (is_digit c) eqn:Hc.
    + destruct (digits s) as [ds' r'] eqn:E. intros [= <- <-].
      destruct (IH _ _ eq_refl) as [-> Hds]. split; [done|].
      constructor; [by apply digit_solid|done].
    + intros [= <- <-]. split; [done|constructor].
Qed.

Lemma integer_part_spec (s text r : pystr) :
  integer_part s = Some (text, r) -> s = text ++ r /\ text <> [] /\ Forall solid text.
Proof.
  unfold integer_part.
  assert (forall sign s1 : pystr, Forall solid sign ->
    match s1 with
    | [] => None
    | c :: t =>
      if (c =? 48)%N then Some (sign ++ [c], t)
      else if is_digit c then let '(ds, r) := digits t in Some (sign ++ c :: ds, r)
      else None
    end = Some (text, r) ->
    sign ++ s1 = text ++ r /\ text <> [] /\ Forall solid text) as Hbody.
  { intros sign s1 Hsign. destruct s1 as [|c t]; [done|].
    destruct (c =? 48)%N eqn:H0.
    - intros [= <- <-]. apply N.eqb_eq in H0 as ->.
      split_and!; [by rewrite <- app_assoc | by destruct sign |].
      apply Forall_app. split; [done|]. by repeat constructor.
    - destruct (is_digit c) eqn:Hc; [|done].
      destruct (digits t) as [ds r'] eqn:E. intros [= <- <-].
      destruct (digits_spec _ _ _ E) as [-> Hds].
      split_and!; [by rewrite <- app_assoc | by destruct sign |].
      apply Forall_app. split; [done|]. constructor; [by apply digit_solid|done]. }
  destruct s as [|c t]; [done|].
  destruct (c =? 45)%N eqn:Hm.
  - intros H. apply (Hbody [c] t); [|done].
    apply N.eqb_eq in Hm as ->. by repeat constructor.
  - intros H. apply (Hbody [] (c :: t)); [constructor|done].
Qed.

Lemma frac_part_spec (s f r : pystr) :
  frac_part s = Some (f, r) -> s = f ++ r /\ Forall solid f.
Proof.
  unfold frac_part. destruct s as [|c t]; [done|].
  destruct (c =? 46)%N eqn:Hc; [|done]. apply N.eqb_eq in Hc as ->.
  destruct (digits t) as [ds r'] eqn:E.
  destruct (digits_spec _ _ _ E) as [-> Hds].
  destruct ds; [done|]. intros [= <- <-]. split; [done|].
  constructor; [done|done].
Qed.

Lemma exp_part_spec (s e r : pystr) :
  exp_part s = Some (e, r) -> s = e ++ r /\ Forall solid e.
Proof.
  unfold exp_part. destruct s as [|c t]; [done|].
  destruct ((c =? 101)%N || (c =? 69)%N) eqn:Hc; [|done].
  assert (solid c) as Hc'.
  { by apply (either_solid 101 69). }
  assert (exists sign t1, t = sign ++ t1 /\ Forall solid sign /\
    match t with
    | [] => ([], t)
    | d :: t' => if (d =? 45)%N || (d =? 43)%N then ([d], t') else ([], t)
    end = (sign, t1)) as (sign & t1 & -> & Hsign & ->).
  { destruct t as [|d t']; [by exists [], []; split_and!; [|constructor|] |].
    destruct ((d =? 45)%N || (d =? 43)%N) eqn:Hd.
    - exists [d], t'. split_and!; [done| |done].
      constructor; [|constructor]. by apply (either_solid 45 43).
    - exists [], (d :: t'). split_and!; [done|constructor|done]. }
  destruct (digits t1) as [ds r'] eqn:E.
  destruct (digits_spec _ _ _ E) as [-> Hds].
  destruct ds; [done|]. intros [= <- <-].
  split; [simpl; by rewrite <- ?app_assoc|].
  constructor; [done|]. by apply Forall_app.
Qed.

(** A number is a non-empty run of characters none of which is a
    backtick or white space. *)
Lemma match_number_spec (s : pystr) (v : option pyval) (r : pystr) :
  match_number s = Some (v, r) -> exists x, s = x ++ r /\ x <> [] /\ Forall solid x.
Proof.
  unfold match_number.
  destruct (integer_part s) as [[integer r1]|] eqn:Ei; [|done].
  destruct (integer_part_spec _ _ _ Ei) as (-> & Hne & Hi).
  assert (exists frac r2 : pystr, r1 = frac ++ r2 /\ Forall solid frac /\
    match frac_part r1 with Some (f, r) => (f, r) | None => ([], r1) end = (frac, r2))
    as (frac & r2 & Hr1 & Hf & ->).
  { destruct (frac_part r1) as [[f r']|] eqn:Ef.
    - destruct (frac_part_spec _ _ _ Ef) as [-> Hf]. by exists f, r'.
    - exists [], r1. split_and!; [done|constructor|done]. }
  cbv beta iota.
  assert (exists exp r3 : pystr, r2 = exp ++ r3 /\ Forall solid exp /\
    match exp_part r2 with Some (e, r) => (e, r) | None => ([], r2) end = (exp, r3))
    as (exp & r3 & Hr2 & He & ->).
  { destruct (exp_part r2) as [[e r']|] eqn:Ee.
    - destruct (exp_part_spec _ _ _ Ee) as [-> He]. by exists e, r'.
    - exists [], r2. split_and!; [done|constructor|done]. }
  cbv beta iota. intros H. exists (integer ++ frac ++ exp). subst r1 r2.
  assert (r = r3) as -> by (destruct (frac ++ exp); by injection H).
  split_and!; [by rewrite <- !app_assoc | by destruct integer |].
  by repeat (apply Forall_app; split).
Qed.

Lemma solid_last (x r : pystr) :
  x <> [] -> Forall solid x -> exists c, solid c /\ (c :: r) `suffix_of` (x ++ r).
Proof.
  intros Hne Hx. destruct x as [|d x _] using rev_ind; [done|].
  apply Forall_app in Hx as [_ Hd]. apply Forall_inv in Hd.
  exists d. split; [exact Hd|]. exists x. by rewrite <- app_assoc.
Qed.

Lemma scan_ok_suffix (deep : bool) (t s : pystr) (r : scan pyval) :
  t `suffix_of` s -> scan_ok deep t r -> scan_ok deep s r.
Proof.
  intros Hts. destruct r as [l| |v rest]; simpl; [done|done|].
  intros (c & Hc & Hsuf). exists c. split; [done|]. by etrans.
Qed.

Lemma suffix_cons_length (c : N) (r s : pystr) :
  (c :: r) `suffix_of` s -> r `suffix_of` s /\ length r < length s.
Proof.
  intros H. split; [by eapply suffix_cons_l|].
  apply suffix_length in H. simpl in H. lia.
Qed.

Lemma array_loop_ok (deep : bool) (scan_once : pystr -> scan pyval) (fuel : nat)
    (values : list pyval) (s : pystr) :
  (forall t, t `suffix_of` s -> scan_ok deep t (scan_once t)) ->
  length s < fuel ->
  scan_ok deep s (array_loop scan_once fuel values s).
Proof.
  revert values s. induction fuel as [|fuel IH]; intros values s Hscan Hlen; [lia|].
  simpl. pose proof (Hscan s (reflexivity _)) as Hs.
  destruct (scan_once s) as [l| |value r1]; [done|done|].
  destruct Hs as (c & _ & [Hr1 Hlen1]%suffix_cons_length).
  pose proof (skip_ws_suffix r1) as Hw.
  destruct (skip_ws r1) as [|d r2] eqn:E; [done|].
  destruct (d =? 93)%N eqn:Hd.
  { apply N.eqb_eq in Hd as ->. exists 93%N. split; [done|]. by etrans. }
  destruct (d =? 44)%N; [|done].
  apply suffix_cons_length in Hw as [Hw Hlen2].
  assert (skip_ws r2 `suffix_of` s) as Hsuf.
  { etrans; [apply skip_ws_suffix|]. by etrans. }
  eapply scan_ok_suffix; [done|]. apply IH.
  - intros t Ht. apply Hscan. by etrans.
  - pose proof (suffix_length _ _ (skip_ws_suffix r2)). lia.
Qed.

Lemma JSONArray_ok (deep : bool) (scan_once : pystr -> scan pyval) (s : pystr) :
  (forall t, t `suffix_of` s -> scan_ok deep t (scan_once t)) ->
  scan_ok deep (91%N :: s) (JSONArray scan_once s).
Proof.
  intros Hscan. unfold JSONArray.
  pose proof (skip_ws_suffix s) as Hw.
  destruct (Str.startswith [93%N] (skip_ws s)) eqn:Hst.
  - destruct (skip_ws s) as [|d r]; [done|]. simpl in Hst.
    rewrite andb_true_r in Hst. apply N.eqb_eq in Hst as <-.
    exists 93%N. split; [done|]. by apply suffix_cons_r.
  - eapply scan_ok_suffix; [by apply suffix_cons_r|].
    apply array_loop_ok.
    + intros t Ht. apply Hscan. by etrans.
    + apply suffix_length in Hw. lia.
Qed.

Lemma object_loop_ok (deep : bool) (scan_once : pystr -> scan pyval) (fuel : nat)
    (pairs : gmap pystr pyval) (s : pystr) :
  (forall t, t `suffix_of` s -> scan_ok deep t (scan_once t)) ->
  length s < fuel ->
  scan_ok deep s (object_loop scan_once fuel pairs s).
Proof.
  revert pairs s. induction fuel as [|fuel IH]; intros pairs s Hscan Hlen; [lia|].
  simpl.
  destruct (scanstring_cases s []) as [[e ->]|(key & r1 & Ekey)]; [done|].
  rewrite Ekey.
  apply scanstring_suffix, suffix_cons_length in Ekey as [Hr1 Hlen1].
  pose proof (skip_ws_suffix r1) as Hw1.
  destruct (skip_ws r1) as [|c r2]; [done|].
  destruct (c =? 58)%N; [|done].
  apply suffix_cons_length in Hw1 as [Hr2 Hlen2].
  assert (skip_ws r2 `suffix_of` s) as Hsuf.
  { etrans; [apply skip_ws_suffix|]. by etrans. }
  pose proof (Hscan _ Hsuf) as Hval.
  destruct (scan_once (skip_ws r2)) as [l| |value r3]; [done|done|].
  destruct Hval as (c' & _ & [Hr3 Hlen3]%suffix_cons_length).
  pose proof (skip_ws_suffix r3) as Hw3.
  destruct (skip_ws r3) as [|d r4]; [done|].
  assert ((d :: r4) `suffix_of` s) as Hd4 by (etrans; [done|]; by etrans).
  destruct (d =? 125)%N eqn:Hd.
  { apply N.eqb_eq in Hd as ->. exists 125%N. by split. }
  destruct (d =? 44)%N; [|done].
  pose proof (skip_ws_suffix r4) as Hw4.
  destruct (skip_ws r4) as [|q r5]; [done|].
  destruct (q =? 34)%N; [|done].
  assert (r5 `suffix_of` s /\ length r5 < length s) as [Hr5 Hlen5].
  { apply suffix_cons_length in Hd4 as [Hr4 Hlen4].
    apply suffix_cons_length in Hw4 as [Hw4 Hlen5].
    split; [by etrans|lia]. }
  eapply scan_ok_suffix; [done|]. apply IH.
  - intros t Ht. apply Hscan. by etrans.
  - lia.
Qed.

Lemma JSONObject_ok (deep : bool) (scan_once : pystr -> scan pyval) (s : pystr) :
  (forall t, t `suffix_of` s -> scan_ok deep t (scan_once t)) ->
  scan_ok deep (123%N :: s) (JSONObject scan_once s).
Proof.
  intros Hscan. unfold JSONObject.
  pose proof (skip_ws_suffix s) as Hw.
  destruct (skip_ws s) as [|c r]; [done|].
  destruct (c =? 125)%N eqn:Hc.
  { apply N.eqb_eq in Hc as ->. exists 125%N. split; [done|]. by apply suffix_cons_r. }
  destruct (c =? 34)%N; [|done].
  apply suffix_cons_length in Hw as [Hr Hlen].
  eapply scan_ok_suffix; [by apply suffix_cons_r|].
  apply object_loop_ok; [|done].
  intros t Ht. apply Hscan. by etrans.
Qed.

Lemma startswith_drop (p s : pystr) :
  Str.startswith p s = true -> s = p ++ drop (length p) s.
Proof.
  revert s. induction p as [|a p IH]; intros s; simpl; [done|].
  destruct s as [|b s]; [done|].
  intros [->%N.eqb_eq Hp]%andb_true_iff. simpl. f_equal. eauto.
Qed.

Lemma literal_ok (deep : bool) (p s : pystr) (v : pyval) :
  p <> [] -> Forall solid p -> Str.startswith p s = true ->
  scan_ok deep s (Got v (drop (length p) s)).
Proof.
  intros Hne Hp Hst. apply startswith_drop in Hst.
  destruct (solid_last p (drop (length p) s) Hne Hp) as (c & Hc & Hsuf).
  exists c. split; [done|]. by rewrite <- Hst in Hsuf.
Qed.

(** A value is read from at least one character, the last of which is
    neither a backtick nor white space; and a budget that covers the
    text is never exhausted, in the scanner or in its loops. *)
Lemma scan_once_ok (deep : bool) (fuel : nat) (s : pystr) :
  (deep = true -> length s <= fuel) -> scan_ok deep s (scan_once fuel s).
Proof.
  revert s. induction fuel as [|fuel IH]; intros s Hlen.
  all: destruct s as [|c s']; [done|]; simpl in Hlen; cbn [scan_once].
  all: destruct (c =? 34)%N eqn:H34;
    [destruct (scanstring_cases s' []) as [[e ->]|(str & r & E)]; [done|];
     rewrite E; apply scanstring_suffix in E;
     exists 34%N; split; [done|by apply suffix_cons_r]|].
  all: destruct (c =? 123)%N eqn:H123.
  1: { destruct deep; [specialize (Hlen eq_refl); lia|done]. }
  2: { apply N.eqb_eq in H123 as ->. apply JSONObject_ok.
       intros t Ht. apply IH. intros Hdeep. specialize (Hlen Hdeep).
       apply suffix_length in Ht. lia. }
  all: destruct (c =? 91)%N eqn:H91.
  1: { destruct deep; [specialize (Hlen eq_refl); lia|done]. }
  2: { apply N.eqb_eq in H91 as ->. apply JSONArray_ok.
       intros t Ht. apply IH. intros Hdeep. specialize (Hlen Hdeep).
       apply suffix_length in Ht. lia. }
  all: destruct (Str.startswith (py "null") (c :: s')) eqn:Hnull;
    [apply (literal_ok deep (py "null")); [done|by repeat constructor|done]|].
  all: destruct (Str.startswith (py "true") (c :: s')) eqn:Htrue;
    [apply (literal_ok deep (py "true")); [done|by repeat constructor|done]|].
  all: destruct (Str.startswith (py "false") (c :: s')) eqn:Hfalse;
    [apply (literal_ok deep (py "false")); [done|by repeat constructor|done]|].
  all: destruct (match_number (c :: s')) as [[[v|] r]|] eqn:Enum;
    [destruct (match_number_spec _ _ _ Enum) as (x & Hx & Hne & Htick);
     rewrite Hx; by apply solid_last
    |done|].
  all: destruct (Str.startswith (py "NaN") (c :: s')) eqn:Hnan;
    [apply (literal_ok deep (py "NaN")); [done|by repeat constructor|done]|].
  all: destruct (Str.startswith (py "Infinity") (c :: s')) eqn:Hinf;
    [apply (literal_ok deep (py "Infinity")); [done|by repeat constructor|done]|].
  all: destruct (Str.startswith (py "-Infinity") (c :: s')) eqn:Hninf;
    [apply (literal_ok deep (py "-Infinity")); [done|by repeat constructor|done]|].
  all: done.
Qed.

(** [json.loads] returns a value, raises [JSONDecodeError], or raises
    what one of the two limits raises. *)
Lemma loads_cases (s : pystr) :
  (exists v, loads s = Return v)
  \/ (exists e, loads s = Raise (JSONDecodeError e s))
  \/ loads s = Raise RecursionError
  \/ loads s = Raise IntTooLong.
Proof.
  unfold loads. destruct (Str.startswith [65279%N] s); [eauto|].
  destruct (scan_once json_depth (skip_ws s)) as [[|]| |obj rest]; eauto.
  destruct (skip_ws rest); eauto.
Qed.








Lemma last_before_ws (c : N) (rest : pystr) :
  c <> 96%N -> forallb is_ws rest = true ->
  exists d, last (c :: rest) = Some d /\ d <> 96%N.
Proof.
  revert c. induction rest as [|d rest IH]; intros c Hc Hrest; [by exists c|].
  simpl in Hrest. apply andb_true_iff in Hrest as [Hd Hrest].
  rewrite last_cons_cons. apply IH; [|done]. by apply is_ws_not_backtick.
Qed.

(** A text that [json.loads] accepts is not empty and does not end with
    a backtick. *)
Lemma loads_last (s : pystr) (v : pyval) :
  loads s = Return v -> exists c, last s = Some c /\ c <> 96%N.
Proof.
  unfold loads. destruct (Str.startswith [65279%N] s); [done|].
  pose proof (scan_once_ok false json_depth (skip_ws s)) as Hok.
  destruct (scan_once json_depth (skip_ws s)) as [[|]| |obj rest]; [done..|].
  destruct (skip_ws rest) eqn:Hrest; [|done]. intros _.
  destruct Hok as (c & [_ Hc] & [k Hk]); [done|].
  destruct (skip_ws_suffix s) as [k' Hk']. rewrite Hk in Hk'.
  apply skip_ws_nil in Hrest.
  destruct (last_before_ws c rest Hc Hrest) as (d & Hd & Hd').
  exists d. split; [|done]. by rewrite Hk', !last_app, Hd.
Qed.
End JsonFacts.

(** ** The decoder and the text after a value *)
Section JsonTail.
Import Json.
Context {runtime : PyRuntime}.

Lemma is_ws_cases (c : N) :
  is_ws c = true -> c = 32%N \/ c = 9%N \/ c = 10%N \/ c = 13%N.
Proof. unfold is_ws. intros H. bool_lia; auto. Qed.

Lemma skip_ws_all (w : pystr) : forallb is_ws w = true -> skip_ws w = [].
Proof.
  induction w as [|c w IH]; simpl; [done|].
  intros [-> Hw]%andb_true_iff. auto.
Qed.

Lemma skip_ws_chop (r x y : pystr) :
  skip_ws x = y ++ r -> y <> [] -> exists x', x = x' ++ r /\ skip_ws x' = y.
Proof.
  intros Hx Hy. induction x as [|c x IH]; simpl in Hx.
  - by destruct y.
  - destruct (is_ws c) eqn:Hc.
    + destruct (IH Hx) as (x' & -> & Hx'). exists (c :: x'). simpl. by rewrite Hc.
    + destruct y as [|d y]; [done|]. injection Hx as <- ->.
      exists (c :: y). simpl. by rewrite Hc.
Qed.

Lemma suffix_tail (c : N) (u r x : pystr) :
  (c :: u ++ r) `suffix_of` x ->
  exists y, x = y ++ r /\ y <> [] /\ length u < length y.
Proof.
  intros [k ->]. exists (k ++ c :: u). split_and!.
  - by rewrite <- app_assoc.
  - by destruct k.
  - rewrite length_app. simpl. lia.
Qed.

Lemma scanstring_unfold (acc s : pystr) :
  scanstring acc s =
  match s with
  | [] => Stop UnterminatedString
  | c :: s1 =>
    if (c =? 34)%N then Got (reverse acc) s1
    else if (c =? 92)%N then
      match s1 with
      | [] => Stop UnterminatedString
      | esc :: s2 =>
        if (esc =? 117)%N then
          match s2 with
          | h1 :: h2 :: h3 :: h4 :: s3 =>
            match hex4 h1 h2 h3 h4 with
            | None => Stop InvalidUnicodeEscape
            | Some uni =>
              if is_high_surrogate uni then
                match s3 with
                | b1 :: b2 :: s4 =>
                  if ((b1 =? 92) && (b2 =? 117))%N then
                    match s4 with
                    | g1 :: g2 :: g3 :: g4 :: s5 =>
                      match hex4 g1 g2 g3 g4 with
                      | None => Stop InvalidUnicodeEscape
                      | Some uni2 =>
                        if is_low_surrogate uni2
                        then scanstring (join_surrogates uni uni2 :: acc) s5
                        else scanstring (uni :: acc) s3
                      end
                    | _ => Stop InvalidUnicodeEscape
                    end
                  else scanstring (uni :: acc) s3
                | _ => scanstring (uni :: acc) s3
                end
              else scanstring (uni :: acc) s3
            end
          | _ => Stop InvalidUnicodeEscape
          end
        else
          match backslash esc with
          | Some ch => scanstring (ch :: acc) s2
          | None => Stop InvalidEscape
          end
      end
    else if (c <? 32)%N then Stop InvalidControlCharacter
    else scanstring (c :: acc) s1
  end.
Proof. by destruct s. Qed.

Ltac into_rest Hs :=
  apply scanstring_suffix, suffix_length in Hs;
  simpl in Hs; rewrite ?length_app in Hs; simpl in Hs; lia.

(** A string literal is read the same without the text after it. *)
Lemma scanstring_chop (r t acc str u : pystr) :
  scanstring acc (t ++ r) = Got str (u ++ r) -> scanstring acc t = Got str u.
Proof.
  remember (length t) as n eqn:Hn. revert t Hn acc.
  induction n as [n IH] using lt_wf_ind. intros t -> acc.
  destruct t as [|c t].
  { simpl. intros Hs. into_rest Hs. }
  rewrite (scanstring_unfold acc ((c :: t) ++ r)), (scanstring_unfold acc (c :: t)).
  cbn [app]. destruct (c =? 34)%N eqn:E34.
  { by intros [= <- ->%app_inv_tail]. }
  destruct (c =? 92)%N eqn:E92.
  2: { destruct (c <? 32)%N; [done|]. intros Hs.
       eapply IH; [|reflexivity|exact Hs]. simpl; lia. }
  do 11 (try destruct t as [|? t]); cbn [app]; repeat case_match; subst;
    try done; intros Hs;
    first
    [ by (eapply IH; [|reflexivity|exact Hs]; simpl; lia)
    | by (exfalso; into_rest Hs)
    | exfalso; clear IH; bool_lia; subst; rewrite scanstring_unfold in Hs;
      repeat (case_match; try discriminate); try discriminate; into_rest Hs ].
Qed.

Lemma ws_not_digit (c : N) : is_ws c = true -> is_digit c = false.
Proof. by intros [->|[->|[->| ->]]]%is_ws_cases. Qed.

Lemma ws_not_solid (a d : N) : solid a -> is_ws d = true -> (a =? d)%N = false.
Proof.
  intros Ha%solid_not_ws Hd. apply N.eqb_neq. intros ->. congruence.
Qed.

Lemma digits_app_ws (r t : pystr) :
  forallb is_ws r = true ->
  digits (t ++ r) = let '(ds, rest) := digits t in (ds, rest ++ r).
Proof.
  intros Hr. induction t as [|c t IH]; simpl.
  - destruct r as [|d r']; [done|]. simpl in *.
    apply andb_true_iff in Hr as [Hd _]. by rewrite (ws_not_digit d).
  - destruct (is_digit c); [|done]. rewrite IH. by destruct (digits t).
Qed.

Lemma integer_part_app_ws (r t : pystr) :
  forallb is_ws r = true ->
  integer_part (t ++ r)
  = match integer_part t with Some (x, rest) => Some (x, rest ++ r) | None => None end.
Proof.
  intros Hr. unfold integer_part.
  assert (forall sign s1 : pystr,
    match s1 ++ r with
    | [] => None
    | c :: t =>
      if (c =? 48)%N then Some (sign ++ [c], t)
      else if is_digit c then let '(ds, r) := digits t in Some (sign ++ c :: ds, r)
      else None
    end
    = match
        match s1 with
        | [] => None
        | c :: t =>
          if (c =? 48)%N then Some (sign ++ [c], t)
          else if is_digit c then let '(ds, r) := digits t in Some (sign ++ c :: ds, r)
          else None
        end
      with Some (x, rest) => Some (x, rest ++ r) | None => None end) as Hbody.
  { intros sign [|c s1]; simpl.
    - destruct r as [|d r']; [done|]. simpl in Hr.
      apply andb_true_iff in Hr as [Hd _].
      by apply is_ws_cases in Hd as [->|[->|[->| ->]]].
    - destruct (c =? 48)%N; [done|]. destruct (is_digit c); [|done].
      rewrite digits_app_ws by done. by destruct (digits s1). }
  destruct t as [|c t]; simpl.
  - destruct r as [|d r']; [done|]. simpl in Hr.
    apply andb_true_iff in Hr as [Hd _].
    by apply is_ws_cases in Hd as [->|[->|[->| ->]]].
  - destruct (c =? 45)%N; [apply (Hbody [c] t)|apply (Hbody [] (c :: t))].
Qed.

Lemma frac_part_app_ws (r t : pystr) :
  forallb is_ws r = true ->
  frac_part (t ++ r)
  = match frac_part t with Some (x, rest) => Some (x, rest ++ r) | None => None end.
Proof.
  intros Hr. unfold frac_part. destruct t as [|c t]; simpl.
  - destruct r as [|d r']; [done|]. simpl in Hr.
    apply andb_true_iff in Hr as [Hd _].
    by apply is_ws_cases in Hd as [->|[->|[->| ->]]].
  - destruct (c =? 46)%N; [|done]. rewrite digits_app_ws by done.
    by destruct (digits t) as [[|d ds] rest].
Qed.

Lemma exp_part_app_ws (r t : pystr) :
  forallb is_ws r = true ->
  exp_part (t ++ r)
  = match exp_part t with Some (x, rest) => Some (x, rest ++ r) | None => None end.
Proof.
  intros Hr. unfold exp_part. destruct t as [|c t]; simpl.
  - destruct r as [|d r']; [done|]. simpl in Hr.
    apply andb_true_iff in Hr as [Hd _].
    by apply is_ws_cases in Hd as [->|[->|[->| ->]]].
  - destruct ((c =? 101)%N || (c =? 69)%N); [|done].
    destruct t as [|d t]; simpl.
    + destruct r as [|d r']; [done|]. simpl in Hr.
      apply andb_true_iff in Hr as [Hd _].
      by apply is_ws_cases in Hd as [->|[->|[->| ->]]].
    + destruct ((d =? 45)%N || (d =? 43)%N).
      * rewrite digits_app_ws by done. by destruct (digits t) as [[|e ds] rest].
      * change (d :: t ++ r) with ((d :: t) ++ r).
        rewrite digits_app_ws by done. by destruct (digits (d :: t)) as [[|e ds] rest].
Qed.

(** A number is read the same without the white space after it. *)
Lemma match_number_app_ws (r t : pystr) :
  forallb is_ws r = true ->
  match_number (t ++ r)
  = match match_number t with Some (v, rest) => Some (v, rest ++ r) | None => None end.
Proof.
  intros Hr. unfold match_number. rewrite integer_part_app_ws by done.
  destruct (integer_part t) as [[i r1]|]; [|done].
  rewrite frac_part_app_ws by done.
  destruct (frac_part r1) as [[f r2]|]; cbv beta iota;
    rewrite exp_part_app_ws by done;
    destruct (exp_part _) as [[e r3]|]; cbv beta iota;
    first [done | by case_match].
Qed.

Lemma startswith_app_ws (r p t : pystr) :
  forallb is_ws r = true -> Forall solid p ->
  Str.startswith p (t ++ r) = Str.startswith p t.
Proof.
  intros Hr Hp. revert t. induction Hp as [|a p Ha Hp IH]; intros t; [by destruct t|].
  destruct t as [|b t]; simpl.
  - destruct r as [|d r']; [done|]. simpl in *.
    apply andb_true_iff in Hr as [Hd _]. by rewrite (ws_not_solid a d).
  - f_equal. apply IH.
Qed.

Lemma startswith_length (p s : pystr) :
  Str.startswith p s = true -> length p <= length s.
Proof.
  intros H%startswith_drop. apply (f_equal length) in H.
  rewrite length_app in H. lia.
Qed.

Lemma literal_chop (r p t u : pystr) :
  Str.startswith p t = true ->
  drop (length p) (t ++ r) = u ++ r -> drop (length p) t = u.
Proof.
  intros Hst. rewrite drop_app_le by (by apply startswith_length).
  apply app_inv_tail.
Qed.

Lemma array_loop_chop (r : pystr) (scan scan' : pystr -> Json.scan pyval)
    (g g' : nat) (values : list pyval) (t u : pystr) (v : pyval) :
  (forall x, x `suffix_of` (t ++ r) -> scan_ok false x (scan x)) ->
  (forall t' v' u', length t' <= length t ->
     scan (t' ++ r) = Got v' (u' ++ r) -> scan' t' = Got v' u') ->
  length (t ++ r) < g -> length t < g' ->
  array_loop scan g values (t ++ r) = Got v (u ++ r) ->
  array_loop scan' g' values t = Got v u.
Proof.
  revert g' values t.
  induction g as [|g IH]; intros g' values t Hok Hscan Hg Hg'; [lia|].
  destruct g' as [|g']; [lia|]. simpl.
  pose proof (Hok _ (reflexivity _)) as Hs.
  destruct (scan (t ++ r)) as [| |value r1] eqn:E1; [done|done|].
  destruct Hs as (c1 & _ & [Hsuf1 Hlen1]%suffix_cons_length).
  pose proof (skip_ws_suffix r1) as Hw1.
  destruct (skip_ws r1) as [|d r2] eqn:E2; [done|].
  destruct (d =? 93)%N eqn:Hd.
  { intros [= <- ->].
    destruct (skip_ws_chop r r1 (d :: u) E2) as (u1 & -> & Hu1); [done|].
    by rewrite (Hscan t value u1 (le_n _) E1), Hu1, Hd. }
  destruct (d =? 44)%N eqn:Hd'; [|done].
  intros Hrec.
  apply suffix_cons_length in Hw1 as [Hw1 Hlen2].
  pose proof (skip_ws_suffix r2) as Hw2.
  assert (skip_ws r2 `suffix_of` t ++ r) as Hsuf2.
  { etrans; [done|]. by etrans. }
  pose proof (suffix_length _ _ Hw2) as Hlen3.
  pose proof (array_loop_ok false scan g (values ++ [value]) (skip_ws r2)) as Hok2.
  rewrite Hrec in Hok2. destruct Hok2 as (c2 & _ & Hsuf3).
  { intros x Hx. apply Hok. by etrans. }
  { lia. }
  destruct (suffix_tail _ _ _ _ Hsuf3) as (t2 & Ht2 & Hne2 & _).
  destruct (skip_ws_chop r r2 t2 Ht2 Hne2) as (u2 & -> & Hu2).
  destruct (skip_ws_chop r r1 (d :: u2) E2) as (u1 & -> & Hu1); [done|].
  rewrite (Hscan t value u1 (le_n _) E1), Hu1, Hd, Hd', Hu2.
  rewrite Ht2 in Hrec, Hsuf2, Hlen3. rewrite !length_app in *.
  apply (IH g' _ t2); [| | | |exact Hrec].
  - intros x Hx. apply Hok. by etrans.
  - intros t' v' u' Hlen. apply Hscan. lia.
  - rewrite length_app. lia.
  - lia.
Qed.

Lemma JSONArray_chop (r : pystr) (scan scan' : pystr -> Json.scan pyval)
    (t u : pystr) (v : pyval) :
  (forall x, x `suffix_of` (t ++ r) -> scan_ok false x (scan x)) ->
  (forall t' v' u', length t' <= length t ->
     scan (t' ++ r) = Got v' (u' ++ r) -> scan' t' = Got v' u') ->
  JSONArray scan (t ++ r) = Got v (u ++ r) ->
  JSONArray scan' t = Got v u.
Proof.
  intros Hok Hscan. unfold JSONArray.
  pose proof (skip_ws_suffix (t ++ r)) as Hw.
  destruct (Str.startswith [93%N] (skip_ws (t ++ r))) eqn:Hst.
  - destruct (skip_ws (t ++ r)) as [|d s1] eqn:E; [done|]. simpl in Hst.
    rewrite andb_true_r in Hst. apply N.eqb_eq in Hst as <-.
    change (drop 1 (93%N :: s1)) with s1. intros [= <- ->].
    destruct (skip_ws_chop r (t ++ r) (93%N :: u) E) as (t' & Ht' & Hsk); [done|].
    apply app_inv_tail in Ht' as <-. by rewrite Hsk.
  - intros Hloop.
    pose proof (array_loop_ok false scan (S (length (t ++ r))) [] (skip_ws (t ++ r))) as Hok1.
    rewrite Hloop in Hok1. destruct Hok1 as (c & _ & Hsuf).
    { intros x Hx. apply Hok. by etrans. }
    { apply suffix_length in Hw. lia. }
    destruct (suffix_tail _ _ _ _ Hsuf) as (y & Hy & Hne & _).
    destruct (skip_ws_chop r (t ++ r) y Hy Hne) as (t' & Ht' & Hsk).
    apply app_inv_tail in Ht' as <-.
    pose proof (suffix_length _ _ (skip_ws_suffix t)) as Hlen.
    rewrite Hsk in *. rewrite Hy in Hst, Hloop, Hw.
    assert (Str.startswith [93%N] y = false) as ->.
    { destruct y as [|a y]; [done|]. exact Hst. }
    eapply array_loop_chop; [| | | |exact Hloop].
    + intros x Hx. apply Hok. by etrans.
    + intros t' v' u' Hlen'. apply Hscan. lia.
    + apply suffix_length in Hw. lia.
    + lia.
Qed.

Lemma object_loop_chop (r : pystr) (scan scan' : pystr -> Json.scan pyval)
    (g g' : nat) (pairs : gmap pystr pyval) (t u : pystr) (v : pyval) :
  (forall x, x `suffix_of` (t ++ r) -> scan_ok false x (scan x)) ->
  (forall t' v' u', length t' <= length t ->
     scan (t' ++ r) = Got v' (u' ++ r) -> scan' t' = Got v' u') ->
  length (t ++ r) < g -> length t < g' ->
  object_loop scan g pairs (t ++ r) = Got v (u ++ r) ->
  object_loop scan' g' pairs t = Got v u.
Proof.
  revert g' pairs t.
  induction g as [|g IH]; intros g' pairs t Hok Hscan Hg Hg'; [lia|].
  destruct g' as [|g']; [lia|]. simpl.
  destruct (scanstring [] (t ++ r)) as [| |key r1] eqn:Ekey; [done|done|].
  pose proof (scanstring_suffix _ _ _ _ Ekey) as [Hr1 Hlen1]%suffix_cons_length.
  pose proof (skip_ws_suffix r1) as Hw1.
  destruct (skip_ws r1) as [|c r2] eqn:E1; [done|].
  destruct (c =? 58)%N eqn:Hc; [|done].
  apply suffix_cons_length in Hw1 as [Hr2 Hlen2].
  assert (skip_ws r2 `suffix_of` t ++ r) as Hsuf.
  { etrans; [apply skip_ws_suffix|]. by etrans. }
  pose proof (Hok _ Hsuf) as Hval.
  destruct (scan (skip_ws r2)) as [| |value r3] eqn:E2; [done|done|].
  destruct Hval as (c' & _ & Hc3).
  pose proof (suffix_cons_length _ _ _ Hc3) as [Hr3 Hlen3].
  pose proof (skip_ws_suffix r3) as Hw3.
  destruct (skip_ws r3) as [|d r4] eqn:E3; [done|].
  assert (forall u4, r4 = u4 ++ r ->
    exists u1 u2 u3,
      r1 = u1 ++ r /\ skip_ws u1 = c :: u2 /\ r3 = u3 ++ r
      /\ skip_ws u3 = d :: u4 /\ scanstring [] t = Got key u1
      /\ scan' (skip_ws u2) = Got value u3) as Hback.
  { intros u4 ->.
    destruct (skip_ws_chop r r3 (d :: u4) E3) as (u3 & -> & Hu3); [done|].
    destruct (suffix_tail _ _ _ _ Hc3) as (t2 & Ht2 & Hne2 & _).
    destruct (skip_ws_chop r r2 t2 Ht2 Hne2) as (u2 & -> & Hu2).
    destruct (skip_ws_chop r r1 (c :: u2) E1) as (u1 & -> & Hu1); [done|].
    exists u1, u2, u3. split_and!; try done.
    - by apply (scanstring_chop r).
    - rewrite Hu2. apply Hscan; [|by rewrite <- Ht2].
      apply suffix_length in Hsuf. rewrite Ht2, !length_app in Hsuf. lia. }
  destruct (d =? 125)%N eqn:Hd.
  { intros [= <- ->].
    destruct (Hback u eq_refl) as (u1 & u2 & u3 & -> & Hu1 & -> & Hu3 & Hkey & Hval).
    by rewrite Hkey, Hu1, Hc, Hval, Hu3, Hd. }
  destruct (d =? 44)%N eqn:Hd'; [|done].
  pose proof (skip_ws_suffix r4) as Hw4.
  destruct (skip_ws r4) as [|q r5] eqn:E4; [done|].
  destruct (q =? 34)%N eqn:Hq; [|done].
  intros Hrec.
  assert (r5 `suffix_of` t ++ r /\ length r5 + 2 <= length (t ++ r)) as [Hr5 Hlen5].
  { apply suffix_cons_length in Hw3 as [Hw3 Hlen4].
    apply suffix_cons_length in Hw4 as [Hw4 Hlen5].
    pose proof (suffix_length _ _ (skip_ws_suffix r2)).
    split; [|lia].
    etrans; [done|]. etrans; [done|]. etrans; [done|]. done. }
  pose proof (object_loop_ok false scan g (<[key:=value]> pairs) r5) as Hok5.
  rewrite Hrec in Hok5. destruct Hok5 as (c5 & _ & Hsuf5).
  { intros x Hx. apply Hok. by etrans. }
  { lia. }
  destruct (suffix_tail _ _ _ _ Hsuf5) as (t5 & -> & Hne5 & _).
  destruct (skip_ws_chop r r4 (q :: t5) E4) as (u4 & -> & Hu4); [done|].
  destruct (Hback u4 eq_refl) as (u1 & u2 & u3 & -> & Hu1 & -> & Hu3 & Hkey & Hval).
  rewrite Hkey, Hu1, Hc, Hval, Hu3, Hd, Hd', Hu4, Hq.
  rewrite !length_app in *.
  apply (IH g' _ t5); [| | | |exact Hrec].
  - intros x Hx. apply Hok. by etrans.
  - intros t' v' u' Hlen. apply Hscan. lia.
  - rewrite length_app. lia.
  - lia.
Qed.

Lemma JSONObject_chop (r : pystr) (scan scan' : pystr -> Json.scan pyval)
    (t u : pystr) (v : pyval) :
  (forall x, x `suffix_of` (t ++ r) -> scan_ok false x (scan x)) ->
  (forall t' v' u', length t' <= length t ->
     scan (t' ++ r) = Got v' (u' ++ r) -> scan' t' = Got v' u') ->
  JSONObject scan (t ++ r) = Got v (u ++ r) ->
  JSONObject scan' t = Got v u.
Proof.
  intros Hok Hscan. unfold JSONObject.
  pose proof (skip_ws_suffix (t ++ r)) as Hw.
  destruct (skip_ws (t ++ r)) as [|c s1] eqn:E; [done|].
  destruct (c =? 125)%N eqn:Hc.
  { intros [= <- ->].
    destruct (skip_ws_chop r (t ++ r) (c :: u) E) as (t' & Ht' & Hsk); [done|].
    apply app_inv_tail in Ht' as <-. by rewrite Hsk, Hc. }
  destruct (c =? 34)%N eqn:Hq; [|done].
  intros Hloop. apply suffix_cons_length in Hw as [Hw Hlen].
  pose proof (object_loop_ok false scan (length (t ++ r)) ∅ s1) as Hok1.
  rewrite Hloop in Hok1. destruct Hok1 as (c1 & _ & Hsuf).
  { intros x Hx. apply Hok. by etrans. }
  { lia. }
  destruct (suffix_tail _ _ _ _ Hsuf) as (y & -> & Hne & _).
  destruct (skip_ws_chop r (t ++ r) (c :: y) E) as (t' & Ht' & Hsk); [done|].
  apply app_inv_tail in Ht' as <-.
  pose proof (suffix_length _ _ (skip_ws_suffix t)) as Hlen'.
  rewrite Hsk, Hc, Hq. rewrite Hsk in Hlen'. simpl in Hlen'.
  eapply object_loop_chop; [| | | |exact Hloop].
  - intros x Hx. apply Hok. by etrans.
  - intros t' v' u' Hlen''. apply Hscan. lia.
  - lia.
  - lia.
Qed.

(** A value is read the same without the white space after it. *)
Lemma scan_once_chop (r : pystr) :
  forallb is_ws r = true ->
  forall (f : nat) (t u : pystr) (v : pyval),
  scan_once f (t ++ r) = Got v (u ++ r) -> scan_once f t = Got v u.
Proof.
  intros Hr f.
  assert (forall g x, scan_ok false x (scan_once g x)) as Hany.
  { intros g x. by apply scan_once_ok. }
  induction f as [|f IH]; intros t u v.
  all: destruct t as [|c t];
    [intros Hs; exfalso; lazymatch type of Hs with scan_once ?g _ = _ => pose proof (Hany g ([] ++ r)) as Hok end;
     rewrite Hs in Hok; destruct Hok as (c & _ & Hsuf%suffix_length);
     simpl in Hsuf; rewrite length_app in Hsuf; lia|].
  all: change ((c :: t) ++ r) with (c :: (t ++ r)); cbn [scan_once].
  all: destruct (c =? 34)%N eqn:H34;
    [destruct (scanstring [] (t ++ r)) as [| |str r1] eqn:E; [done|done|];
     intros [= <- ->]; by rewrite (scanstring_chop r _ _ _ _ E)|].
  all: destruct (c =? 123)%N eqn:H123.
  1: done.
  2: { apply JSONObject_chop.
       - intros x _. apply Hany.
       - intros t' v' u' _. apply IH. }
  all: destruct (c =? 91)%N eqn:H91.
  1: done.
  2: { apply JSONArray_chop.
       - intros x _. apply Hany.
       - intros t' v' u' _. apply IH. }
  all: change (c :: t ++ r) with ((c :: t) ++ r).
  all: rewrite !(startswith_app_ws r) by (done || by apply literal_solid).
  all: rewrite match_number_app_ws by done.
  all: destruct (Str.startswith (py "null") (c :: t)) eqn:Hnull;
    [intros [= <- Hd]; f_equal; by apply (literal_chop r (py "null") (c :: t))|].
  all: destruct (Str.startswith (py "true") (c :: t)) eqn:Htrue;
    [intros [= <- Hd]; f_equal; by apply (literal_chop r (py "true") (c :: t))|].
  all: destruct (Str.startswith (py "false") (c :: t)) eqn:Hfalse;
    [intros [= <- Hd]; f_equal; by apply (literal_chop r (py "false") (c :: t))|].
  all: destruct (match_number (c :: t)) as [[[v'|] r']|];
    [by intros [= <- ->%app_inv_tail]|done|].
  all: destruct (Str.startswith (py "NaN") (c :: t)) eqn:Hnan;
    [intros [= <- Hd]; f_equal; by apply (literal_chop r (py "NaN") (c :: t))|].
  all: destruct (Str.startswith (py "Infinity") (c :: t)) eqn:Hinf;
    [intros [= <- Hd]; f_equal; by apply (literal_chop r (py "Infinity") (c :: t))|].
  all: destruct (Str.startswith (py "-Infinity") (c :: t)) eqn:Hninf;
    [intros [= <- Hd]; f_equal; by apply (literal_chop r (py "-Infinity") (c :: t))|].
  all: done.
Qed.

Lemma startswith_head (a c : N) (p s : pystr) :
  Str.startswith (a :: p) (c :: s) = true -> c = a.
Proof. simpl. by intros [->%N.eqb_eq _]%andb_true_iff. Qed.

(** A value starts with a visible ASCII character. *)
Lemma scan_once_head (f : nat) (c : N) (s : pystr) (v : pyval) (rest : pystr) :
  scan_once f (c :: s) = Got v rest -> solid c.
Proof.
  assert (forall a : N, (c =? a)%N = true -> (33 <= a < 127)%N -> a <> 96%N -> solid c)
    as Hc.
  { intros a ->%N.eqb_eq ? ?. unfold solid. split; [lia|done]. }
  destruct f as [|f]; cbn [scan_once].
  all: destruct (c =? 34)%N eqn:H34; [intros _; apply (Hc _ H34); [lia|done]|].
  all: destruct (c =? 123)%N eqn:H123; [first [done|intros _; apply (Hc _ H123); [lia|done]]|].
  all: destruct (c =? 91)%N eqn:H91; [first [done|intros _; apply (Hc _ H91); [lia|done]]|].
  all: destruct (Str.startswith (py "null") (c :: s)) eqn:Hnull;
    [intros _; apply startswith_head in Hnull as ->; unfold solid; lia|].
  all: destruct (Str.startswith (py "true") (c :: s)) eqn:Htrue;
    [intros _; apply startswith_head in Htrue as ->; unfold solid; lia|].
  all: destruct (Str.startswith (py "false") (c :: s)) eqn:Hfalse;
    [intros _; apply startswith_head in Hfalse as ->; unfold solid; lia|].
  all: destruct (match_number (c :: s)) as [[[v'|] r']|] eqn:Enum;
    [intros _; apply match_number_spec in Enum as (x & Hx & Hne & Hsol);
     destruct x as [|a x]; [done|]; injection Hx as -> _; by apply Forall_inv in Hsol
    |done|].
  all: destruct (Str.startswith (py "NaN") (c :: s)) eqn:Hnan;
    [intros _; apply startswith_head in Hnan as ->; unfold solid; lia|].
  all: destruct (Str.startswith (py "Infinity") (c :: s)) eqn:Hinf;
    [intros _; apply startswith_head in Hinf as ->; unfold solid; lia|].
  all: destruct (Str.startswith (py "-Infinity") (c :: s)) eqn:Hninf;
    [intros _; apply startswith_head in Hninf as ->; unfold solid; lia|].
  all: done.
Qed.

Lemma skip_ws_split (s : pystr) :
  exists w, s = w ++ skip_ws s /\ forallb is_ws w = true.
Proof.
  induction s as [|c s (w & Hs & Hw)]; simpl; [by exists []|].
  destruct (is_ws c) eqn:Hc.
  - exists (c :: w). simpl. rewrite Hc. split; [by f_equal|done].
  - by exists [].
Qed.

Lemma ws_all_isspace (w : pystr) :
  forallb is_ws w = true -> forallb Str.isspace w = true.
Proof.
  induction w as [|c w IH]; simpl; [done|].
  intros [Hc Hw]%andb_true_iff. by rewrite (is_ws_isspace c), IH.
Qed.

(** A text that [json.loads] accepts decodes to the same value once it
    is stripped. *)
Lemma loads_strip (s : pystr) (v : pyval) :
  loads s = Return v -> loads (Str.strip s) = Return v.
Proof.
  unfold loads at 1. destruct (Str.startswith [65279%N] s) eqn:Hbom; [done|].
  pose proof (scan_once_ok false json_depth (skip_ws s)) as Hok.
  destruct (scan_once json_depth (skip_ws s)) as [[|]| |obj rest] eqn:E; [done..|].
  destruct (skip_ws rest) eqn:Hrest; [|done]. intros [= ->].
  apply skip_ws_nil in Hrest.
  destruct Hok as (c & Hc & [k Hk]); [done|].
  destruct (skip_ws_split s) as (w & Hs & Hw).
  assert (exists c0 b, k ++ [c] = c0 :: b) as (c0 & b & Hb).
  { destruct k; simpl; eauto. }
  assert (skip_ws s = (c0 :: b) ++ rest) as Hbody.
  { by rewrite <- Hb, <- app_assoc. }
  rewrite Hbody in E, Hs.
  pose proof (scan_once_head _ _ _ _ _ E) as Hc0.
  assert (Str.strip s = c0 :: b) as ->.
  { rewrite Hs, strip_app_space by (by apply ws_all_isspace).
    apply strip_trimmed.
    - intros c1 t1 [= <- <-]. by apply solid_not_space.
    - rewrite <- Hb, last_snoc. intros c1 [= <-]. by apply solid_not_space. }
  unfold loads.
  assert (Str.startswith [65279%N] (c0 :: b) = false) as ->.
  { simpl. destruct (65279 =? c0)%N eqn:E0; [|done].
    apply N.eqb_eq in E0 as <-. unfold solid in Hc0. lia. }
  cbn [skip_ws]. rewrite (solid_not_ws c0) by done.
  by rewrite (scan_once_chop rest Hrest json_depth (c0 :: b) [] v).
Qed.
End JsonTail.

(** ** Facts about the matcher *)
Section ReFacts.
Import Re.

Lemma nullable_lang (r : regex) : nullable r = true <-> lang r [].
Proof.
  induction r as [| |p|r1 IH1 r2 IH2|r1 IH1 r2 IH2|r IH]; simpl.
  - split; [done|]. inversion 1.
  - split; [constructor|done].
  - split; [done|]. inversion 1.
  - rewrite andb_true_iff, IH1, IH2. split.
    + intros [H1 H2]. by apply (lang_cat _ _ [] []).
    + inversion 1 as [| |? ? s1 s2 H1 H2 E1 E2| | | |]; subst.
      by apply app_eq_nil in E2 as [-> ->].
  - rewrite orb_true_iff, IH1, IH2. split.
    + intros [H|H]; [by apply lang_alt_l|by apply lang_alt_r].
    + inversion 1; subst; auto.
  - split; [constructor|done].
Qed.

Lemma lang_star_cons_gen (r' : regex) (t : pystr) :
  lang r' t -> forall r c s, r' = Star r -> t = c :: s ->
  exists s1 s2, s = s1 ++ s2 /\ lang r (c :: s1) /\ lang (Star r) s2.
Proof.
  induction 1 as [| | | | | |r0 s1 s2 H1 _ H2 IH2]; intros rr cc ss Hr Ht;
    try discriminate.
  injection Hr as ->. destruct s1 as [|d s1].
  - simpl in Ht. by eapply IH2.
  - injection Ht as -> <-. by exists s1, s2.
Qed.

Lemma lang_star_cons (r : regex) (c : N) (s : pystr) :
  lang (Star r) (c :: s) ->
  exists s1 s2, s = s1 ++ s2 /\ lang r (c :: s1) /\ lang (Star r) s2.
Proof. intros H. by eapply lang_star_cons_gen. Qed.

Lemma deriv_lang (c : N) (r : regex) (s : pystr) :
  lang (deriv c r) s <-> lang r (c :: s).
Proof.
  revert s. induction r as [| |p|r1 IH1 r2 IH2|r1 IH1 r2 IH2|r IH]; intros s; simpl.
  - split; inversion 1.
  - split; inversion 1.
  - destruct (p c) eqn:Hp; split.
    + inversion 1; subst. by constructor.
    + inversion 1; subst. constructor.
    + inversion 1.
    + inversion 1; subst. congruence.
  - assert (lang (Cat (deriv c r1) r2) s ->  lang (Cat r1 r2) (c :: s)) as Hleft.
    { inversion 1 as [| |? ? s1 s2 H1 H2| | | |]; subst.
      apply IH1 in H1. by apply (lang_cat _ _ (c :: s1) s2). }
    assert (lang (Cat r1 r2) (c :: s) ->
            lang (Cat (deriv c r1) r2) s \/ (lang r1 [] /\ lang r2 (c :: s))) as Hinv.
    { inversion 1 as [| |? ? s1 s2 H1 H2 E1 E2| | | |]; subst.
      destruct s1 as [|d s1]; simpl in E2.
      - subst. by right.
      - injection E2 as -> <-. left. constructor; [by apply IH1|done]. }
    destruct (nullable r1) eqn:Hn; split.
    + inversion 1; subst; [by apply Hleft|].
      apply (lang_cat _ _ [] (c :: s)); [by apply nullable_lang|by apply IH2].
    + intros [H|[_ H]]%Hinv; [by apply lang_alt_l|]. apply lang_alt_r. by apply IH2.
    + done.
    + intros [H|[H _]]%Hinv; [done|]. apply nullable_lang in H. congruence.
  - split.
    + inversion 1; subst; [apply lang_alt_l; by apply IH1|apply lang_alt_r; by apply IH2].
    + inversion 1; subst; [apply lang_alt_l; by apply IH1|apply lang_alt_r; by apply IH2].
  - split.
    + inversion 1 as [| |? ? s1 s2 H1 H2| | | |]; subst.
      apply IH in H1. by apply (lang_star_app _ (c :: s1) s2).
    + intros (s1 & s2 & -> & H1 & H2)%lang_star_cons.
      constructor; [by apply IH|done].
Qed.

(** The matcher decides membership. *)
Lemma fullmatch_lang (r : regex) (s : pystr) : fullmatch r s = true <-> lang r s.
Proof.
  revert r. induction s as [|c s IH]; intros r; simpl.
  - apply nullable_lang.
  - rewrite IH. apply deriv_lang.
Qed.

Lemma lang_classes_in (P : N -> Prop) (r : regex) (s : pystr) :
  lang r s -> classes_in P r -> Forall P s.
Proof.
  induction 1 as [|p c Hp|r1 r2 s1 s2 _ IH1 _ IH2|r1 r2 s _ IH|r1 r2 s _ IH
                  |r|r s1 s2 _ IH1 _ IH2]; simpl.
  - constructor.
  - intros Hcls. repeat constructor. by apply Hcls.
  - intros [H1 H2]. apply Forall_app. auto.
  - intros [H1 H2]. auto.
  - intros [H1 H2]. auto.
  - constructor.
  - intros Hr. apply Forall_app. auto.
Qed.

Lemma lang_map (f : N -> N) (r : regex) (s : pystr) :
  lang r s -> classes_closed f r -> lang r (map f s).
Proof.
  induction 1 as [|p c Hp|r1 r2 s1 s2 _ IH1 _ IH2|r1 r2 s _ IH|r1 r2 s _ IH
                  |r|r s1 s2 _ IH1 _ IH2]; simpl.
  - constructor.
  - intros Hcls. constructor. by apply Hcls.
  - intros [H1 H2]. rewrite map_app. constructor; auto.
  - intros [H1 H2]. apply lang_alt_l. auto.
  - intros [H1 H2]. apply lang_alt_r. auto.
  - constructor.
  - intros Hr. rewrite map_app. constructor; auto.
Qed.

(** A word of [r+] is not empty when the words of [r] are not. *)
Lemma lang_cat_nonempty (r1 r2 : regex) (s : pystr) :
  (forall t, lang r1 t -> t <> []) -> lang (Cat r1 r2) s -> s <> [].
Proof.
  intros Hr1. inversion 1 as [| |? ? s1 s2 H1 H2| | | |]; subst.
  apply Hr1 in H1. by destruct s1.
Qed.

Lemma lang_cls_nonempty (p : N -> bool) (s : pystr) : lang (Cls p) s -> s <> [].
Proof. inversion 1. done. Qed.
End ReFacts.

(** ** Facts about the extractor *)
Section ExtractFacts.
Import Str Builtins OutputCleaner.

Lemma contains_longer (p q s : pystr) :
  contains p s = false -> contains (p ++ q) s = false.
Proof.
  induction s as [|c s IH]; simpl.
  - intros H. apply orb_false_iff in H as [H _]. rewrite orb_false_r.
    destruct (startswith (p ++ q) []) eqn:E; [|done].
    apply startswith_prefix in E. congruence.
  - intros [Hst H]%orb_false_iff. rewrite IH; [|done]. rewrite orb_false_r.
    destruct (startswith (p ++ q) (c :: s)) eqn:E; [|done].
    apply startswith_prefix in E. congruence.
Qed.

Lemma startswith_tick (p s : pystr) :
  no_tick s -> startswith (96%N :: p) s = false.
Proof.
  destruct s as [|c s]; simpl; [done|]. intros Hs%Forall_inv.
  destruct (96 =? c)%N eqn:E; [|done]. apply N.eqb_eq in E. congruence.
Qed.

Lemma contains_tick (p s : pystr) : no_tick s -> contains (96%N :: p) s = false.
Proof.
  induction s as [|c s IH]; [done|]. intros Hs.
  rewrite contains_cons, startswith_tick; [|done].
  apply IH. by eapply Forall_inv_tail.
Qed.

Lemma occurs_within_tick (p a rest : pystr) :
  no_tick a -> occurs_within (96%N :: p) a rest = false.
Proof.
  induction a as [|c a IH]; [done|]. intros Ha.
  rewrite occurs_within_cons, IH; [|by eapply Forall_inv_tail].
  rewrite orb_false_r. simpl. apply Forall_inv in Ha.
  destruct (96 =? c)%N eqn:E; [|done]. apply N.eqb_eq in E. congruence.
Qed.

Lemma contains_fence_no_tick (s : pystr) : no_tick s -> contains FENCE s = false.
Proof. apply (contains_tick [96; 96]%N). Qed.

Lemma occurs_within_fence_no_tick (a rest : pystr) :
  no_tick a -> occurs_within FENCE a rest = false.
Proof. apply (occurs_within_tick [96; 96]%N). Qed.

(** In a text without a fence that does not end with a backtick, no
    fence starts, whatever follows the text. *)
Lemma occurs_within_fence (a rest : pystr) :
  contains FENCE a = false -> (forall c, last a = Some c -> c <> 96%N) ->
  occurs_within FENCE a rest = false.
Proof.
  induction a as [|c a IH]; [done|]. intros Hin Hlast.
  rewrite contains_cons in Hin. apply orb_false_iff in Hin as [Hst Hin].
  assert (occurs_within FENCE a rest = false) as Ha.
  { apply IH; [done|]. intros d Hd. apply Hlast.
    destruct a; [done|]. by rewrite last_cons_cons. }
  rewrite occurs_within_cons, Ha, orb_false_r. clear IH Hin Ha.
  unfold FENCE in *. simpl in *.
  destruct (96 =? c)%N eqn:E1; [|done]. apply N.eqb_eq in E1 as <-.
  destruct a as [|d a]; simpl in *.
  { exfalso. by apply (Hlast 96%N). }
  destruct (96 =? d)%N eqn:E2; [|done]. apply N.eqb_eq in E2 as <-.
  destruct a as [|e a]; simpl in *.
  { exfalso. by apply (Hlast 96%N). }
  destruct (96 =? e)%N eqn:E3; [|done]. done.
Qed.

Lemma bind_Return {A B} (f : A -> outcome B) (x : A) : (Return x ≫= f) = f x.
Proof. done. Qed.

Lemma list_getitem_0 {A} (x : A) (l : list A) : list_getitem (x :: l) 0 = Return x.
Proof. done. Qed.

Lemma list_getitem_1 {A} (x y : A) (l : list A) :
  list_getitem (x :: y :: l) 1 = Return y.
Proof. done. Qed.

(** The text between the fences of a block opened with the json tag. *)
Lemma json_str_of_fenced (pre a post : pystr) :
  no_tick pre -> no_tick post ->
  contains FENCE a = false -> (forall c, last a = Some c -> c <> 96%N) ->
  json_str_of (pre ++ FENCE_JSON ++ a ++ FENCE ++ post) = Return (strip a).
Proof.
  intros Hpre Hpost Ha Hlast. unfold json_str_of.
  rewrite contains_app.
  rewrite split_cut; [|done|by apply occurs_within_tick].
  destruct (split_cons FENCE_JSON (a ++ FENCE ++ post)) as (p1 & tl & Hsplit).
  rewrite Hsplit, list_getitem_1, bind_Return.
  assert (exists tl', split FENCE p1 = a :: tl') as [tl' ->]; [|done].
  pose proof (occurs_within_fence a (FENCE ++ post) Ha Hlast) as Hocc.
  destruct (startswith (py "json") post) eqn:Hjson.
  - apply startswith_drop in Hjson.
    assert (a ++ FENCE ++ post = a ++ FENCE_JSON ++ drop 4 post) as E.
    { rewrite Hjson at 1. done. }
    rewrite E in Hsplit.
    rewrite split_cut in Hsplit; [|done|].
    2: { apply (occurs_within_longer FENCE (py "json")).
         by apply occurs_within_fence. }
    injection Hsplit as <- _. exists []. by apply split_none.
  - assert (contains FENCE_JSON (a ++ FENCE ++ post) = false) as Hnone.
    { rewrite contains_app_split.
      rewrite (occurs_within_longer FENCE (py "json")); [|done].
      change (FENCE ++ post) with (96 :: 96 :: 96 :: post)%N.
      change FENCE_JSON with (96 :: 96 :: 96 :: py "json")%N.
      rewrite !contains_cons, !startswith_cons_same, Hjson.
      by rewrite !startswith_tick, contains_tick. }
    rewrite split_none in Hsplit; [|done]. injection Hsplit as <- _.
    exists (split FENCE post). by apply (split_cut FENCE a post).
Qed.

Lemma isspace_not_tick (c : N) : isspace c = true -> c <> 96%N.
Proof. intros H ->. done. Qed.

Lemma space_no_tick (w : pystr) : forallb isspace w = true -> no_tick w.
Proof.
  rewrite forallb_forall. intros Hw. apply Forall_forall. intros c Hc.
  apply isspace_not_tick, Hw. by apply list_elem_of_In.
Qed.

Lemma last_app_no_tick (x w : pystr) :
  (forall c, last x = Some c -> c <> 96%N) -> no_tick w ->
  forall c, last (x ++ w) = Some c -> c <> 96%N.
Proof.
  intros Hx Hw c. rewrite last_app. destruct (last w) as [d|] eqn:Hd.
  - intros [= <-]. apply last_Some in Hd as [w' ->].
    apply Forall_app in Hw as [_ Hw]. by apply Forall_inv in Hw.
  - apply Hx.
Qed.

(** Without a fence the whole response is the text. *)
Lemma json_str_of_bare (s : pystr) :
  contains FENCE s = false -> json_str_of s = Return (strip s).
Proof.
  intros Hs. unfold json_str_of.
  pose proof (contains_longer FENCE (py "json") s Hs) as Hj.
  change (FENCE ++ py "json") with FENCE_JSON in Hj. by rewrite Hj, Hs.
Qed.

(** No branch of the [if] indexes past the end of a split. *)
Lemma json_str_of_total (response : pystr) :
  exists json_str, json_str_of response = Return json_str.
Proof.
  unfold json_str_of.
  destruct (contains FENCE_JSON response) eqn:E1.
  - destruct (split_two FENCE_JSON response) as (a & b & tl & ->); [done|done|].
    rewrite list_getitem_1, bind_Return.
    destruct (split_cons FENCE b) as (b0 & tl' & ->).
    rewrite list_getitem_0, bind_Return. eauto.
  - destruct (contains FENCE response) eqn:E2.
    + destruct (split_two FENCE response) as (a & b & tl & ->); [done|done|].
      rewrite list_getitem_1, bind_Return. eauto.
    + eauto.
Qed.

Lemma extract_parsed `{PyRuntime} (response json_str : pystr) (v : pyval) :
  json_str_of response = Return json_str -> Json.loads json_str = Return v ->
  extract_json_from_response response = Return (extraction_success v).
Proof.
  intros Hstr Hv. unfold extract_json_from_response.
  by rewrite Hstr, bind_Return, Hv, bind_Return.
Qed.

Lemma extract_malformed `{PyRuntime} (response json_str doc : pystr)
    (msg : decode_error) :
  json_str_of response = Return json_str ->
  Json.loads json_str = Raise (JSONDecodeError msg doc) ->
  extract_json_from_response response
  = Return (extraction_failure msg doc response).
Proof.
  intros Hstr Hv. unfold extract_json_from_response.
  by rewrite Hstr, bind_Return, Hv.
Qed.

(** What the handler does not catch leaves the function. *)
Lemma extract_stopped `{PyRuntime} (response json_str : pystr) (e : exn) :
  json_str_of response = Return json_str ->
  Json.loads json_str = Raise e ->
  (forall msg doc, e <> JSONDecodeError msg doc) ->
  extract_json_from_response response = Raise e.
Proof.
  intros Hstr Hv He. unfold extract_json_from_response.
  rewrite Hstr, bind_Return, Hv. destruct e; try done. by destruct (He msg doc).
Qed.

(** [extract_json_from_response] returns the dictionary of a success or
    of a failure, or is left by what stopped [json.loads]. *)
Lemma extract_outcomes `{PyRuntime} (response : pystr) :
  exists json_str, json_str_of response = Return json_str
  /\ ((exists v, Json.loads json_str = Return v
         /\ extract_json_from_response response = Return (extraction_success v))
      \/ (exists msg, Json.loads json_str = Raise (JSONDecodeError msg json_str)
         /\ extract_json_from_response response
            = Return (extraction_failure msg json_str response))
      \/ (Json.loads json_str = Raise RecursionError
         /\ extract_json_from_response response = Raise RecursionError)
      \/ (Json.loads json_str = Raise IntTooLong
         /\ extract_json_from_response response = Raise IntTooLong)).
Proof.
  destruct (json_str_of_total response) as [json_str Hstr].
  exists json_str. split; [done|].
  destruct (loads_cases json_str) as [[v Hv]|[[e He]|[Hr|Hi]]].
  - left. exists v. by rewrite (extract_parsed _ _ _ Hstr Hv).
  - right; left. exists e. by rewrite (extract_malformed _ _ _ _ Hstr He).
  - right; right; left. by rewrite (extract_stopped _ _ _ Hstr Hr).
  - right; right; right. by rewrite (extract_stopped _ _ _ Hstr Hi).
Qed.
End ExtractFacts.


(** ** Facts about the normalizer *)

Section CleanFacts.
Import Str Builtins OutputCleaner.
Context `{PyRuntime}.

Lemma email_char_not_space (c : N) : email_char c = true -> isspace c = false.
Proof.
  unfold email_char, local_char, is_alnum, is_letter. intros Hc.
  destruct (isspace c) eqn:Hs; [|done]. exfalso.
  unfold isspace in Hs. bool_lia.
Qed.

Lemma email_char_ascii (c : N) : email_char c = true -> isascii c = true.
Proof.
  unfold email_char, local_char, is_alnum, is_letter, isascii. intros Hc.
  apply N.ltb_lt. bool_lia.
Qed.

Lemma lower_ascii_idem (c : N) : lower_ascii (lower_ascii c) = lower_ascii c.
Proof.
  unfold lower_ascii, isupper_ascii.
  destruct ((65 <=? c) && (c <=? 90))%N eqn:Hu; [|by rewrite Hu].
  destruct ((65 <=? c + 32) && (c + 32 <=? 90))%N eqn:Hu'; [|done]. bool_lia.
Qed.

Lemma class_lower (p : N -> bool) :
  (forall c, (65 <= c <= 90)%N -> p c = true -> p (c + 32)%N = true) ->
  forall c, p c = true -> p (lower_ascii c) = true.
Proof.
  intros Hp c Hc. unfold lower_ascii, isupper_ascii.
  destruct ((65 <=? c) && (c <=? 90))%N eqn:Hu; [|done].
  apply Hp; [|done]. bool_lia.
Qed.

Lemma is_letter_lower (c : N) : is_letter c = true -> is_letter (lower_ascii c) = true.
Proof.
  apply class_lower. clear c. intros c Hc _. unfold is_letter.
  rewrite orb_true_iff, !andb_true_iff, !N.leb_le. lia.
Qed.

Lemma local_char_lower (c : N) : local_char c = true -> local_char (lower_ascii c) = true.
Proof.
  apply class_lower. clear c. intros c Hc _. unfold local_char, is_alnum, is_letter.
  rewrite !orb_true_iff, !andb_true_iff, !N.leb_le. lia.
Qed.

Lemma domain_char_lower (c : N) :
  domain_char c = true -> domain_char (lower_ascii c) = true.
Proof.
  apply class_lower. clear c. intros c Hc _. unfold domain_char, is_alnum, is_letter.
  rewrite !orb_true_iff, !andb_true_iff, !N.leb_le. lia.
Qed.

Lemma chr_lower (a c : N) :
  (a < 65 \/ 90 < a)%N -> (a =? c)%N = true -> (a =? lower_ascii c)%N = true.
Proof.
  intros Ha ->%N.eqb_eq. unfold lower_ascii, isupper_ascii.
  destruct ((65 <=? c) && (c <=? 90))%N eqn:Hu; [bool_lia|apply N.eqb_refl].
Qed.

Lemma email_pattern_chars : classes_in (fun c => email_char c = true) email_pattern.
Proof.
  unfold email_pattern, Re.Plus, Re.AtLeast2, Re.Chr; simpl.
  repeat split; intros c Hc; unfold email_char, local_char, domain_char, is_alnum in *;
    try (apply N.eqb_eq in Hc; rewrite <- Hc; reflexivity);
    repeat rewrite orb_true_iff in Hc; repeat rewrite orb_true_iff; tauto.
Qed.

Lemma email_pattern_closed : classes_closed lower_ascii email_pattern.
Proof.
  unfold email_pattern, Re.Plus, Re.AtLeast2; simpl.
  repeat split; auto using local_char_lower, domain_char_lower, is_letter_lower.
  - intros c. apply chr_lower. lia.
  - intros c. apply chr_lower. lia.
Qed.

Lemma email_pattern_nonempty (s : pystr) : lang email_pattern s -> s <> [].
Proof.
  apply lang_cat_nonempty. intros t. apply lang_cat_nonempty.
  intros t'. apply lang_cls_nonempty.
Qed.

(** After [strip] the second alternative of [$] never applies: the text
    does not end with a newline. *)
Lemma match_anchored_strip (r : Re.regex) (s : pystr) :
  Re.match_anchored r (strip s) = Re.fullmatch r (strip s).
Proof.
  unfold Re.match_anchored.
  destruct (strip_split s) as (l & w & _ & _ & _ & _ & Hlast).
  destruct (reverse (strip s)) as [|c t] eqn:E; [apply orb_false_r|].
  assert (last (strip s) = Some c) as Hc.
  { rewrite <- (reverse_involutive (strip s)), E, reverse_cons. apply last_snoc. }
  apply Hlast in Hc. destruct (c =? 10)%N eqn:E10.
  - apply N.eqb_eq in E10 as ->. done.
  - destruct c as [|p]; [apply orb_false_r|].
    repeat (destruct p as [p|p|]; try apply orb_false_r; try done).
Qed.

Lemma forallb_Forall_true (p : N -> bool) (s : pystr) :
  Forall (fun c => p c = true) s -> forallb p s = true.
Proof. intros Hs. apply forallb_forall. intros c Hc. by eapply Forall_forall in Hs; [|by apply list_elem_of_In]. Qed.

Lemma matched_email_chars (t : pystr) :
  Re.fullmatch email_pattern t = true -> Forall (fun c => email_char c = true) t.
Proof.
  intros Ht%fullmatch_lang. eapply lang_classes_in; [done|apply email_pattern_chars].
Qed.

Lemma email_chars_lower (t : pystr) :
  Forall (fun c => email_char c = true) t -> lower t = map lower_ascii t.
Proof.
  intros Ht. unfold lower. rewrite forallb_Forall_true; [done|].
  eapply Forall_impl; [done|]. apply email_char_ascii.
Qed.

Lemma email_chars_trimmed (t : pystr) :
  t <> [] -> Forall (fun c => email_char c = true) t -> trimmed_text t.
Proof.
  intros Hne Ht. split_and!; [done| |].
  - intros c t' ->. apply Forall_inv in Ht. by apply email_char_not_space.
  - intros c [t' ->]%last_Some. apply Forall_app in Ht as [_ Ht].
    apply Forall_inv in Ht. by apply email_char_not_space.
Qed.

Lemma trimmed_strip (t : pystr) : trimmed_text t -> strip t = t.
Proof. intros (_ & Hh & Hl). by apply strip_trimmed. Qed.

Lemma strip_trimmed_text (s : pystr) : strip s <> [] -> trimmed_text (strip s).
Proof.
  intros Hne. destruct (strip_split s) as (l & w & _ & _ & _ & Hh & Hl).
  by split_and!.
Qed.

(** [_clean_email] by cases on the match. *)
Lemma clean_email_match (e : pystr) :
  Re.fullmatch email_pattern (strip e) = true ->
  _clean_email e = PStr (map lower_ascii (strip e)).
Proof.
  intros Hm. unfold _clean_email. rewrite match_anchored_strip, Hm.
  by rewrite email_chars_lower; [|apply matched_email_chars].
Qed.

Lemma clean_email_nomatch (e : pystr) :
  Re.fullmatch email_pattern (strip e) = false -> _clean_email e = PNone.
Proof. intros Hm. unfold _clean_email. by rewrite match_anchored_strip, Hm. Qed.

(** A cleaned e-mail address matches the pattern, is trimmed and in
    lower case. *)
Lemma clean_email_value (e v : pystr) :
  _clean_email e = PStr v ->
  Re.fullmatch email_pattern v = true /\ trimmed_text v /\ map lower_ascii v = v.
Proof.
  destruct (Re.fullmatch email_pattern (strip e)) eqn:Hm.
  2: { by rewrite clean_email_nomatch. }
  rewrite clean_email_match; [|done]. intros [= <-].
  pose proof Hm as Hl%fullmatch_lang.
  assert (lang email_pattern (map lower_ascii (strip e))) as Hl'.
  { apply lang_map; [done|apply email_pattern_closed]. }
  split_and!.
  - by apply fullmatch_lang.
  - apply email_chars_trimmed; [by apply email_pattern_nonempty|].
    eapply lang_classes_in; [done|apply email_pattern_chars].
  - rewrite map_map. apply map_ext. intros c. apply lower_ascii_idem.
Qed.

Lemma clean_email_idem (e v : pystr) :
  _clean_email e = PStr v -> _clean_email v = PStr v.
Proof.
  intros (Hm & Ht & Hl)%clean_email_value.
  rewrite clean_email_match; rewrite (trimmed_strip v Ht); [by rewrite Hl|done].
Qed.

Lemma clean_email_result (e : pystr) : clean_result (_clean_email e).
Proof.
  destruct (_clean_email e) as [| | | |v| |] eqn:E;
    try (unfold _clean_email in E; by destruct (Re.match_anchored _ _)).
  - by left.
  - right. exists v. split; [done|]. by apply clean_email_value in E as (_ & Ht & _).
Qed.

(** [re.sub] with an empty replacement filters. *)
Lemma sub_class_filter (p : N -> bool) (s : pystr) :
  Re.sub_class p [] s = List.filter (fun c => negb (p c)) s.
Proof.
  unfold Re.sub_class. induction s as [|c s IH]; simpl; [done|].
  rewrite IH. by destruct (p c).
Qed.

Lemma phone_junk_keep (c : N) : negb (phone_junk c) = phone_keep c.
Proof.
  unfold phone_junk, phone_keep. rewrite negb_involutive.
  by destruct (isdecimal c), (c =? 45)%N, (c =? 43)%N, (c =? 40)%N, (c =? 41)%N.
Qed.

Lemma clean_phone_number_filter (phone : pystr) :
  _clean_phone_number phone
  = match List.filter phone_keep phone with
    | [] => PNone
    | cleaned => PStr cleaned
    end.
Proof.
  unfold _clean_phone_number. rewrite sub_class_filter.
  rewrite (filter_ext _ phone_keep) by apply phone_junk_keep.
  destruct (List.filter phone_keep phone); [done|].
  by rewrite bool_decide_eq_false_2.
Qed.

Lemma phone_keep_not_space (c : N) : phone_keep c = true -> isspace c = false.
Proof.
  unfold phone_keep, isdecimal. intros Hc.
  destruct (isspace c) eqn:Hs; [|done]. exfalso.
  repeat (apply orb_true_iff in Hc as [Hc|Hc]).
  - unfold isspace in Hs. bool_lia.
  - apply andb_true_iff in Hc as [_ Hc].
    apply unicode_decimal_not_space in Hc. congruence.
  - unfold isspace in Hs. bool_lia.
  - unfold isspace in Hs. bool_lia.
  - unfold isspace in Hs. bool_lia.
  - unfold isspace in Hs. bool_lia.
Qed.

Lemma filter_Forall (p : N -> bool) (s : pystr) :
  Forall (fun c => p c = true) (List.filter p s).
Proof. apply Forall_forall. intros c Hc%list_elem_of_In%filter_In. tauto. Qed.

Lemma clean_phone_result (phone : pystr) : clean_result (_clean_phone_number phone).
Proof.
  rewrite clean_phone_number_filter.
  pose proof (filter_Forall phone_keep phone) as Hall.
  destruct (List.filter phone_keep phone) as [|c t] eqn:E; [by left|].
  right. eexists. split; [done|]. split_and!; [done| |].
  - intros c' t' [= <- <-]. apply Forall_inv in Hall. by apply phone_keep_not_space.
  - intros d [t' Ht']%last_Some. rewrite Ht' in Hall.
    apply Forall_app in Hall as [_ Hall]. apply Forall_inv in Hall.
    by apply phone_keep_not_space.
Qed.

(** [_clean_field_value] yields the absence marker or a trimmed text. *)
Lemma clean_field_value_result (value : pyval) (field_type : pystr) :
  clean_result (_clean_field_value value field_type).
Proof.
  unfold _clean_field_value.
  destruct (is_None value || eq_str value []); [by left|].
  destruct (bool_decide (strip (str value) = [])) eqn:Hne; [by left|].
  apply bool_decide_eq_false in Hne. cbn [orb].
  destruct (bool_decide (lower (strip (str value)) ∈ sentinels)); [by left|].
  destruct (bool_decide (field_type = py "phone")); [apply clean_phone_result|].
  destruct (bool_decide (field_type = py "email")); [apply clean_email_result|].
  right. eexists. split; [done|]. by apply strip_trimmed_text.
Qed.

(** *** The reconciler *)

Lemma first_value_select (raw_data : gmap pystr pyval) (possible_keys : list pystr) :
  first_value raw_data possible_keys = Return (select_alias raw_data possible_keys).
Proof.
  induction possible_keys as [|key rest IH]; [done|].
  cbn [first_value select_alias]. unfold dict_contains, dict_getitem.
  destruct (raw_data !! key) as [v|] eqn:E.
  - rewrite bool_decide_eq_true_2 by eauto. cbn.
    destruct (is_None v); cbn; [apply IH|done].
  - rewrite bool_decide_eq_false_2 by (by intros [? ?]). cbn. apply IH.
Qed.

(** The first key that is present with a value other than [None] wins. *)
Lemma select_alias_first (raw_data : gmap pystr pyval)
    (before after : list pystr) (key : pystr) (v : pyval) :
  Forall (missing raw_data) before ->
  raw_data !! key = Some v -> v <> PNone ->
  select_alias raw_data (before ++ key :: after) = v.
Proof.
  intros Hbefore Hkey Hv. induction Hbefore as [|k before [Hk|Hk] _ IH]; simpl.
  - rewrite Hkey. by destruct v.
  - by rewrite Hk.
  - by rewrite Hk.
Qed.

Lemma select_alias_none (raw_data : gmap pystr pyval) (keys : list pystr) :
  Forall (missing raw_data) keys ->
  select_alias raw_data keys = PNone.
Proof.
  induction 1 as [|k keys [Hk|Hk] _ IH]; simpl; [done| |]; by rewrite Hk.
Qed.

Lemma dict_of_snoc (l : list (pystr * pyval)) (k : pystr) (v : pyval) :
  dict_of (l ++ [(k, v)]) = <[k := v]> (dict_of l).
Proof. unfold dict_of. by rewrite foldl_app. Qed.

Lemma dict_of_list_to_map (l : list (pystr * pyval)) :
  dict_of l = list_to_map (reverse l).
Proof.
  induction l as [|[k v] l IH] using rev_ind; [done|].
  by rewrite dict_of_snoc, reverse_app, IH.
Qed.

(** A display with distinct keys holds exactly its items. *)
Lemma dict_of_lookup (l : list (pystr * pyval)) (k : pystr) (v : pyval) :
  NoDup l.*1 -> dict_of l !! k = Some v <-> (k, v) ∈ l.
Proof.
  intros Hnd. rewrite dict_of_list_to_map, <- elem_of_list_to_map.
  - by rewrite elem_of_reverse.
  - by rewrite fmap_reverse, reverse_Permutation.
Qed.

Lemma dict_of_dom (l : list (pystr * pyval)) :
  dom (dict_of l) = list_to_set l.*1.
Proof.
  rewrite dict_of_list_to_map, dom_list_to_map_L, fmap_reverse.
  apply set_eq. intros k. by rewrite !elem_of_list_to_set, elem_of_reverse.
Qed.

Lemma clean_fields_spec (raw_data : gmap pystr pyval)
    (fields : list (pystr * list pystr)) (cleaned_data : gmap pystr pyval) :
  clean_fields raw_data fields cleaned_data
  = Return (foldl (fun d kv => <[kv.1 := kv.2]> d) cleaned_data
              (map (fun fk => (fk.1, cleaned_value raw_data fk.1 fk.2)) fields)).
Proof.
  revert cleaned_data. induction fields as [|[f keys] fields IH]; intros acc; [done|].
  cbn [clean_fields]. rewrite first_value_select. cbn -[cleaned_value].
  rewrite IH. unfold cleaned_value. cbn.
  by destruct (truthy (select_alias raw_data keys)).
Qed.

(** [clean_business_card_data] stores one value for each item of
    [field_mapping]. *)
Lemma clean_business_card_data_spec (raw_data : gmap pystr pyval) :
  clean_business_card_data raw_data
  = Return (dict_of (map (fun fk => (fk.1, cleaned_value raw_data fk.1 fk.2))
                       field_mapping)).
Proof. apply clean_fields_spec. Qed.

Lemma field_mapping_NoDup : NoDup field_mapping.*1.
Proof. apply (bool_decide_unpack (NoDup field_mapping.*1)). by vm_compute. Qed.

Lemma cleaned_items_keys (raw_data : gmap pystr pyval) :
  (map (fun fk => (fk.1, cleaned_value raw_data fk.1 fk.2)) field_mapping).*1
  = field_mapping.*1.
Proof. done. Qed.

(** What [clean_business_card_data] returns, key by key. *)
Lemma cleaned_data_lookup (raw_data : gmap pystr pyval) :
  exists cleaned_data,
    clean_business_card_data raw_data = Return cleaned_data
    /\ dom cleaned_data = list_to_set field_mapping.*1
    /\ (forall field keys, (field, keys) ∈ field_mapping ->
          cleaned_data !! field = Some (cleaned_value raw_data field keys))
    /\ (forall field v, cleaned_data !! field = Some v ->
          exists keys, (field, keys) ∈ field_mapping
                       /\ v = cleaned_value raw_data field keys).
Proof.
  eexists. split; [apply clean_business_card_data_spec|]. split_and!.
  - by rewrite dict_of_dom, cleaned_items_keys.
  - intros field keys Hin. apply dict_of_lookup.
    + rewrite cleaned_items_keys. apply field_mapping_NoDup.
    + apply list_elem_of_fmap. by exists (field, keys).
  - intros field v Hv. apply dict_of_lookup in Hv.
    + apply list_elem_of_fmap in Hv as ([f keys] & [= -> ->] & Hin). eauto.
    + rewrite cleaned_items_keys. apply field_mapping_NoDup.
Qed.

Lemma cleaned_value_result (raw_data : gmap pystr pyval) (field : pystr)
    (keys : list pystr) :
  clean_result (cleaned_value raw_data field keys).
Proof.
  unfold cleaned_value. destruct (truthy _); [|by left].
  apply clean_field_value_result.
Qed.
End CleanFacts.

(** ** The cleaner under the limits of [str()] *)
Section BoundedFacts.
Import Str Builtins OutputCleaner.
Context `{PyRuntime}.

Lemma repr_stop_None (fuel : nat) : Bounded.repr_stop fuel PNone = None.
Proof. by destruct fuel. Qed.

Lemma repr_stop_PStr (fuel : nat) (s : pystr) : Bounded.repr_stop fuel (PStr s) = None.
Proof. by destruct fuel. Qed.

Lemma bounded_str_returns (v : pyval) (text : pystr) :
  Bounded.str v = Return text -> text = str v.
Proof.
  unfold Bounded.str. destruct (Bounded.repr_stop repr_depth v); [done|].
  by intros [= <-].
Qed.

Lemma bounded_str_raises (v : pyval) (e : exn) :
  Bounded.str v = Raise e -> e = RecursionError \/ e = IntTooLong.
Proof.
  unfold Bounded.str. destruct (Bounded.repr_stop repr_depth v) as [[|]|]; [| |done].
  all: intros [= <-]; auto.
Qed.

(** The bounded [_clean_field_value] is the other one behind [str()]. *)
Lemma bounded_clean_field_value (value : pyval) (field_type : pystr) :
  Bounded._clean_field_value value field_type
  = (_ ← Bounded.str value; Return (_clean_field_value value field_type)).
Proof.
  unfold Bounded._clean_field_value, _clean_field_value, Bounded.str.
  destruct (is_None value || eq_str value []) eqn:Hdrop.
  { destruct value; try done; by rewrite ?repr_stop_None, ?repr_stop_PStr. }
  destruct (Bounded.repr_stop repr_depth value); [done|]. cbn.
  by repeat case_match.
Qed.

(** The loop over the fields is left at the first field whose value
    [str()] does not return on. *)
Lemma bounded_clean_fields (raw_data : gmap pystr pyval)
    (fields : list (pystr * list pystr)) (cleaned_data : gmap pystr pyval) :
  Bounded.clean_fields raw_data fields cleaned_data
  = match fields_stop raw_data fields with
    | Some l => Raise (Bounded.raised_at l)
    | None => clean_fields raw_data fields cleaned_data
    end.
Proof.
  revert cleaned_data. induction fields as [|[f keys] fields IH]; intros acc; [done|].
  cbn [Bounded.clean_fields clean_fields fields_stop].
  rewrite first_value_select. cbn -[Bounded._clean_field_value _clean_field_value].
  unfold field_stop.
  destruct (truthy (select_alias raw_data keys)); [|apply IH].
  rewrite bounded_clean_field_value. unfold Bounded.str.
  destruct (Bounded.repr_stop repr_depth (select_alias raw_data keys)); [done|].
  apply IH.
Qed.

Lemma fields_stop_none (raw_data : gmap pystr pyval)
    (fields : list (pystr * list pystr)) :
  fields_stop raw_data fields = None
  <-> Forall (fun fk => field_stop raw_data fk.2 = None) fields.
Proof.
  induction fields as [|[f keys] fields IH]; cbn [fields_stop].
  - split; [constructor|done].
  - rewrite Forall_cons, <- IH. cbn.
    destruct (field_stop raw_data keys); [|tauto].
    split; [done|]. by intros [? _].
Qed.

Lemma fields_stop_some (raw_data : gmap pystr pyval)
    (fields : list (pystr * list pystr)) (l : limit) :
  fields_stop raw_data fields = Some l ->
  exists field keys, (field, keys) ∈ fields /\ field_stop raw_data keys = Some l.
Proof.
  induction fields as [|[f keys] fields IH]; cbn [fields_stop]; [done|].
  destruct (field_stop raw_data keys) as [l'|] eqn:E.
  - intros [= ->]. exists f, keys. split; [left|done].
  - intros (f' & keys' & Hin & Hstop)%IH. exists f', keys'. split; [by right|done].
Qed.

(** The value selected for a field is [None] or a value of the map. *)
Lemma select_alias_value (raw_data : gmap pystr pyval) (keys : list pystr) :
  select_alias raw_data keys = PNone
  \/ exists key, key ∈ keys /\ raw_data !! key = Some (select_alias raw_data keys).
Proof.
  induction keys as [|key keys IH]; [by left|]. cbn [select_alias].
  destruct (raw_data !! key) as [v|] eqn:E.
  - destruct (is_None v) eqn:Hv.
    + destruct IH as [?|(k & Hk & Hlook)]; [by left|].
      right. exists k. split; [by right|done].
    + right. exists key. split; [left|done].
  - destruct IH as [?|(k & Hk & Hlook)]; [by left|].
    right. exists k. split; [by right|done].
Qed.

Lemma field_stop_values (raw_data : gmap pystr pyval) (keys : list pystr) :
  map_Forall (fun _ v => Bounded.repr_stop repr_depth v = None) raw_data ->
  field_stop raw_data keys = None.
Proof.
  intros Hall. unfold field_stop.
  destruct (truthy (select_alias raw_data keys)); [|done].
  destruct (select_alias_value raw_data keys) as [->|(k & _ & Hk)];
    [apply repr_stop_None|].
  by apply Hall in Hk.
Qed.

(** What the bounded [clean_business_card_data] does: it is left at the
    first field that is stopped, and returns what the other one returns
    when there is none. *)
Lemma bounded_clean_business_card_data (raw_data : gmap pystr pyval) :
  Bounded.clean_business_card_data raw_data
  = match fields_stop raw_data field_mapping with
    | Some l => Raise (Bounded.raised_at l)
    | None => clean_business_card_data raw_data
    end.
Proof. apply bounded_clean_fields. Qed.
End BoundedFacts.

(** * The model on examples

    The library calls as the interpreter evaluates them, and the example of
    a whole run: fenced model output, cleaned and assembled. *)
Section Examples.
Import Str Builtins OutputCleaner.

Example split_at_the_end : split (py "```") (py "a```") = [py "a"; []].
Proof. reflexivity. Qed.

Example split_twice :
  split (py "```json") (py "```json x ```json y") = [[]; py " x "; py " y"].
Proof. reflexivity. Qed.

Example split_does_not_overlap : split (py "aa") (py "aaaaa") = [[]; []; py "a"].
Proof. reflexivity. Qed.

Example strip_both_ends : strip (py "
  a b  ") = py "a b".
Proof. reflexivity. Qed.

Example loads_last_key_wins :
  @Json.loads ascii_runtime (js " {'a': 1, 'b': [true, null], 'a': -20} ")
  = Return (PDict (dict_of [(py "a", PInt (-20));
                            (py "b", PList [PBool true; PNone])])).
Proof. vm_compute. reflexivity. Qed.

Example loads_unterminated_object :
  @Json.loads ascii_runtime (js "{'a': 1") = Raise (JSONDecodeError ExpectingComma (js "{'a': 1")).
Proof. reflexivity. Qed.

Example loads_leading_zero :
  @Json.loads ascii_runtime (py "01") = Raise (JSONDecodeError ExtraData (py "01")).
Proof. reflexivity. Qed.

(** The two limits of the decoder, as the default interpreter has them
    where the cleaner calls it. *)
Example loads_nested_994 :
  @Json.loads ascii_runtime (replicate 994 91%N ++ replicate 994 93%N)
  = Return (Nat.iter 993 (fun v => PList [v]) (PList [])).
Proof. vm_compute. reflexivity. Qed.

Example loads_nested_995 :
  @Json.loads ascii_runtime (replicate 995 91%N ++ replicate 995 93%N)
  = Raise RecursionError.
Proof. vm_compute. reflexivity. Qed.

Example loads_4300_digits :
  @Json.loads ascii_runtime (45%N :: replicate 4300 49%N)
  = Return (PInt (- ((10 ^ 4300 - 1) / 9))).
Proof. vm_compute. reflexivity. Qed.

Example loads_4301_digits :
  @Json.loads ascii_runtime (replicate 4301 49%N) = Raise IntTooLong.
Proof. vm_compute. reflexivity. Qed.

Example loads_4301_digits_of_a_float :
  @Json.loads ascii_runtime (replicate 4301 49%N ++ py ".5")
  = Return (PFloat (replicate 4301 49%N ++ py ".5")).
Proof. vm_compute. reflexivity. Qed.

(** The limits of [str()]: what stops it is met from the left. *)
Example str_digits :
  @Bounded.str ascii_runtime (PInt (10 ^ 4300)) = Raise IntTooLong
  /\ @Bounded.str ascii_runtime (PList [PNone; PInt (- 10 ^ 4300)]) = Raise IntTooLong
  /\ @Bounded.repr_stop ascii_runtime 996 (PInt (1 - 10 ^ 4300)) = None.
Proof. split_and!; vm_compute; reflexivity. Qed.

Example str_depth :
  @Bounded.repr_stop ascii_runtime 996 (Nat.iter 996 (fun v => PList [v]) (PInt 1))
  = None
  /\ @Bounded.str ascii_runtime (Nat.iter 997 (fun v => PList [v]) (PInt 1))
     = Raise RecursionError
  /\ @Bounded.repr_stop ascii_runtime 996 (Nat.iter 996 (fun v => PList [v]) (PList []))
     = None
  /\ @Bounded.str ascii_runtime (Nat.iter 997 (fun v => PList [v]) (PList []))
     = Raise RecursionError.
Proof. split_and!; vm_compute; reflexivity. Qed.

Example str_first_limit :
  let deep := Nat.iter 997 (fun v => PList [v]) (PInt 1) in
  @Bounded.str ascii_runtime (PList [PInt (10 ^ 4300); deep]) = Raise IntTooLong
  /\ @Bounded.str ascii_runtime (PList [deep; PInt (10 ^ 4300)]) = Raise RecursionError.
Proof. split_and!; vm_compute; reflexivity. Qed.

Example first_block_only :
  json_str_of (js "```json
{'a': 1}
```
or
```json
{'a': 2}
```") = Return (js "{'a': 1}").
Proof. reflexivity. Qed.

Example unclosed_fence :
  json_str_of (js "```json
{'a': 1}") = Return (js "{'a': 1}").
Proof. reflexivity. Qed.

(** Fenced model output to final result. *)
Example whole_run :
  let raw := js "```json
{'name':'홍길동','phone':'010-1234-5678','email':'TEST@EXAMPLE.COM','company':null}
```" in
  let data := dict_of [(py "name", PStr (py "홍길동"));
                       (py "phone", PStr (py "010-1234-5678"));
                       (py "email", PStr (py "TEST@EXAMPLE.COM"));
                       (py "company", PNone)] in
  let cleaned := dict_of [(py "name", PStr (py "홍길동"));
                          (py "phone", PStr (py "010-1234-5678"));
                          (py "email", PStr (py "test@example.com"));
                          (py "social_id", PNone); (py "position", PNone);
                          (py "company", PNone); (py "address", PNone);
                          (py "fax", PNone)] in
  @extract_json_from_response ascii_runtime raw = Return (extraction_success (PDict data))
  /\ @clean_business_card_data ascii_runtime data = Return cleaned
  /\ create_final_result cleaned (Some 7%Z) (Some (PStr (py "card.png"))) None
     = dict_of [(py "cardId", PInt 7);
                (py "name", PStr (py "홍길동"));
                (py "phone", PStr (py "010-1234-5678"));
                (py "email", PStr (py "test@example.com"));
                (py "profile_image_url", PNone);
                (py "card_img_url", PStr (py "card.png"));
                (py "address", PNone); (py "fax", PNone); (py "position", PNone);
                (py "company", PNone); (py "social_id", PNone)].
Proof. split_and!; vm_compute; reflexivity. Qed.

End Examples.

(** * The extractor *)
Section Extractor.
Import Str Builtins OutputCleaner.

(** C1. A valid JSON object text [J] that holds no triple backtick,
    wrapped in a fenced block opened with the json tag, is extracted to
    the same result as [J] alone, the success dictionary whose data is
    the object.  The block may hold white space around [J] and may stand
    between prose without backticks; [J] is a valid object text when
    [json.loads] decodes it to a dictionary. *)
Theorem fenced_json_extracts_like_bare `{PyRuntime}
    (pre w1 J w2 post : pystr) (m : gmap pystr pyval) :
  no_tick pre -> no_tick post ->
  forallb isspace w1 = true -> forallb isspace w2 = true ->
  contains FENCE J = false ->
  Json.loads J = Return (PDict m) ->
  extract_json_from_response (pre ++ FENCE_JSON ++ w1 ++ J ++ w2 ++ FENCE ++ post)
  = extract_json_from_response J
  /\ extract_json_from_response J = Return (extraction_success (PDict m)).
Proof.
  intros Hpre Hpost Hw1 Hw2 HJ Hvalid. apply loads_strip in Hvalid.
  pose proof (json_str_of_bare J HJ) as Hbare.
  rewrite (extract_parsed J _ _ Hbare Hvalid).
  split; [|done].
  (* the last character of [J] is that of the stripped text or white space *)
  destruct (strip_split J) as (l & r & HJeq & Hl & Hr & _ & _).
  destruct (loads_last _ _ Hvalid) as (c & Hc & Hc').
  assert (forall d, last J = Some d -> d <> 96%N) as HlastJ.
  { rewrite HJeq. rewrite app_assoc. apply last_app_no_tick; [|by apply space_no_tick].
    intros d. rewrite last_app, Hc. by intros [= <-]. }
  set (a := w1 ++ J ++ w2).
  assert (json_str_of (pre ++ FENCE_JSON ++ a ++ FENCE ++ post) = Return (strip a)) as Hfenced.
  { apply json_str_of_fenced; [done|done| |].
    - unfold a. rewrite contains_app_split.
      rewrite occurs_within_fence_no_tick by (by apply space_no_tick).
      rewrite contains_app_split, occurs_within_fence by done.
      by rewrite contains_fence_no_tick by (by apply space_no_tick).
    - unfold a. rewrite app_assoc. apply last_app_no_tick; [|by apply space_no_tick].
      intros d. rewrite last_app. destruct (last J) as [e|] eqn:E.
      + intros [= <-]. by apply HlastJ.
      + destruct J; [done|by apply last_None in E]. }
  unfold a in Hfenced. rewrite <- !app_assoc in Hfenced.
  eapply extract_parsed; [done|].
  by rewrite strip_app_space.
Qed.

Lemma fenced_json_extracts_like_bare_witness :
  contains FENCE (js "{'name': 'Kim'}") = false
  /\ @Json.loads ascii_runtime (js "{'name': 'Kim'}")
     = Return (PDict (<[py "name" := PStr (py "Kim")]> ∅))
  /\ @extract_json_from_response ascii_runtime (js "Result:
```json
{'name': 'Kim'}
```
")
     = @extract_json_from_response ascii_runtime (js "{'name': 'Kim'}").
Proof.
  assert (contains FENCE (js "{'name': 'Kim'}") = false) as H1 by reflexivity.
  assert (@Json.loads ascii_runtime (js "{'name': 'Kim'}")
          = Return (PDict (<[py "name" := PStr (py "Kim")]> ∅))) as H2
    by (vm_compute; reflexivity).
  split_and!; [exact H1|exact H2|].
  refine (proj1 (fenced_json_extracts_like_bare (H:=ascii_runtime)
            (py "Result:
") [10%N] (js "{'name': 'Kim'}") [10%N] [10%N] _ _ _ _ _ H1 H2)).
  - repeat constructor; discriminate.
  - repeat constructor; discriminate.
  - reflexivity.
  - reflexivity.
Defined.




(** C3 does not hold as stated: a text that decodes to an array is
    extracted successfully, with the array as data. *)
Lemma array_text_extracts_successfully :
  @extract_json_from_response ascii_runtime (js "[1, 2]")
  = Return (extraction_success (PList [PInt 1; PInt 2]))
  /\ extraction_success (PList [PInt 1; PInt 2]) !! py "success" = Some (PBool true)
  /\ ~ (forall (rt : PyRuntime) (response : pystr) (result : gmap pystr pyval),
          extract_json_from_response response = Return result ->
          result !! py "success" = Some (PBool true) ->
          exists m, result !! py "data" = Some (PDict m)).
Proof.
  assert (@extract_json_from_response ascii_runtime (js "[1, 2]")
          = Return (extraction_success (PList [PInt 1; PInt 2]))) as Hex
    by (vm_compute; reflexivity).
  split_and!; [exact Hex|reflexivity|].
  intros Hclaim. destruct (Hclaim ascii_runtime _ _ Hex eq_refl) as [m Hm].
  vm_compute in Hm. discriminate.
Qed.

(** C3, amended. Extraction succeeds exactly when the extracted text
    decodes, and its data is then the decoded value whatever its JSON
    type: there is no check that it is an object. *)
Theorem extraction_returns_decoded_value `{PyRuntime} (response : pystr) :
  exists json_str,
    json_str_of response = Return json_str
    /\ (forall v, Json.loads json_str = Return v ->
          extract_json_from_response response = Return (extraction_success v))
    /\ (forall result,
          extract_json_from_response response = Return result ->
          result !! py "success" = Some (PBool true) ->
          exists v, Json.loads json_str = Return v
                    /\ result = extraction_success v
                    /\ result !! py "data" = Some v).
Proof.
  destruct (json_str_of_total response) as [json_str Hstr].
  exists json_str. split_and!; [done|intros v Hv; by eapply extract_parsed|].
  intros result Hres Hsuccess.
  destruct (loads_cases json_str) as [[v Hv]|[[msg Hmsg]|[Hr|Hi]]].
  - rewrite (extract_parsed _ _ _ Hstr Hv) in Hres. injection Hres as <-.
    by exists v.
  - rewrite (extract_malformed _ _ _ _ Hstr Hmsg) in Hres. injection Hres as <-.
    done.
  - by rewrite (extract_stopped _ _ _ Hstr Hr) in Hres.
  - by rewrite (extract_stopped _ _ _ Hstr Hi) in Hres.
Qed.

Lemma extraction_returns_decoded_value_witness :
  @Json.loads ascii_runtime (js "'just a string'") = Return (PStr (py "just a string"))
  /\ @extract_json_from_response ascii_runtime (js "```
'just a string'
```")
     = Return (extraction_success (PStr (py "just a string"))).
Proof.
  assert (@Json.loads ascii_runtime (js "'just a string'")
          = Return (PStr (py "just a string")))
    as Hv by (vm_compute; reflexivity).
  split; [exact Hv|].
  destruct (extraction_returns_decoded_value (H:=ascii_runtime) (js "```
'just a string'
```")) as (json_str & Hstr & Hparsed & _).
  injection Hstr as <-. exact (Hparsed _ Hv).
Defined.
End Extractor.

(** * The reconciler and the normalizer *)
Section Cleaner.
Import Str Builtins OutputCleaner.

(** C4 does not hold as stated: the number 0 under the first alias of
    [name] is cleaned to the absence marker, although
    [_clean_field_value] itself would turn it into the text 0. *)
Lemma zero_value_is_dropped :
  (exists cleaned_data,
      @clean_business_card_data ascii_runtime (<[py "name" := PInt 0]> ∅)
      = Return cleaned_data
      /\ cleaned_data !! py "name" = Some PNone)
  /\ @first_value (<[py "name" := PInt 0]> ∅) [py "name"; py "이름"; py "성명"]
     = Return (PInt 0)
  /\ @_clean_field_value ascii_runtime (PInt 0) (py "name") = PStr (py "0").
Proof.
  split_and!; [|reflexivity|reflexivity].
  eexists. split; [apply clean_business_card_data_spec|]. reflexivity.
Qed.

(** C4, amended. A value other than [None] that is false as a condition
    (0, false, an empty text, list or dictionary) under the first alias
    of a field is the value the loop selects, the later aliases are not
    looked at, and the test [if value:] stores the absence marker for
    the field. *)
Theorem falsy_first_alias_is_absent `{PyRuntime} (raw_data : gmap pystr pyval)
    (field key : pystr) (rest : list pystr) (v : pyval) :
  (field, key :: rest) ∈ field_mapping ->
  raw_data !! key = Some v -> v <> PNone -> truthy v = false ->
  first_value raw_data (key :: rest) = Return v
  /\ exists cleaned_data,
      clean_business_card_data raw_data = Return cleaned_data
      /\ cleaned_data !! field = Some PNone.
Proof.
  intros Hin Hkey Hv Hfalsy.
  assert (select_alias raw_data (key :: rest) = v) as Hsel.
  { by apply (select_alias_first raw_data [] rest). }
  split; [by rewrite first_value_select, Hsel|].
  destruct (cleaned_data_lookup raw_data) as (cleaned & Hret & _ & Hlook & _).
  exists cleaned. split; [done|]. rewrite (Hlook _ _ Hin).
  unfold cleaned_value. by rewrite Hsel, Hfalsy.
Qed.

Lemma falsy_first_alias_is_absent_witness :
  (py "phone", [py "phone"; py "전화번호"; py "휴대폰"; py "연락처"]) ∈ field_mapping
  /\ @truthy ascii_runtime (PBool false) = false
  /\ exists cleaned_data,
      @clean_business_card_data ascii_runtime
        (<[py "phone" := PBool false]> (<[py "전화번호" := PStr (py "02-000")]> ∅))
      = Return cleaned_data
      /\ cleaned_data !! py "phone" = Some PNone.
Proof.
  assert ((py "phone", [py "phone"; py "전화번호"; py "휴대폰"; py "연락처"])
          ∈ field_mapping) as Hin.
  { apply list_elem_of_In. right. left. reflexivity. }
  split_and!; [exact Hin|reflexivity|].
  refine (proj2 (falsy_first_alias_is_absent (H:=ascii_runtime)
    (<[py "phone" := PBool false]> (<[py "전화번호" := PStr (py "02-000")]> ∅))
    (py "phone") (py "phone") _ (PBool false) Hin _ _ _)).
  - reflexivity.
  - discriminate.
  - reflexivity.
Defined.

(** C5. For each field the loop selects the value of the first alias of
    its list that is present with a value other than [None]; the aliases
    after it do not matter, and the cleaned record holds that value
    normalized (or the absence marker when it is false as a condition).
    When every alias is missing the field is absent.  With both [phone]
    and its Korean alias present, [phone] wins. *)
Theorem first_present_alias_wins `{PyRuntime} :
  (forall (raw_data : gmap pystr pyval) (field : pystr)
          (before after : list pystr) (key : pystr) (v : pyval),
      (field, before ++ key :: after) ∈ field_mapping ->
      Forall (missing raw_data) before ->
      raw_data !! key = Some v -> v <> PNone ->
      first_value raw_data (before ++ key :: after) = Return v
      /\ exists cleaned_data,
          clean_business_card_data raw_data = Return cleaned_data
          /\ cleaned_data !! field
             = Some (if truthy v then _clean_field_value v field else PNone))
  /\ (forall (raw_data : gmap pystr pyval) (field : pystr) (keys : list pystr),
        (field, keys) ∈ field_mapping ->
        Forall (missing raw_data) keys ->
        first_value raw_data keys = Return PNone
        /\ exists cleaned_data,
            clean_business_card_data raw_data = Return cleaned_data
            /\ cleaned_data !! field = Some PNone)
  /\ (exists cleaned_data,
        clean_business_card_data
          (<[py "전화번호" := PStr (py "02-000")]>
             (<[py "phone" := PStr (py "010-999")]> ∅))
        = Return cleaned_data
        /\ cleaned_data !! py "phone" = Some (PStr (py "010-999"))).
Proof.
  split_and!.
  - intros raw_data field before after key v Hin Hbefore Hkey Hv.
    pose proof (select_alias_first raw_data before after key v Hbefore Hkey Hv) as Hsel.
    split; [by rewrite first_value_select, Hsel|].
    destruct (cleaned_data_lookup raw_data) as (cleaned & Hret & _ & Hlook & _).
    exists cleaned. split; [done|]. rewrite (Hlook _ _ Hin).
    unfold cleaned_value. by rewrite Hsel.
  - intros raw_data field keys Hin Hkeys.
    pose proof (select_alias_none raw_data keys Hkeys) as Hsel.
    split; [by rewrite first_value_select, Hsel|].
    destruct (cleaned_data_lookup raw_data) as (cleaned & Hret & _ & Hlook & _).
    exists cleaned. split; [done|]. rewrite (Hlook _ _ Hin).
    unfold cleaned_value. by rewrite Hsel.
  - eexists. split; [apply clean_business_card_data_spec|]. reflexivity.
Qed.

Lemma first_present_alias_wins_witness :
  exists cleaned_data,
    @clean_business_card_data ascii_runtime
      (<[py "휴대폰" := PStr (py " 010-1 ")]> (<[py "전화번호" := PNone]> ∅))
    = Return cleaned_data
    /\ cleaned_data !! py "phone" = Some (PStr (py "010-1")).
Proof.
  destruct (proj1 (first_present_alias_wins (H:=ascii_runtime))
    (<[py "휴대폰" := PStr (py " 010-1 ")]> (<[py "전화번호" := PNone]> ∅))
    (py "phone") [py "phone"; py "전화번호"] [py "연락처"] (py "휴대폰")
    (PStr (py " 010-1 "))) as [_ Hclean].
  - apply list_elem_of_In. right. left. reflexivity.
  - constructor; [left; reflexivity|].
    constructor; [right; reflexivity|]. constructor.
  - reflexivity.
  - discriminate.
  - exact Hclean.
Defined.




Lemma lower_ascii_ascii_inv (c : N) :
  isascii (lower_ascii c) = true -> isascii c = true.
Proof.
  unfold lower_ascii, isupper_ascii, isascii.
  destruct ((65 <=? c) && (c <=? 90))%N eqn:Hu; [|done].
  intros _. apply N.ltb_lt. bool_lia.
Qed.

Lemma lower_of_ascii_variant `{PyRuntime} (s t : pystr) :
  forallb isascii t = true -> map lower_ascii s = map lower_ascii t ->
  lower s = map lower_ascii t.
Proof.
  intros Ht Hst. unfold lower. rewrite <- Hst.
  assert (forallb isascii s = true) as ->; [|done].
  revert t Ht Hst. induction s as [|c s IH]; intros [|d t]; simpl; try done.
  intros [Hd Ht]%andb_true_iff [= Hc Hs].
  rewrite (IH t) by done. rewrite andb_true_r.
  apply lower_ascii_ascii_inv. rewrite Hc.
  unfold lower_ascii. destruct (isupper_ascii d) eqn:Hu; [|done].
  unfold isupper_ascii, isascii in *. apply N.ltb_lt. bool_lia.
Qed.

(** C7. [None], the empty text and the texts null, N/A, - and none, in
    any letter case and with white space around them, are normalized to
    the absence marker, for every field; so is a field whose selected
    raw value is one of them. *)
Theorem absent_inputs_normalize_to_absent `{PyRuntime} (value : pyval)
    (field : pystr) :
  absent_input value ->
  _clean_field_value value field = PNone
  /\ (forall raw_data keys,
        select_alias raw_data keys = value ->
        cleaned_value raw_data field keys = PNone).
Proof.
  intros Habsent.
  assert (_clean_field_value value field = PNone) as Hnone.
  { destruct Habsent as [->|(s & t & -> & Ht & Hst)]; [done|].
    unfold _clean_field_value. cbn [is_None eq_str str orb].
    destruct (bool_decide (s = [])); [done|].
    destruct (bool_decide (strip s = [])) eqn:Hempty; [done|]. cbn [orb].
    apply bool_decide_eq_false in Hempty.
    rewrite bool_decide_eq_true_2; [done|].
    unfold absent_texts in Ht.
    repeat (apply elem_of_cons in Ht as [->|Ht]).
    - by destruct (strip s).
    - rewrite (lower_of_ascii_variant _ (py "null")) by done. set_solver.
    - rewrite (lower_of_ascii_variant _ (py "N/A")) by done.
      unfold sentinels. cbn. set_solver.
    - rewrite (lower_of_ascii_variant _ (py "-")) by done. set_solver.
    - rewrite (lower_of_ascii_variant _ (py "none")) by done. set_solver.
    - by apply elem_of_nil in Ht. }
  split; [done|]. intros raw_data keys Hsel.
  unfold cleaned_value. rewrite Hsel, Hnone. by destruct (truthy value).
Qed.

Lemma absent_inputs_normalize_to_absent_witness :
  absent_input (PStr (py "  n/A "))
  /\ @_clean_field_value ascii_runtime (PStr (py "  n/A ")) (py "company") = PNone.
Proof.
  assert (absent_input (PStr (py "  n/A "))) as Habsent.
  { right. exists (py "  n/A "), (py "N/A"). split_and!; [reflexivity| |reflexivity].
    unfold absent_texts. apply list_elem_of_In. right. right. left. reflexivity. }
  split; [exact Habsent|].
  exact (proj1 (absent_inputs_normalize_to_absent (H:=ascii_runtime) _ (py "company") Habsent)).
Defined.

(** C8 does not hold for fax: [_clean_field_value] hands a fax value
    back trimmed and otherwise unchanged, while the same text as a phone
    value loses its letters, colon and space. *)
Lemma fax_is_not_phone_normalized :
  @_clean_field_value ascii_runtime (PStr (py "Fax: 02-123")) (py "fax")
  = PStr (py "Fax: 02-123")
  /\ List.filter (@phone_keep ascii_runtime) (py "Fax: 02-123") = py "02-123"
  /\ @_clean_field_value ascii_runtime (PStr (py "Fax: 02-123")) (py "phone")
     = PStr (py "02-123").
Proof. split_and!; reflexivity. Qed.

(** C8, amended. Phone normalization keeps exactly the digits and the
    characters [+ - ( )] of the text, in their order, and yields the
    absence marker when nothing is left.  [_clean_field_value] applies it
    to the trimmed text of every phone value it does not drop; a fax
    value it does not drop is the trimmed text itself, unchanged.  The
    values dropped are the same for both fields: [None], and a value
    whose trimmed text is empty or a sentinel.  On a value that is not a
    text this is so when [str()] returns on it; [str()] returns on every
    text. *)
Theorem phone_normalization_filters `{PyRuntime} :
  (forall phone,
      _clean_phone_number phone
      = match List.filter phone_keep phone with
        | [] => PNone
        | cleaned => PStr cleaned
        end)
  /\ _clean_phone_number (py "Tel: 010-1234-5678") = PStr (py "010-1234-5678")
  /\ (forall value,
        Bounded._clean_field_value value (py "phone")
        = (text ← Bounded.str value;
           Return (if dropped value then PNone
                   else _clean_phone_number (strip text))))
  /\ (forall value,
        Bounded._clean_field_value value (py "fax")
        = (text ← Bounded.str value;
           Return (if dropped value then PNone else PStr (strip text))))
  /\ (forall s,
        Bounded._clean_field_value (PStr s) (py "phone")
        = Return (if bool_decide (lower (strip s) ∈ sentinels) then PNone
                  else match List.filter phone_keep (strip s) with
                       | [] => PNone
                       | cleaned => PStr cleaned
                       end))
  /\ (forall s,
        Bounded._clean_field_value (PStr s) (py "fax")
        = Return (if bool_decide (strip s = [])
                     || bool_decide (lower (strip s) ∈ sentinels)
                  then PNone else PStr (strip s)))
  /\ (forall s field,
        Bounded._clean_field_value (PStr s) field
        = Return (_clean_field_value (PStr s) field))
  /\ Bounded._clean_field_value (PStr (py " Tel: 010-1234-5678 ")) (py "phone")
     = Return (PStr (py "010-1234-5678"))
  /\ Bounded._clean_field_value (PStr (py " Fax: 02-123 ")) (py "fax")
     = Return (PStr (py "Fax: 02-123")).
Proof.
  assert (forall value field,
    _clean_field_value value field
    = if dropped value then PNone
      else if bool_decide (field = py "phone")
           then _clean_phone_number (strip (str value))
           else if bool_decide (field = py "email")
                then _clean_email (strip (str value))
                else PStr (strip (str value))) as Hfield.
  { intros value field. unfold _clean_field_value, dropped.
    destruct (is_None value) eqn:Hnone; [done|]. cbn [orb].
    destruct (eq_str value []) eqn:Hempty; [|done].
    destruct value; try done. cbn [eq_str] in Hempty.
    apply bool_decide_eq_true in Hempty as ->. done. }
  assert (forall value field,
    Bounded._clean_field_value value field
    = (text ← Bounded.str value;
       Return (if dropped value then PNone
               else if bool_decide (field = py "phone")
                    then _clean_phone_number (strip text)
                    else if bool_decide (field = py "email")
                         then _clean_email (strip text)
                         else PStr (strip text)))) as Hbounded.
  { intros value field. rewrite bounded_clean_field_value, Hfield.
    destruct (Bounded.str value) as [text|e] eqn:Hstr; [|done].
    by apply bounded_str_returns in Hstr as ->. }
  assert (forall s, Bounded.str (PStr s) = Return s) as Hstr.
  { intros s. unfold Bounded.str. by rewrite repr_stop_PStr. }
  split_and!; [apply clean_phone_number_filter|reflexivity| | | | | | |].
  - intros value. by rewrite Hbounded.
  - intros value. by rewrite Hbounded.
  - intros s. rewrite Hbounded, Hstr. cbn. rewrite clean_phone_number_filter.
    unfold dropped. cbn [is_None str orb].
    destruct (bool_decide (strip s = [])) eqn:Hs; [|done].
    apply bool_decide_eq_true in Hs. rewrite Hs. cbn [orb].
    by destruct (bool_decide _).
  - intros s. by rewrite Hbounded, Hstr.
  - intros s field. by rewrite bounded_clean_field_value, Hstr.
  - rewrite bounded_clean_field_value, Hstr. reflexivity.
  - rewrite bounded_clean_field_value, Hstr. reflexivity.
Qed.

(** C10 does not hold as stated: an integer of 4301 digits under
    [name] is a value [str()] raises [ValueError] on, and the cleaning
    is left with it. *)
Lemma long_integer_is_not_cleaned :
  @Bounded.clean_business_card_data ascii_runtime (<[py "name" := PInt (10 ^ 4300)]> ∅)
  = Raise IntTooLong
  /\ ~ (forall (rt : PyRuntime) (raw_data : gmap pystr pyval),
          exists cleaned_data,
            Bounded.clean_business_card_data raw_data = Return cleaned_data).
Proof.
  assert (@Bounded.clean_business_card_data ascii_runtime
            (<[py "name" := PInt (10 ^ 4300)]> ∅) = Raise IntTooLong) as Hex
    by (vm_compute; reflexivity).
  split; [exact Hex|]. intros Hclaim.
  destruct (Hclaim ascii_runtime (<[py "name" := PInt (10 ^ 4300)]> ∅))
    as [cleaned Hret].
  rewrite Hex in Hret. discriminate.
Qed.

(** C10, amended. [clean_business_card_data] returns for every candidate
    map on whose values [str()] returns, and whenever it returns, the
    record has exactly the eight canonical keys, each bound to the
    absence marker or to a text that is not empty and neither starts
    nor ends with white space.  It raises only what [str()] raises on
    the value selected for a field, [ValueError] for an integer of too
    many digits or [RecursionError] for lists and dictionaries too deep
    inside one another. *)
Theorem cleaned_record_shape `{PyRuntime} (raw_data : gmap pystr pyval) :
  (map_Forall (fun _ v => Bounded.repr_stop repr_depth v = None) raw_data ->
   exists cleaned_data,
     Bounded.clean_business_card_data raw_data = Return cleaned_data)
  /\ (forall cleaned_data,
        Bounded.clean_business_card_data raw_data = Return cleaned_data ->
        dom cleaned_data = list_to_set canonical_fields
        /\ (forall field, field ∈ canonical_fields ->
              exists v, cleaned_data !! field = Some v /\ clean_result v)
        /\ (forall field v, cleaned_data !! field = Some v -> clean_result v))
  /\ (forall e,
        Bounded.clean_business_card_data raw_data = Raise e ->
        (e = RecursionError \/ e = IntTooLong)
        /\ exists field keys,
            (field, keys) ∈ field_mapping
            /\ truthy (select_alias raw_data keys) = true
            /\ Bounded.str (select_alias raw_data keys) = Raise e).
Proof.
  rewrite bounded_clean_business_card_data.
  destruct (cleaned_data_lookup raw_data) as (cleaned & Hret & Hdom & Hlook & Hinv).
  split_and!.
  - intros Hall. exists cleaned.
    assert (fields_stop raw_data field_mapping = None) as ->; [|done].
    apply fields_stop_none, Forall_forall. intros [f keys] _.
    by apply field_stop_values.
  - intros cleaned_data. destruct (fields_stop raw_data field_mapping); [done|].
    rewrite Hret. intros [= <-].
    assert (forall field v, cleaned !! field = Some v -> clean_result v) as Hres.
    { intros field v (keys & _ & ->)%Hinv. apply cleaned_value_result. }
    split_and!; [done| |done].
    intros field Hfield.
    assert (field ∈ dom cleaned) as [v Hv]%elem_of_dom.
    { rewrite Hdom. by apply elem_of_list_to_set. }
    exists v. split; [done|]. by eapply Hres.
  - intros e. destruct (fields_stop raw_data field_mapping) as [l|] eqn:Hstop.
    2: { by rewrite Hret. }
    intros [= <-]. split; [destruct l; auto|].
    apply fields_stop_some in Hstop as (field & keys & Hin & Hfield).
    exists field, keys. split; [done|]. unfold field_stop in Hfield.
    destruct (truthy (select_alias raw_data keys)); [|done].
    split; [done|]. unfold Bounded.str. by rewrite Hfield.
Qed.

Lemma cleaned_record_shape_witness :
  exists cleaned_data,
    @Bounded.clean_business_card_data ascii_runtime
      (<[py "name" := PStr (py "  Kim  ")]> (<[py "fax" := PList [PInt 2]]> ∅))
    = Return cleaned_data
    /\ dom cleaned_data = list_to_set canonical_fields.
Proof.
  destruct (cleaned_record_shape (H:=ascii_runtime)
    (<[py "name" := PStr (py "  Kim  ")]> (<[py "fax" := PList [PInt 2]]> ∅)))
    as (Hreturns & Hshape & _).
  destruct Hreturns as [cleaned Hret].
  { apply map_Forall_insert_2; [reflexivity|].
    apply map_Forall_insert_2; [reflexivity|]. apply map_Forall_empty. }
  exists cleaned. split; [exact Hret|]. exact (proj1 (Hshape _ Hret)).
Defined.
End Cleaner.

(** * The assembler *)
Section Assembler.
Import Str Builtins OutputCleaner.

Lemma final_items_NoDup : NoDup final_keys.
Proof. apply (bool_decide_unpack (NoDup final_keys)). by vm_compute. Qed.

(** C9. The final result has exactly the eleven fixed keys, whatever the
    cleaned record holds: the card identifier (1 by default), the two
    image references (the absence marker when not supplied) and, for
    each canonical field, the value of the cleaned record or the absence
    marker when the record has no such key. *)
Theorem final_result_has_eleven_keys (cleaned_data : gmap pystr pyval)
    (card_id : option Z) (image_path profile_image_url : option pyval) :
  let result := create_final_result cleaned_data card_id image_path profile_image_url in
  dom result = list_to_set final_keys
  /\ size result = 11
  /\ result !! py "cardId" = Some (PInt (default 1%Z card_id))
  /\ result !! py "card_img_url" = Some (default PNone image_path)
  /\ result !! py "profile_image_url" = Some (default PNone profile_image_url)
  /\ Forall (fun field => result !! field = Some (default PNone (cleaned_data !! field)))
       canonical_fields
  /\ create_final_result cleaned_data card_id image_path None !! py "profile_image_url"
     = Some PNone
  /\ Forall (fun field =>
               create_final_result ∅ card_id image_path profile_image_url !! field
               = Some PNone)
       canonical_fields.
Proof.
  intros result. subst result. unfold create_final_result.
  split_and!.
  - by rewrite dict_of_dom.
  - rewrite dict_of_list_to_map, map_size_list_to_map; [done|].
    rewrite fmap_reverse, reverse_Permutation. apply final_items_NoDup.
  - reflexivity.
  - reflexivity.
  - reflexivity.
  - repeat constructor.
  - reflexivity.
  - repeat constructor.
Qed.
End Assembler.

(** ** Runs of programs *)
Section Runs.

Lemma runs_bind {A B : Type} (m : io A) (f : A -> io B) (t : list event)
    (r : raised + B) :
  runs (m ≫= f) t r <->
  (exists e, runs m t (inl e) /\ r = inl e)
  \/ (exists a t1 t2, t = t1 ++ t2 /\ runs m t1 (inr a) /\ runs (f a) t2 r).
Proof.
  revert t. induction m as [a|e|X q k IH]; intros t;
    unfold mbind, io_mbind; simpl.
  - split.
    + intros H. right. by exists a, [], t.
    + intros [(e & [_ [=]] & _)|(a' & t1 & t2 & -> & [-> [= <-]] & Hf)]. done.
  - split.
    + intros [-> ->]. left. by exists e.
    + intros [(e' & [-> [= ->]] & ->)|(a' & t1 & t2 & _ & [_ [=]] & _)]. done.
  - split.
    + intros (x & t' & -> & H). apply IH in H
        as [(e & He & ->)|(a & t1 & t2 & -> & Ha & Hf)].
      * left. exists e. split; [|done]. by exists x, t'.
      * right. exists a, (event_of q x :: t1), t2. split_and!; [done| |done].
        by exists x, t1.
    + intros [(e & (x & t' & -> & He) & ->)|(a & t1 & t2 & -> & (x & t' & -> & Ha) & Hf)].
      * exists x, t'. split; [done|]. apply IH. left. by exists e.
      * exists x, (t' ++ t2). split; [done|]. apply IH. right. by exists a, t', t2.
Qed.

Lemma runs_catch {A : Type} (m : io A) (h : raised -> option (io A))
    (t : list event) (r : raised + A) :
  runs (catch m h) t r <->
  (exists a, runs m t (inr a) /\ r = inr a)
  \/ (exists e t1 t2, t = t1 ++ t2 /\ runs m t1 (inl e)
        /\ match h e with
           | Some p => runs p t2 r
           | None => t2 = [] /\ r = inl e
           end).
Proof.
  revert t. induction m as [a|e|X q k IH]; intros t; simpl.
  - split.
    + intros [-> ->]. left. by exists a.
    + intros [(a' & [-> [= <-]] & ->)|(e & t1 & t2 & _ & [_ [=]] & _)]. done.
  - split.
    + intros Hh. right. exists e, [], t. split; [done|]. split; [done|].
      by destruct (h e).
    + intros [(a' & [_ [=]] & _)|(e' & t1 & t2 & -> & [-> [= ->]] & Hh)].
      simpl. destruct (h e); [done|]. by destruct Hh as [-> ->].
  - split.
    + intros (x & t' & -> & H). apply IH in H
        as [(a & Ha & ->)|(e & t1 & t2 & -> & He & Hh)].
      * left. exists a. split; [|done]. by exists x, t'.
      * right. exists e, (event_of q x :: t1), t2. split_and!; [done| |done].
        by exists x, t1.
    + intros [(a & (x & t' & -> & Ha) & ->)|(e & t1 & t2 & -> & (x & t' & -> & He) & Hh)].
      * exists x, t'. split; [done|]. apply IH. left. by exists a.
      * exists x, (t' ++ t2). split; [done|]. apply IH. right. by exists e, t', t2.
Qed.

Lemma runs_ask {A X : Type} (q : request X) (f : X -> io A) (t : list event)
    (r : raised + A) :
  runs (ask q ≫= f) t r <-> exists x t', t = event_of q x :: t' /\ runs (f x) t' r.
Proof. done. Qed.

Lemma runs_call {A X : Type} (q : request (answer X)) (f : X -> io A)
    (t : list event) (r : raised + A) :
  runs (call q ≫= f) t r <->
  exists a t', t = event_of q a :: t'
    /\ match a with
       | Returned x => runs (f x) t' r
       | Threw request_exception msg =>
         t' = [] /\ r = inl (Foreign request_exception msg)
       end.
Proof.
  unfold mbind, io_mbind, call; simpl.
  split; intros (a & t' & -> & H); exists a, t'; (split; [done|]); by destruct a.
Qed.

Lemma runs_Done {A : Type} (a : A) (t : list event) (r : raised + A) :
  runs (Done a) t r <-> t = [] /\ r = inr a.
Proof. done. Qed.

Lemma runs_Throw {A : Type} (e : raised) (t : list event) (r : raised + A) :
  runs (Throw e) t r <-> t = [] /\ r = inl e.
Proof. done. Qed.

Lemma bind_Done {A B : Type} (a : A) (f : A -> io B) : (Done a ≫= f) = f a.
Proof. done. Qed.

Lemma bind_Throw {A B : Type} (e : raised) (f : A -> io B) :
  (Throw e ≫= f) = Throw e.
Proof. done. Qed.

(** A program that asks nothing. *)
Lemma runs_lift {A : Type} (o : outcome A) (t : list event) (r : raised + A) :
  runs (lift o) t r <->
  t = [] /\ r = match o with Return a => inr a | Raise e => inl (FromCleaner e) end.
Proof. by destruct o. Qed.

(** What [play] gives is a run. *)
Lemma play_runs {A : Type} (w : world) (p : io A) :
  runs p (play w p).1 (play w p).2.
Proof.
  induction p as [a|e|X q k IH]; simpl; [done..|].
  exists (w X q), (play w (k (w X q))).1. split; [done|apply IH].
Qed.

Lemma play_run {A : Type} (w : world) (p : io A) (t : list event)
    (r : raised + A) :
  play w p = (t, r) -> runs p t r.
Proof. intros Hplay. pose proof (play_runs w p) as Hrun. by rewrite Hplay in Hrun. Qed.

End Runs.

(** Closing an equation between closed terms by evaluation. *)
Ltac by_vm :=
  first [ lazymatch goal with
          | |- ?lhs = ?rhs => exact (@eq_refl _ rhs <: lhs = rhs)
          end
        | vm_compute; reflexivity ].

(** A run given by [play] in the world [w]. *)
Ltac by_play w := apply (play_run w); by_vm.

(** ** [VisionOCR] *)
Section VisionFacts.
Import Builtins OutputCleaner VisionOCR.
Context `{PyRuntime} `{PyErrors}.

(** The three ways [extract_text_from_image] goes. *)
Lemma extract_text_runs (image_path : pystr) (t : list event)
    (r : raised + gmap pystr pyval) :
  runs (extract_text_from_image image_path) t r ->
  (exists b msg,
      t = [BinaryRead image_path (Threw b msg)] /\ r = inr (ocr_failure msg))
  \/ (exists content b msg,
        t = [BinaryRead image_path (Returned content);
             Detected content (Threw b msg)]
        /\ r = inr (ocr_failure msg))
  \/ (exists content response,
        t = [BinaryRead image_path (Returned content);
             Detected content (Returned response)]
        /\ r = inr
             (if negb (bool_decide (error_message response = []))
              then ocr_failure (py "Vision API 오류: " ++ error_message response)
              else match text_annotations response with
                   | description :: _ => ocr_success description (message_dict response)
                   | [] => ocr_failure (py "OCR 결과 없음")
                   end)).
Proof.
  unfold extract_text_from_image. simpl.
  intros (a & t1 & -> & Hrun). destruct a as [content|b msg]; simpl in Hrun.
  2: { destruct Hrun as [-> ->]. left. by exists b, msg. }
  destruct Hrun as (a & t2 & -> & Hrun). right.
  destruct a as [response|b msg]; simpl in Hrun.
  2: { destruct Hrun as [-> ->]. left. by exists content, b, msg. }
  right. exists content, response.
  destruct (negb (bool_decide (error_message response = []))); simpl in Hrun.
  { by destruct Hrun as [-> ->]. }
  destruct (text_annotations response); by destruct Hrun as [-> ->].
Qed.

Lemma ocr_success_lookup (text : pystr) (full : pyval) :
  dom (ocr_success text full)
  = list_to_set [py "success"; py "extracted_text"; py "full_response"; py "error"]
  /\ ocr_success text full !! py "success" = Some (PBool true)
  /\ ocr_success text full !! py "extracted_text" = Some (PStr text)
  /\ ocr_success text full !! py "full_response" = Some full
  /\ ocr_success text full !! py "error" = Some PNone.
Proof. split; [unfold ocr_success, ocr_failure; by rewrite dict_of_dom|done]. Qed.

Lemma ocr_failure_lookup (msg : pystr) :
  dom (ocr_failure msg)
  = list_to_set [py "success"; py "extracted_text"; py "full_response"; py "error"]
  /\ ocr_failure msg !! py "success" = Some (PBool false)
  /\ ocr_failure msg !! py "extracted_text" = Some PNone
  /\ ocr_failure msg !! py "full_response" = Some PNone
  /\ ocr_failure msg !! py "error" = Some (PStr msg).
Proof. split; [unfold ocr_success, ocr_failure; by rewrite dict_of_dom|done]. Qed.

(** The result is one of the two dictionaries, and only the image file
    and the service are asked. *)
Lemma extract_text_shapes (image_path : pystr) (t : list event)
    (r : raised + gmap pystr pyval) :
  runs (extract_text_from_image image_path) t r ->
  ((exists text full, r = inr (ocr_success text full))
   \/ (exists msg, r = inr (ocr_failure msg)))
  /\ Forall (fun e => written_file e = None /\ is_print e = false /\ is_post e = false) t.
Proof.
  intros [(b & msg & -> & ->)|[(content & b & msg & -> & ->)|(content & response & -> & ->)]]%extract_text_runs.
  - split; [right; by exists msg|]. by repeat constructor.
  - split; [right; by exists msg|]. by repeat constructor.
  - split; [|by repeat constructor].
    destruct (negb _); [right; by eexists|].
    destruct (text_annotations response); [right; by eexists|left; by eexists _, _].
Qed.

End VisionFacts.

(** Every event of an explicit trace has a property that [auto] finds. *)
Ltac trace_ok :=
  repeat first [apply Forall_nil_2 | apply Forall_cons_2; [simpl; auto|]].

(** ** Saving *)
Section SaveFacts.
Import Builtins OutputCleaner VisionOCR CleanerCalls.
Context `{PyRuntime} `{PyErrors}.

(** [save_result] returns whether the file was written. *)
Lemma save_result_runs (data : gmap pystr pyval) (filename : option pystr)
    (t : list event) (r : raised + bool) :
  runs (save_result data filename) t r ->
  let file := default (py "card_classified_data.json") filename in
  (t = [Opened file (Returned ()); Dumped file (PDict data) (Returned ());
        Printed (py "✅ 명함 분류 결과 저장 완료: " ++ file)]
   /\ r = inr true)
  \/ (exists b msg,
        (t = [Opened file (Threw b msg);
              Printed (py "❌ 파일 저장 오류: " ++ msg)]
         \/ t = [Opened file (Returned ()); Dumped file (PDict data) (Threw b msg);
                 Printed (py "❌ 파일 저장 오류: " ++ msg)])
        /\ r = inr false).
Proof.
  unfold save_result. simpl.
  intros (a & t1 & -> & Hrun). destruct a as [[]|b msg]; simpl in Hrun.
  2: { destruct Hrun as ([] & t2 & -> & -> & ->). right. exists b, msg. split; [by left|done]. }
  destruct Hrun as (a & t2 & -> & Hrun). destruct a as [[]|b msg]; simpl in Hrun.
  2: { destruct Hrun as ([] & t3 & -> & -> & ->). right. exists b, msg. split; [by right|done]. }
  destruct Hrun as ([] & t3 & -> & -> & ->). by left.
Qed.

(** A failed OCR result is not saved: the test comes before the [try],
    so a result without the key raises [KeyError]. *)
Lemma save_ocr_results_guard (ocr_result : gmap pystr pyval)
    (text_filename json_filename : option pystr) (t : list event)
    (r : raised + bool) :
  runs (save_ocr_results ocr_result text_filename json_filename) t r ->
  match ocr_result !! py "success" with
  | None => t = [] /\ r = inl (Fault (NoKey (PStr (py "success"))))
  | Some success =>
    truthy success = false ->
    match ocr_result !! py "error" with
    | None => t = [] /\ r = inl (Fault (NoKey (PStr (py "error"))))
    | Some error =>
      t = [Printed (py "❌ OCR 결과 저장 실패: " ++ str error)] /\ r = inr false
    end
  end.
Proof.
  unfold save_ocr_results, Dyn.item, Dyn.getitem. unfold pystr in *.
  destruct (ocr_result !! py "success") as [success|]; simpl; [|done].
  intros Hrun Hfalse. rewrite Hfalse in Hrun. simpl in Hrun.
  destruct (ocr_result !! py "error") as [error|]; simpl in Hrun; [|done].
  by destruct Hrun as ([] & t1 & -> & -> & ->).
Qed.

(** On a result that succeeded [save_ocr_results] returns, it touches
    its two files only, and it returns [True] only after writing the
    text and the full response. *)
Lemma save_ocr_results_runs (ocr_result : gmap pystr pyval)
    (text_filename json_filename : option pystr) (success : pyval)
    (t : list event) (r : raised + bool) :
  ocr_result !! py "success" = Some success -> truthy success = true ->
  runs (save_ocr_results ocr_result text_filename json_filename) t r ->
  let text_file := default (py "ocr_result.txt") text_filename in
  let json_file := default (py "ocr_result.json") json_filename in
  exists saved : bool,
    r = inr saved
    /\ Forall (fun e => written_file e = None
                        \/ written_file e = Some text_file
                        \/ written_file e = Some json_file) t
    /\ (saved = true ->
        exists text full_response,
          ocr_result !! py "extracted_text" = Some (PStr text)
          /\ ocr_result !! py "full_response" = Some full_response
          /\ t = [Opened text_file (Returned ());
                  Wrote text_file text (Returned ());
                  Printed (py "✅ OCR 텍스트 저장 완료: " ++ text_file);
                  Opened json_file (Returned ());
                  Dumped json_file full_response (Returned ());
                  Printed (py "✅ OCR 결과 JSON 저장 완료: " ++ json_file)]).
Proof.
  intros Hsuccess Htrue. unfold save_ocr_results, Dyn.item, Dyn.getitem.
  unfold pystr in *. rewrite Hsuccess. simpl. rewrite Htrue. simpl.
  set (text_file := default _ text_filename). set (json_file := default _ json_filename).
  intros (a & t1 & -> & Hrun). destruct a as [[]|b msg]; simpl in Hrun.
  2: { destruct Hrun as ([] & t2 & -> & -> & ->). exists false.
       split; [done|]. split; [trace_ok|done]. }
  destruct (ocr_result !! py "extracted_text") as [text|]; simpl in Hrun.
  2: { destruct Hrun as ([] & t2 & -> & -> & ->). exists false.
       split; [done|]. split; [trace_ok|done]. }
  assert ((exists s, text = PStr s)
          \/ match text with
             | PStr s => call (Write text_file s)
             | _ => Throw (Fault (NotText text))
             end = Throw (Fault (NotText text))) as [[s ->]|Hbad].
  { destruct text; eauto. }
  2: { rewrite Hbad in Hrun. simpl in Hrun.
       destruct Hrun as ([] & t2 & -> & -> & ->). exists false.
       split; [done|]. split; [trace_ok|done]. }
  simpl in Hrun.
  destruct Hrun as (a & t2 & -> & Hrun). destruct a as [[]|b msg]; simpl in Hrun.
  2: { destruct Hrun as ([] & t3 & -> & -> & ->). exists false.
       split; [done|]. split; [trace_ok|done]. }
  destruct Hrun as ([] & t3 & -> & a & t4 & -> & Hrun).
  destruct a as [[]|b msg]; simpl in Hrun.
  2: { destruct Hrun as ([] & t5 & -> & -> & ->). exists false.
       split; [done|]. split; [trace_ok|done]. }
  destruct (ocr_result !! py "full_response") as [full|]; simpl in Hrun.
  2: { destruct Hrun as ([] & t5 & -> & -> & ->). exists false.
       split; [done|]. split; [trace_ok|done]. }
  destruct Hrun as (a & t5 & -> & Hrun). destruct a as [[]|b msg]; simpl in Hrun.
  2: { destruct Hrun as ([] & t6 & -> & -> & ->). exists false.
       split; [done|]. split; [trace_ok|done]. }
  destruct Hrun as ([] & t6 & -> & -> & ->). exists true.
  split; [done|]. split; [trace_ok|].
  intros _. by exists s, full.
Qed.

End SaveFacts.

(** ** [GroqLLaMAParser] *)
Section GroqFacts.
Import Builtins OutputCleaner GroqLLaMAParser.
Context `{PyRuntime} `{PyErrors}.

Lemma init_runs (key : pyval) (t : list event) (r : raised + parser) :
  runs (__init__ key) t r ->
  (truthy key = true
   /\ t = [] /\ r = inr {| api_key := key;
                          endpoint := py "https://api.groq.com/openai/v1/chat/completions" |})
  \/ (truthy key = false
      /\ exists v,
          t = [EnvRead (py "GROQ_API_KEY") v]
          /\ r = match v with
                 | Some (c :: s) =>
                   inr {| api_key := PStr (c :: s);
                          endpoint := py "https://api.groq.com/openai/v1/chat/completions" |}
                 | _ => inl (ValueError (py "GROQ_API_KEY가 설정되지 않았습니다. 환경변수나 매개변수로 제공해주세요."))
                 end).
Proof.
  unfold __init__. destruct (truthy key) eqn:Hkey.
  - unfold mbind, io_mbind. cbn [io_bind]. rewrite Hkey. cbn [negb].
    intros [-> ->]. by left.
  - simpl. intros (v & t1 & -> & Hrun). right. split; [done|]. exists v.
    destruct v as [[|c s]|]; simpl in Hrun; by destruct Hrun as [-> ->].
Qed.

(** Reading the reply asks nothing: it gives one of the two
    dictionaries or raises a fault. *)
Lemma read_choices_shapes (result : pyval) :
  (exists ai_response, read_choices result = Done (reply_success ai_response))
  \/ read_choices result
     = Done (reply_failure result (py "API 응답에 예상된 형식이 없습니다."))
  \/ (exists f, read_choices result = Throw (Fault f)).
Proof.
  unfold read_choices, Dyn.contains, Dyn.getitem, Dyn.len, Dyn.getindex, dict_contains.
  unfold mbind, io_mbind.
  destruct result; cbn [io_bind]; repeat (case_match; cbn [io_bind]);
    lazymatch goal with
    | |- _ \/ _ \/ (exists f, Throw (Fault ?x) = _) =>
      right; right; exists x; reflexivity
    | |- (exists v, Done (dict_of [(_, PBool true); (_, ?x); _]) = _) \/ _ =>
      left; exists x; reflexivity
    | |- _ => right; left; reflexivity
    end.
Qed.

(** The one request of [send] and what becomes of its answer. *)
Lemma send_runs (self : parser) (payload : pyval) (t : list event)
    (r : raised + gmap pystr pyval) :
  runs (send self payload) t r ->
  exists a,
    t = [Posted (endpoint self) (headers self) payload a]
    /\ match a with
       | Threw true msg =>
         r = inr (reply_failure PNone (py "API 요청 오류: " ++ msg))
       | Threw false msg => r = inl (Foreign false msg)
       | Returned response =>
         match http_error response with
         | Some msg =>
           r = inr (reply_failure PNone (py "API 요청 오류: " ++ msg))
         | None =>
           match json_body response with
           | Threw true msg =>
             r = inr (reply_failure PNone (py "API 요청 오류: " ++ msg))
           | Threw false msg => r = inl (Foreign false msg)
           | Returned result => runs (read_choices result) [] r
           end
         end
       end.
Proof.
  unfold send. simpl. intros (a & t1 & -> & Hrun). exists a.
  destruct a as [response|[] msg]; simpl in Hrun;
    [|by destruct Hrun as [-> ->]..].
  destruct (http_error response) as [msg|]; simpl in Hrun;
    [by destruct Hrun as [-> ->]|].
  destruct (json_body response) as [result|[] msg]; simpl in Hrun;
    [|by destruct Hrun as [-> ->]..].
  destruct (read_choices_shapes result) as [[v Hv]|[Hv|[f Hv]]];
    rewrite Hv in Hrun |- *; simpl in Hrun; by destruct Hrun as [-> ->].
Qed.

(** What a method of the parser returns or raises. *)
Lemma send_shapes (self : parser) (payload : pyval) (t : list event)
    (r : raised + gmap pystr pyval) :
  runs (send self payload) t r ->
  (exists a, t = [Posted (endpoint self) (headers self) payload a])
  /\ match r with
     | inr d => (exists ai_response, d = reply_success ai_response)
                \/ (exists raw_response msg, d = reply_failure raw_response msg)
     | inl e => (exists f, e = Fault f) \/ (exists msg, e = Foreign false msg)
     end.
Proof.
  intros (a & -> & Hr)%send_runs. split; [by exists a|].
  destruct a as [response|[] msg];
    [|subst r; right; by eexists _, _|subst r; right; by eexists].
  destruct (http_error response) as [msg|]; [subst r; right; by eexists _, _|].
  destruct (json_body response) as [result|[] msg];
    [|subst r; right; by eexists _, _|subst r; right; by eexists].
  destruct (read_choices_shapes result) as [[v Hv]|[Hv|[f Hv]]];
    rewrite Hv in Hr; destruct Hr as [_ ->].
  - left. by exists v.
  - right. by eexists _, _.
  - left. by exists f.
Qed.

(** The reply read forwards: a first choice with a message that has a
    content is the answer. *)
Lemma read_choices_first (m choice message : gmap pystr pyval)
    (rest : list pyval) (content : pyval) :
  m !! (py "choices" : pystr) = Some (PList (PDict choice :: rest)) ->
  choice !! (py "message" : pystr) = Some (PDict message) ->
  message !! (py "content" : pystr) = Some content ->
  read_choices (PDict m) = Done (reply_success content).
Proof.
  intros Hm Hchoice Hmessage.
  unfold read_choices, Dyn.contains, Dyn.getitem, Dyn.len, Dyn.getindex, dict_contains.
  rewrite Hm. rewrite bool_decide_true by done.
  unfold mbind, io_mbind. cbn [io_bind length bool_decide].
  rewrite bool_decide_true by (simpl; lia). cbn [io_bind lookup list_lookup].
  rewrite Hchoice. cbn [io_bind]. by rewrite Hmessage.
Qed.

(** No choices: the key is missing, or bound to something empty. *)
Lemma read_choices_none (m : gmap pystr pyval) :
  m !! (py "choices" : pystr) = None
  \/ (exists choices,
         m !! (py "choices" : pystr) = Some choices /\ Dyn.len choices = Done 0) ->
  read_choices (PDict m)
  = Done (reply_failure (PDict m) (py "API 응답에 예상된 형식이 없습니다.")).
Proof.
  unfold read_choices, Dyn.contains, Dyn.getitem, dict_contains.
  intros [Hm|(choices & Hm & Hlen)]; rewrite Hm.
  - rewrite bool_decide_false by (by intros [? [=]]). done.
  - rewrite bool_decide_true by done.
    unfold mbind, io_mbind. cbn [io_bind]. rewrite Hlen. cbn [io_bind].
    rewrite bool_decide_false by lia. done.
Qed.

(** A first choice without a message, or a message without a content,
    is a [KeyError]. *)
Lemma read_choices_malformed (m choice : gmap pystr pyval) (rest : list pyval) :
  m !! (py "choices" : pystr) = Some (PList (PDict choice :: rest)) ->
  match choice !! (py "message" : pystr) with
  | None => read_choices (PDict m) = Throw (Fault (NoKey (PStr (py "message"))))
  | Some (PDict message) =>
    message !! (py "content" : pystr) = None ->
    read_choices (PDict m) = Throw (Fault (NoKey (PStr (py "content"))))
  | Some message =>
    read_choices (PDict m)
    = Throw (Fault (NotSubscriptable message (PStr (py "content"))))
  end.
Proof.
  intros Hm.
  unfold read_choices, Dyn.contains, Dyn.getitem, Dyn.len, Dyn.getindex, dict_contains.
  rewrite Hm. rewrite bool_decide_true by done.
  unfold mbind, io_mbind. cbn [io_bind length bool_decide].
  rewrite bool_decide_true by (simpl; lia). cbn [io_bind lookup list_lookup].
  destruct (choice !! (py "message" : pystr)) as [message|] eqn:Hchoice;
    cbn [io_bind]; [|done].
  destruct message as [| | | | | |message]; try done.
  by intros ->.
Qed.

End GroqFacts.

(** ** The cleaner as the pipeline calls it *)
Section CleanerCallFacts.
Import Builtins OutputCleaner CleanerCalls.
Context `{PyRuntime}.

(** The two results of [extract_json_from_response]. *)
Lemma Return_inj {A : Type} (a b : A) : Return a = Return b -> a = b.
Proof. by intros [=]. Qed.

Lemma extract_cases (response : pystr) :
  (exists parsed_data,
      extract_json_from_response response = Return (extraction_success parsed_data))
  \/ (exists msg doc,
        extract_json_from_response response
        = Return (extraction_failure msg doc response))
  \/ (exists e, extract_json_from_response response = Raise e).
Proof.
  destruct (extract_outcomes response)
    as (json_str & _ & [(v & _ & ->)|[(msg & _ & ->)|[[_ ->]|[_ ->]]]]); eauto.
Qed.

(** On a reply that is not a text the extractor raises. *)
Lemma extract_any_runs (response : pyval) (t : list event)
    (r : raised + gmap pystr pyval) :
  runs (extract_json_from_response_any response) t r ->
  t = []
  /\ match response with
     | PStr s =>
       (exists parsed_data, r = inr (extraction_success parsed_data))
       \/ (exists msg doc, r = inr (extraction_failure msg doc s))
       \/ (exists e, r = inl (FromCleaner e))
     | _ => exists f, r = inl (Fault f)
     end.
Proof.
  unfold extract_json_from_response_any, Dyn.contains, mbind, io_mbind.
  destruct response; simpl;
    try (intros [-> ->]; split; [done|by eexists]).
  - intros [-> ->]%runs_lift. split; [done|].
    destruct (extract_cases s) as [[v ->]|[(msg & doc & ->)|[e ->]]];
      [left; by exists v|right; left; by exists msg, doc|right; right; by exists e].
  - repeat case_match; simpl; intros [-> ->]; split; (done || by eexists).
  - repeat case_match; simpl; intros [-> ->]; split; (done || by eexists).
Qed.

Lemma first_value_any_dict (m : gmap pystr pyval) (keys : list pystr) :
  first_value_any (PDict m) keys = lift (first_value m keys).
Proof.
  induction keys as [|key rest IH]; [done|].
  cbn [first_value_any first_value].
  unfold Dyn.contains, Dyn.getitem, dict_contains, dict_getitem.
  destruct (m !! key) as [v|] eqn:Hkey.
  - rewrite bool_decide_true by done. simpl. by destruct (is_None v).
  - rewrite bool_decide_false by (by intros [? ?]). simpl. exact IH.
Qed.

Lemma clean_fields_any_dict (m : gmap pystr pyval)
    (fields : list (pystr * list pystr)) (cleaned_data : gmap pystr pyval) :
  clean_fields_any (PDict m) fields cleaned_data
  = lift (clean_fields m fields cleaned_data).
Proof.
  revert cleaned_data. induction fields as [|[field keys] rest IH]; intros cleaned_data;
    [done|].
  cbn [clean_fields_any clean_fields].
  rewrite first_value_any_dict, first_value_select. simpl. apply IH.
Qed.

(** On a dictionary the loops are those of [clean_business_card_data]. *)
Lemma clean_any_dict (m : gmap pystr pyval) :
  clean_business_card_data_any (PDict m) = lift (clean_business_card_data m).
Proof. apply clean_fields_any_dict. Qed.

(** On a list or a text: the first key that is in it is used as an
    index, which is a type error. *)
Lemma first_value_any_sequence (v : pyval) (keys : list pystr) :
  (exists l, v = PList l) \/ (exists s, v = PStr s) ->
  first_value_any v keys
  = match List.find (mentions v) keys with
    | Some key => Throw (Fault (NotSubscriptable v (PStr key)))
    | None => Done PNone
    end.
Proof.
  intros Hv. induction keys as [|key rest IH]; [done|].
  cbn [first_value_any List.find].
  assert (Dyn.contains v key = Done (mentions v key)) as ->.
  { by destruct Hv as [[l ->]|[s ->]]. }
  assert (Dyn.getitem v key = Throw (Fault (NotSubscriptable v (PStr key)))) as ->.
  { by destruct Hv as [[l ->]|[s ->]]. }
  simpl. by destruct (mentions v key).
Qed.

Lemma clean_fields_any_absent (v : pyval) (fields : list (pystr * list pystr))
    (cleaned_data : gmap pystr pyval) :
  Forall (fun fk => first_value_any v fk.2 = Done PNone) fields ->
  clean_fields_any v fields cleaned_data
  = Done (foldl (fun d fk => <[fk.1 := PNone]> d) cleaned_data fields).
Proof.
  revert cleaned_data. induction fields as [|[field keys] rest IH]; intros cleaned_data Hall;
    [done|].
  apply Forall_cons in Hall as [Hkeys Hrest]. simpl in Hkeys.
  cbn [clean_fields_any]. rewrite Hkeys. simpl. by apply IH.
Qed.

Lemma clean_fields_any_raises (v : pyval) (fields : list (pystr * list pystr))
    (cleaned_data : gmap pystr pyval) (e : raised) :
  Forall (fun fk => first_value_any v fk.2 = Done PNone
                    \/ first_value_any v fk.2 = Throw e) fields ->
  Exists (fun fk => first_value_any v fk.2 = Throw e) fields ->
  clean_fields_any v fields cleaned_data = Throw e.
Proof.
  revert cleaned_data. induction fields as [|[field keys] rest IH]; intros cleaned_data Hall Hex.
  { by apply Exists_nil in Hex. }
  apply Forall_cons in Hall as [[Hkeys|Hkeys] Hrest]; simpl in Hkeys;
    cbn [clean_fields_any]; rewrite Hkeys; simpl; [|done].
  apply IH; [done|]. apply Exists_cons in Hex as [Hex|Hex]; [|done].
  simpl in Hex. congruence.
Qed.

Lemma find_app_first {A} (p : A -> bool) (l1 l2 : list A) :
  List.find p (l1 ++ l2)
  = match List.find p l1 with
    | Some x => Some x
    | None => List.find p l2
    end.
Proof. induction l1 as [|a l1 IH]; simpl; [done|]. by destruct (p a). Qed.

(** On a list or a text the record is all absent, unless an alias is in
    it: then the first such alias, in the order of the table, is used as
    an index. *)
Lemma clean_fields_any_sequence (v : pyval) (fields : list (pystr * list pystr))
    (cleaned_data : gmap pystr pyval) :
  (exists l, v = PList l) \/ (exists s, v = PStr s) ->
  clean_fields_any v fields cleaned_data
  = match List.find (mentions v) (concat fields.*2) with
    | Some key => Throw (Fault (NotSubscriptable v (PStr key)))
    | None =>
      Done (foldl (fun d kv => <[kv.1 := kv.2]> d) cleaned_data
              (map (fun fk => (fk.1, PNone)) fields))
    end.
Proof.
  intros Hv. revert cleaned_data.
  induction fields as [|[field keys] rest IH]; intros cleaned_data; [done|].
  cbn [clean_fields_any]. rewrite first_value_any_sequence by done.
  cbn [fmap list_fmap snd concat]. rewrite find_app_first.
  destruct (List.find (mentions v) keys) as [key|]; [done|].
  rewrite bind_Done. cbn [truthy]. apply IH.
Qed.

Lemma absent_record_cleaned : cleaned_record absent_record.
Proof.
  split; [unfold absent_record; by rewrite dict_of_dom|].
  intros field v Hv. apply dict_of_lookup in Hv.
  - apply list_elem_of_fmap in Hv as (f & [= -> ->] & _). by left.
  - apply (bool_decide_unpack
             (NoDup (map (fun field : pystr => (field, PNone)) canonical_fields).*1)).
    by vm_compute.
Qed.

Lemma cleaned_data_record (m cleaned_data : gmap pystr pyval) :
  clean_business_card_data m = Return cleaned_data -> cleaned_record cleaned_data.
Proof.
  intros Hclean. destruct (cleaned_data_lookup m) as (d & Hd & Hdom & _ & Hval).
  rewrite Hclean in Hd. injection Hd as <-. split; [done|].
  intros field v (keys & _ & ->)%Hval. apply cleaned_value_result.
Qed.

(** Cleaning asks nothing: it gives a cleaned record or raises a fault. *)
Lemma clean_any_shapes (raw_data : pyval) :
  (exists cleaned_data,
      clean_business_card_data_any raw_data = Done cleaned_data
      /\ cleaned_record cleaned_data)
  \/ (exists f, clean_business_card_data_any raw_data = Throw (Fault f)).
Proof.
  destruct raw_data as [|b|z|text|s|l|m].
  1-4: right; by eexists.
  - unfold clean_business_card_data_any.
    rewrite clean_fields_any_sequence by (right; by eexists).
    destruct (List.find _ _) as [key|]; [right; by eexists|left].
    eexists. split; [done|]. apply absent_record_cleaned.
  - unfold clean_business_card_data_any.
    rewrite clean_fields_any_sequence by (left; by eexists).
    destruct (List.find _ _) as [key|]; [right; by eexists|left].
    eexists. split; [done|]. apply absent_record_cleaned.
  - rewrite clean_any_dict.
    destruct (cleaned_data_lookup m) as (d & Hd & _). rewrite Hd. left.
    exists d. split; [done|]. by eapply cleaned_data_record.
Qed.

End CleanerCallFacts.

(** ** What the pipeline exchanges with the outside *)
Section TraceFacts.
Import Builtins OutputCleaner CleanerCalls BusinessCardProcessor.
Context `{PyRuntime} `{PyErrors}.

Lemma trace_all_Done {A : Type} (P : event -> Prop) (a : A) : trace_all P (Done a).
Proof. intros t r [-> _]. apply Forall_nil_2. Qed.

Lemma trace_all_Throw {A : Type} (P : event -> Prop) (e : raised) :
  trace_all P (Throw e : io A).
Proof. intros t r [-> _]. apply Forall_nil_2. Qed.

Lemma trace_all_bind {A B : Type} (P : event -> Prop) (m : io A) (f : A -> io B) :
  trace_all P m -> (forall a, trace_all P (f a)) -> trace_all P (m ≫= f).
Proof.
  intros Hm Hf t r [(e & He & ->)|(a & t1 & t2 & -> & Ha & Hfa)]%runs_bind.
  - by eapply Hm.
  - apply Forall_app. split; [by eapply Hm|by eapply Hf].
Qed.

Lemma trace_all_ask {A X : Type} (P : event -> Prop) (q : request X)
    (f : X -> io A) :
  (forall x, P (event_of q x)) -> (forall x, trace_all P (f x)) ->
  trace_all P (ask q ≫= f).
Proof.
  intros Hq Hf t r (x & t' & -> & Hrun)%runs_ask.
  apply Forall_cons_2; [done|by eapply Hf].
Qed.

Lemma trace_all_call {A X : Type} (P : event -> Prop) (q : request (answer X))
    (f : X -> io A) :
  (forall a, P (event_of q a)) -> (forall x, trace_all P (f x)) ->
  trace_all P (call q ≫= f).
Proof.
  intros Hq Hf t r (a & t' & -> & Hrun)%runs_call.
  apply Forall_cons_2; [done|].
  destruct a as [x|b msg]; [by eapply Hf|].
  destruct Hrun as [-> _]. apply Forall_nil_2.
Qed.

Lemma trace_all_mono {A : Type} (P Q : event -> Prop) (p : io A) :
  (forall e, P e -> Q e) -> trace_all P p -> trace_all Q p.
Proof. intros HPQ Hp t r Hrun. eapply Forall_impl; [by eapply Hp|done]. Qed.

Lemma trace_all_item (P : event -> Prop) (d : gmap pystr pyval) (key : pystr) :
  trace_all P (Dyn.item d key).
Proof.
  unfold Dyn.item, Dyn.getitem.
  destruct (d !! key); [apply trace_all_Done|apply trace_all_Throw].
Qed.

Lemma trace_all_len (P : event -> Prop) (v : pyval) : trace_all P (Dyn.len v).
Proof. destruct v; first [apply trace_all_Done|apply trace_all_Throw]. Qed.

Lemma trace_all_extract_any (P : event -> Prop) (response : pyval) :
  trace_all P (extract_json_from_response_any response).
Proof. intros t r [-> _]%extract_any_runs. apply Forall_nil_2. Qed.

Lemma trace_all_clean_any (P : event -> Prop) (raw_data : pyval) :
  trace_all P (clean_business_card_data_any raw_data).
Proof.
  destruct (clean_any_shapes raw_data) as [(d & -> & _)|(f & ->)];
    [apply trace_all_Done|apply trace_all_Throw].
Qed.

Lemma trace_all_extract_text (image_path : pystr) :
  trace_all (fun e => written_file e = None /\ is_print e = false /\ is_post e = false)
    (VisionOCR.extract_text_from_image image_path).
Proof. intros t r Hrun. by apply extract_text_shapes in Hrun as [_ Ht]. Qed.

Lemma trace_all_send (P : event -> Prop) (self : GroqLLaMAParser.parser)
    (payload : pyval) :
  (forall a, P (Posted (GroqLLaMAParser.endpoint self)
                  (GroqLLaMAParser.headers self) payload a)) ->
  trace_all P (GroqLLaMAParser.send self payload).
Proof.
  intros HP t r [[a ->] _]%send_shapes. apply Forall_cons_2; [done|apply Forall_nil_2].
Qed.

Lemma trace_all_catch {A : Type} (P : event -> Prop) (m : io A)
    (h : raised -> option (io A)) :
  trace_all P m -> (forall e p, h e = Some p -> trace_all P p) ->
  trace_all P (catch m h).
Proof.
  intros Hm Hh t r [(a & Ha & ->)|(e & t1 & t2 & -> & He & Hrun)]%runs_catch.
  - by eapply Hm.
  - apply Forall_app. split; [by eapply Hm|].
    destruct (h e) as [p|] eqn:Hp; [by eapply Hh|].
    destruct Hrun as [-> _]. apply Forall_nil_2.
Qed.

(** The saving functions print, and touch the files they are given. *)
Lemma trace_all_save_ocr_results (P : event -> Prop)
    (ocr_result : gmap pystr pyval) (text_filename json_filename : option pystr) :
  (forall e, is_print e = true -> P e) ->
  (forall e, written_file e = Some (default (py "ocr_result.txt") text_filename)
             \/ written_file e = Some (default (py "ocr_result.json") json_filename) ->
             P e) ->
  trace_all P (VisionOCR.save_ocr_results ocr_result text_filename json_filename).
Proof.
  intros Hprint Hfile. unfold VisionOCR.save_ocr_results. cbv zeta.
  apply trace_all_bind; [apply trace_all_item|]. intros success.
  destruct (negb (truthy success)).
  { apply trace_all_bind; [apply trace_all_item|]. intros error.
    apply trace_all_ask; [intros; by apply Hprint|]. intros _. apply trace_all_Done. }
  apply trace_all_catch.
  - apply trace_all_call; [intros; apply Hfile; by left|]. intros _.
    apply trace_all_bind; [apply trace_all_item|]. intros text.
    apply trace_all_bind.
    { destruct text; try apply trace_all_Throw.
      intros t r (a & t' & -> & Hrun).
      apply Forall_cons_2; [apply Hfile; by left|].
      destruct a; destruct Hrun as [-> _]; apply Forall_nil_2. }
    intros _.
    apply trace_all_ask; [intros; by apply Hprint|]. intros _.
    apply trace_all_call; [intros; apply Hfile; by right|]. intros _.
    apply trace_all_bind; [apply trace_all_item|]. intros full_response.
    apply trace_all_call; [intros; apply Hfile; by right|]. intros _.
    apply trace_all_ask; [intros; by apply Hprint|]. intros _. apply trace_all_Done.
  - intros e p [= <-].
    apply trace_all_ask; [intros; by apply Hprint|]. intros _. apply trace_all_Done.
Qed.

Lemma trace_all_save_result (P : event -> Prop) (data : gmap pystr pyval)
    (filename : option pystr) :
  (forall e, is_print e = true -> P e) ->
  (forall e, written_file e
             = Some (default (py "card_classified_data.json") filename) -> P e) ->
  trace_all P (save_result data filename).
Proof.
  intros Hprint Hfile. unfold save_result. cbv zeta.
  apply trace_all_catch.
  - apply trace_all_call; [intros; by apply Hfile|]. intros _.
    apply trace_all_call; [intros; by apply Hfile|]. intros _.
    apply trace_all_ask; [intros; by apply Hprint|]. intros _. apply trace_all_Done.
  - intros e p [= <-].
    apply trace_all_ask; [intros; by apply Hprint|]. intros _. apply trace_all_Done.
Qed.

End TraceFacts.

(** ** [BusinessCardProcessor] *)
Section PipelineFacts.
Import Builtins OutputCleaner CleanerCalls BusinessCardProcessor.
Context `{PyRuntime} `{PyErrors}.

Lemma item_present (d : gmap pystr pyval) (key : pystr) (v : pyval) :
  d !! key = Some v -> Dyn.item d key = Done v.
Proof. intros Hd. unfold Dyn.item, Dyn.getitem. by rewrite Hd. Qed.

Lemma save_ocr_block (save : bool) (text : pystr) (full : pyval)
    (t : list event) (r : raised + unit) :
  runs (if save
        then _ ← VisionOCR.save_ocr_results (ocr_success text full) None None; Done ()
        else Done ()) t r ->
  r = inr ()
  /\ (save = false -> t = [])
  /\ Forall (fun e => written_file e = None
                      \/ written_file e = Some (py "ocr_result.txt")
                      \/ written_file e = Some (py "ocr_result.json")) t.
Proof.
  destruct save; [|by intros [-> ->]].
  intros [(e & He & ->)|(saved & t1 & t2 & -> & Hsave & [-> ->])]%runs_bind.
  - eapply (save_ocr_results_runs _ _ _ (PBool true)) in He as (saved & [=] & _); done.
  - eapply (save_ocr_results_runs _ _ _ (PBool true)) in Hsave as (b & _ & Hfiles & _);
      [|done..].
    by rewrite app_nil_r.
Qed.

Lemma save_result_block (save : bool) (data : gmap pystr pyval)
    (t : list event) (r : raised + unit) :
  runs (if save then _ ← save_result data None; Done () else Done ()) t r ->
  r = inr ()
  /\ (save = false -> t = [])
  /\ Forall (fun e => written_file e = None
                      \/ written_file e = Some (py "card_classified_data.json")) t.
Proof.
  destruct save; [|by intros [-> ->]].
  intros [(e & He & ->)|(saved & t1 & t2 & -> & Hsave & [-> ->])]%runs_bind.
  - apply save_result_runs in He as [[_ [=]]|(b & msg & _ & [=])].
  - rewrite app_nil_r. split; [done|]. split; [done|].
    apply save_result_runs in Hsave as [[-> _]|(b & msg & [->| ->] & _)]; trace_ok.
Qed.

(** What a run of [process_business_card] is made of, step by step. *)
Lemma process_business_card_steps (self : GroqLLaMAParser.parser)
    (image_path : pystr) (card_id : option Z) (save_intermediate : option bool)
    (t : list event) (r : raised + gmap pystr pyval) :
  runs (process_business_card self image_path card_id save_intermediate) t r ->
  exists t_ocr ocr_result t_rest,
    t = Printed (py "
🔹 명함 처리 시작: " ++ image_path)
        :: Printed (py "1️⃣ OCR 텍스트 추출 중...") :: t_ocr ++ t_rest
    /\ runs (VisionOCR.extract_text_from_image image_path) t_ocr (inr ocr_result)
    /\ ((exists msg,
            ocr_result = ocr_failure msg /\ t_rest = []
            /\ r = inr (stage_failure (py "OCR 실패: " ++ msg) (py "OCR")))
        \/ (exists text full t_save t_cls r_cls t_end,
              ocr_result = ocr_success text full
              /\ t_rest
                 = Printed (py "✅ OCR 완료. 추출된 텍스트 길이: " ++ Str.of_int (Z.of_nat (length text))
                            ++ py " 문자")
                   :: t_save ++ Printed (py "2️⃣ LLaMA API로 정보 분류 중...") :: t_cls ++ t_end
              /\ Forall (fun e => is_post e = false) t_save
              /\ runs (GroqLLaMAParser.classify_business_card_info self (PStr text) None)
                   t_cls r_cls
              /\ match r_cls with
                 | inl e => t_end = [] /\ r = inl e
                 | inr classification_result =>
                   (exists raw msg,
                       classification_result = reply_failure raw msg
                       /\ t_end = []
                       /\ r = inr (stage_failure (py "분류 실패: " ++ msg)
                                     (py "Classification")))
                   \/ (exists ai_response t_fin,
                         classification_result = reply_success ai_response
                         /\ t_end = Printed (py "✅ 분류 완료")
                                    :: Printed (py "3️⃣ 결과 정제 중...") :: t_fin
                         /\ Forall (fun e => is_post e = false) t_fin
                         /\ reply_outcome image_path (default 1%Z card_id) text
                              ai_response r)
                 end)).
Proof.
  unfold process_business_card. cbv zeta.
  intros Hrun.
  destruct Hrun as ([] & t1 & -> & Hrun); cbn [io_mbind io_bind] in Hrun.
  destruct Hrun as ([] & t2 & -> & Hrun); cbn [io_mbind io_bind] in Hrun.
  apply runs_bind in Hrun as [(e & He & ->)|(ocr_result & t_ocr & t3 & -> & Hocr & Hrun)].
  { by apply extract_text_shapes in He as [[(? & ? & [=])|(? & [=])] _]. }
  exists t_ocr, ocr_result, t3. split; [done|]. split; [done|].
  destruct (extract_text_shapes _ _ _ Hocr) as [[(text & full & [= ->])|(msg & [= ->])] _].
  2: { left. exists msg.
       rewrite (item_present (ocr_failure msg) (py "success") (PBool false)) in Hrun by done.
       rewrite bind_Done in Hrun; cbv beta in Hrun. cbn [truthy negb] in Hrun.
       rewrite (item_present (ocr_failure msg) (py "error") (PStr msg)) in Hrun by done.
       rewrite bind_Done in Hrun; cbv beta in Hrun. by destruct Hrun as [-> ->]. }
  right. exists text, full.
  rewrite (item_present (ocr_success text full) (py "success") (PBool true)) in Hrun by done.
  rewrite bind_Done in Hrun; cbv beta in Hrun. cbn [truthy negb] in Hrun.
  rewrite (item_present (ocr_success text full) (py "extracted_text") (PStr text))
    in Hrun by done.
  rewrite bind_Done in Hrun; cbv beta in Hrun. cbn [Dyn.len] in Hrun.
  rewrite bind_Done in Hrun; cbv beta in Hrun.
  destruct Hrun as ([] & t4 & -> & Hrun); cbn [io_mbind io_bind] in Hrun.
  apply runs_bind in Hrun as [(e & He & ->)|([] & t5 & t6 & -> & Hsave & Hrun)].
  { by apply save_ocr_block in He as [[=] _]. }
  assert (Forall (fun e => is_post e = false) t5) as Hquiet.
  { revert Hsave. destruct (default true save_intermediate); [|by intros [-> _]].
    intros [(e & He & [=])|(saved & u1 & u2 & -> & Hsaved & [-> _])]%runs_bind.
    rewrite app_nil_r. revert Hsaved. apply trace_all_save_ocr_results.
    - by intros [].
    - by intros [] [[=]|[=]]. }
  destruct Hrun as ([] & t7 & -> & Hrun); cbn [io_mbind io_bind] in Hrun.
  apply runs_bind in Hrun
    as [(e & He & ->)|(classification_result & t8 & t9 & -> & Hclass & Hrun)].
  { exists t5, t7, (inl e), []. rewrite app_nil_r. by split_and!. }
  exists t5, t8, (inr classification_result), t9.
  split; [done|]. split; [done|]. split; [done|]. split; [done|].
  destruct (send_shapes _ _ _ _ Hclass) as [_ [[ai_response ->]|(raw & msg & ->)]].
  2: { left. exists raw, msg. split; [done|].
       rewrite (item_present (reply_failure raw msg) (py "success") (PBool false))
         in Hrun by done.
       rewrite bind_Done in Hrun; cbv beta in Hrun. cbn [truthy negb] in Hrun.
       rewrite (item_present (reply_failure raw msg) (py "error") (PStr msg))
         in Hrun by done.
       rewrite bind_Done in Hrun; cbv beta in Hrun. by destruct Hrun as [-> ->]. }
  right.
  rewrite (item_present (reply_success ai_response) (py "success") (PBool true))
    in Hrun by done.
  rewrite bind_Done in Hrun; cbv beta in Hrun. cbn [truthy negb] in Hrun.
  destruct Hrun as ([] & t10 & -> & Hrun); cbn [io_mbind io_bind] in Hrun.
  destruct Hrun as ([] & t11 & -> & Hrun); cbn [io_mbind io_bind] in Hrun.
  exists ai_response, t11. split; [done|]. split; [done|]. unfold reply_outcome.
  rewrite (item_present (reply_success ai_response) (py "raw_response") ai_response)
    in Hrun by done.
  rewrite bind_Done in Hrun; cbv beta in Hrun.
  destruct ai_response as [| | | |raw| |].
  1,2,3,4,6,7:
    apply runs_bind in Hrun as [(e & He & ->)|(json_result & t12 & t13 & -> & Hjson & Hrun)];
    [apply extract_any_runs in He as [-> [f [= ->]]];
     split; [apply Forall_nil_2|by exists f]
    |by apply extract_any_runs in Hjson as [_ [f [=]]]].
  change (extract_json_from_response_any (PStr raw))
    with (lift (extract_json_from_response raw)) in Hrun.
  destruct (extract_cases raw) as [[parsed Hex]|[(msg & doc & Hex)|[e Hex]]];
    rewrite Hex in Hrun; cbn [lift] in Hrun.
  3: { rewrite bind_Throw in Hrun. destruct Hrun as [-> ->].
       split; [apply Forall_nil_2|]. left. by exists e. }
  all: rewrite bind_Done in Hrun; cbv beta in Hrun.
  2: { rewrite (item_present (extraction_failure msg doc raw) (py "success") (PBool false))
         in Hrun by done.
       rewrite bind_Done in Hrun; cbv beta in Hrun. cbn [truthy negb] in Hrun.
       erewrite (item_present (extraction_failure msg doc raw) (py "error")) in Hrun
         by reflexivity.
       rewrite bind_Done in Hrun; cbv beta in Hrun.
       rewrite bind_Done in Hrun; cbv beta in Hrun. destruct Hrun as [-> ->].
       split; [apply Forall_nil_2|]. right; left. by exists msg, doc. }
  rewrite (item_present (extraction_success parsed) (py "success") (PBool true))
    in Hrun by done.
  rewrite bind_Done in Hrun; cbv beta in Hrun. cbn [truthy negb] in Hrun.
  rewrite (item_present (extraction_success parsed) (py "data") parsed) in Hrun by done.
  rewrite bind_Done in Hrun; cbv beta in Hrun.
  destruct (clean_any_shapes parsed) as [(cleaned_data & Hclean & Hrecord)|[f Hclean]];
    rewrite Hclean in Hrun.
  2: { rewrite bind_Throw in Hrun. destruct Hrun as [-> ->].
       split; [apply Forall_nil_2|]. right; right. exists parsed. split; [done|].
       left. by exists f. }
  rewrite bind_Done in Hrun; cbv beta in Hrun. cbv zeta in Hrun.
  destruct Hrun as ([] & t14 & -> & Hrun); cbn [io_mbind io_bind] in Hrun.
  apply runs_bind in Hrun as [(e & He & ->)|([] & t15 & t16 & -> & Hsave2 & [-> ->])].
  { by apply save_result_block in He as [[=] _]. }
  split.
  { apply Forall_cons_2; [done|]. rewrite app_nil_r.
    revert Hsave2. destruct (default true save_intermediate); [|by intros [-> _]].
    intros [(e & He & [=])|(saved & u1 & u2 & -> & Hsaved & [-> _])]%runs_bind.
    rewrite app_nil_r. revert Hsaved. apply trace_all_save_result.
    - by intros [].
    - by intros [] [=]. }
  right; right. exists parsed. split; [done|]. right. by exists cleaned_data.
Qed.

(** What a run of [process_business_card] is made of: two lines, the
    run of the OCR, and either the OCR failure or what follows it. *)
Lemma process_business_card_runs (self : GroqLLaMAParser.parser)
    (image_path : pystr) (card_id : option Z) (save_intermediate : option bool)
    (t : list event) (r : raised + gmap pystr pyval) :
  runs (process_business_card self image_path card_id save_intermediate) t r ->
  exists t_ocr ocr_result t_rest,
    t = Printed (py "
🔹 명함 처리 시작: " ++ image_path)
        :: Printed (py "1️⃣ OCR 텍스트 추출 중...") :: t_ocr ++ t_rest
    /\ runs (VisionOCR.extract_text_from_image image_path) t_ocr (inr ocr_result)
    /\ ((exists msg,
            ocr_result = ocr_failure msg /\ t_rest = []
            /\ r = inr (stage_failure (py "OCR 실패: " ++ msg) (py "OCR")))
        \/ (exists text full,
              ocr_result = ocr_success text full
              /\ ((exists f, r = inl (Fault f))
                  \/ (exists msg, r = inl (Foreign false msg))
                  \/ (exists e, r = inl (FromCleaner e))
                  \/ (exists msg,
                        r = inr (stage_failure (py "분류 실패: " ++ msg)
                                   (py "Classification")))
                  \/ (exists msg raw,
                        r = inr (parsing_failure (py "JSON 파싱 실패: " ++ msg)
                                   (PStr raw)))
                  \/ (exists cleaned_data,
                        cleaned_record cleaned_data
                        /\ r = inr (card_success
                                     (create_final_result cleaned_data
                                        (Some (default 1%Z card_id))
                                        (Some (PStr image_path)) None)
                                     (PStr text)))))).
Proof.
  intros (t_ocr & ocr_result & t_rest & Ht & Hocr & Hcases)%process_business_card_steps.
  exists t_ocr, ocr_result, t_rest. split; [done|]. split; [done|].
  destruct Hcases as [Hfail|(text & full & t_save & t_cls & r_cls & t_end & -> & _ & _
                             & Hclass & Hcases)]; [by left|].
  right. exists text, full. split; [done|].
  destruct r_cls as [e|classification_result].
  { destruct Hcases as [_ ->].
    apply send_shapes in Hclass as [_ [[f ->]|[msg ->]]]; [left|right; left]; by eexists. }
  destruct Hcases as [(raw & msg & _ & _ & ->)|(ai_response & t_fin & _ & _ & _ & Hcases)].
  { right; right; right; left. by exists msg. }
  unfold reply_outcome in Hcases.
  destruct ai_response as [| | | |raw| |];
    try (destruct Hcases as [f ->]; left; by exists f).
  destruct Hcases as [(e & _ & ->)|[(msg & doc & _ & ->)
    |(parsed & _ & [(f & _ & ->)|(cleaned & _ & Hrec & ->)])]].
  - right; right; left. by exists e.
  - right; right; right; right; left. by eexists _, _.
  - left. by exists f.
  - right; right; right; right; right. by exists cleaned.
Qed.


Lemma not_post_in (t : list event) (e : event) :
  Forall (fun e => is_post e = false) t -> is_post e = true -> e ∉ t.
Proof.
  intros Ht He Hin. rewrite Forall_forall in Ht. apply Ht in Hin. congruence.
Qed.

(** The request to the model in a run of [process_business_card] is the
    run of [classify_business_card_info] on the text of the image, and
    its result decides that of the run. *)
Lemma process_business_card_reply (self : GroqLLaMAParser.parser)
    (image_path : pystr) (card_id : option Z) (save_intermediate : option bool)
    (t : list event) (r : raised + gmap pystr pyval) (url : pystr)
    (request_headers : gmap pystr pyval) (json : pyval) (a : answer Response) :
  runs (process_business_card self image_path card_id save_intermediate) t r ->
  Posted url request_headers json a ∈ t ->
  exists text r_cls,
    runs (GroqLLaMAParser.classify_business_card_info self (PStr text) None)
      [Posted url request_headers json a] r_cls
    /\ match r_cls with
       | inl e => r = inl e
       | inr classification_result =>
         (exists raw msg,
             classification_result = reply_failure raw msg
             /\ r = inr (stage_failure (py "분류 실패: " ++ msg)
                           (py "Classification")))
         \/ (exists ai_response,
               classification_result = reply_success ai_response
               /\ reply_outcome image_path (default 1%Z card_id) text ai_response r)
       end.
Proof.
  intros (t_ocr & ocr_result & t_rest & -> & Hocr & Hcases)%process_business_card_steps Hin.
  apply extract_text_shapes in Hocr as [_ Hocr].
  assert (Forall (fun e => is_post e = false) t_ocr) as Hquiet.
  { eapply Forall_impl; [exact Hocr|]. by intros e (_ & _ & He). }
  apply elem_of_cons in Hin as [[=]|Hin]. apply elem_of_cons in Hin as [[=]|Hin].
  apply elem_of_app in Hin as [Hin|Hin]; [by eapply not_post_in in Hin|].
  destruct Hcases as [(msg & _ & -> & _)|(text & full & t_save & t_cls & r_cls & t_end
                                           & _ & -> & Hsave & Hclass & Hcases)].
  { by apply elem_of_nil in Hin. }
  apply elem_of_cons in Hin as [[=]|Hin].
  apply elem_of_app in Hin as [Hin|Hin]; [by eapply not_post_in in Hin|].
  apply elem_of_cons in Hin as [[=]|Hin].
  destruct (send_shapes _ _ _ _ Hclass) as [[a' ->] _].
  exists text, r_cls.
  apply elem_of_app in Hin as [Hin|Hin].
  - apply elem_of_cons in Hin as [[= -> -> -> ->]|Hin]; [|by apply elem_of_nil in Hin].
    split; [done|].
    destruct r_cls as [e|classification_result]; [by destruct Hcases as [_ ->]|].
    destruct Hcases as [(raw & msg & -> & _ & ->)|(ai & t_fin & -> & _ & _ & Hcases)].
    + left. by exists raw, msg.
    + right. by exists ai.
  - exfalso. destruct r_cls as [e|classification_result].
    { destruct Hcases as [-> _]. by apply elem_of_nil in Hin. }
    destruct Hcases as [(raw & msg & _ & -> & _)|(ai & t_fin & _ & -> & Hfin & _)].
    { by apply elem_of_nil in Hin. }
    apply elem_of_cons in Hin as [[=]|Hin]. apply elem_of_cons in Hin as [[=]|Hin].
    by eapply not_post_in in Hin.
Qed.

Lemma reply_success_inj (x y : pyval) : reply_success x = reply_success y -> x = y.
Proof.
  intros Heq.
  assert (reply_success x !! (py "raw_response" : pystr)
          = reply_success y !! (py "raw_response" : pystr)) as Hlook by (by rewrite Heq).
  by injection Hlook.
Qed.

Lemma reply_success_not_failure (x raw : pyval) (msg : pystr) :
  reply_success x <> reply_failure raw msg.
Proof.
  intros Heq.
  assert (reply_success x !! (py "success" : pystr)
          = reply_failure raw msg !! (py "success" : pystr)) as Hlook
      by (by rewrite Heq).
  discriminate Hlook.
Qed.

(** The content of the model's reply decides the result. *)
Lemma process_business_card_content (self : GroqLLaMAParser.parser)
    (image_path : pystr) (card_id : option Z) (save_intermediate : option bool)
    (t : list event) (r : raised + gmap pystr pyval) (url : pystr)
    (request_headers : gmap pystr pyval) (json : pyval) (response : Response)
    (body ai_response : pyval) :
  runs (process_business_card self image_path card_id save_intermediate) t r ->
  Posted url request_headers json (Returned response) ∈ t ->
  http_error response = None ->
  json_body response = Returned body ->
  GroqLLaMAParser.read_choices body = Done (reply_success ai_response) ->
  exists text, reply_outcome image_path (default 1%Z card_id) text ai_response r.
Proof.
  intros Hrun Hin Hhttp Hbody Hread.
  destruct (process_business_card_reply _ _ _ _ _ _ _ _ _ _ Hrun Hin)
    as (text & r_cls & Hclass & Hcases).
  exists text.
  apply send_runs in Hclass as (a & [= _ _ _ <-] & Hr).
  cbv beta iota in Hr. rewrite Hhttp, Hbody, Hread in Hr. destruct Hr as [_ ->].
  destruct Hcases as [(raw & msg & Heq & _)|(ai & Heq & Hout)].
  - by apply reply_success_not_failure in Heq.
  - by apply reply_success_inj in Heq as <-.
Qed.

End PipelineFacts.

(** ** The files the pipeline touches *)
Section FileFacts.
Import Builtins OutputCleaner CleanerCalls BusinessCardProcessor.
Context `{PyRuntime} `{PyErrors}.

Lemma saves_only_quiet (save : bool) (e : event) :
  written_file e = None -> saves_only save e.
Proof. unfold saves_only. by intros ->. Qed.

Ltac quiet_trace :=
  repeat first [apply Forall_nil_2
               |apply Forall_cons_2; [by apply saves_only_quiet|]].

Lemma process_business_card_files (self : GroqLLaMAParser.parser)
    (image_path : pystr) (card_id : option Z) (save_intermediate : option bool) :
  trace_all (saves_only (default true save_intermediate))
    (process_business_card self image_path card_id save_intermediate).
Proof.
  unfold process_business_card. cbv zeta.
  generalize (default true save_intermediate). intros save.
  apply trace_all_ask; [intros ?; by apply saves_only_quiet|]. intros _.
  apply trace_all_ask; [intros ?; by apply saves_only_quiet|]. intros _.
  apply trace_all_bind.
  { eapply trace_all_mono; [|apply trace_all_extract_text].
    intros e [He _]. by apply saves_only_quiet. }
  intros ocr_result.
  apply trace_all_bind; [apply trace_all_item|]. intros ocr_ok.
  destruct (negb (truthy ocr_ok)).
  { apply trace_all_bind; [apply trace_all_item|]. intros error. apply trace_all_Done. }
  apply trace_all_bind; [apply trace_all_item|]. intros extracted_text.
  apply trace_all_bind; [apply trace_all_len|]. intros n.
  apply trace_all_ask; [intros ?; by apply saves_only_quiet|]. intros _.
  apply trace_all_bind.
  { destruct save; [|apply trace_all_Done].
    intros t r Hrun.
    destruct (ocr_result !! (py "success" : pystr)) as [success|] eqn:Hs.
    - destruct (truthy success) eqn:Htruth.
      + apply runs_bind in Hrun
          as [(e & Hrun & ->)|(saved & t1 & t2 & -> & Hrun & [-> _])];
          eapply save_ocr_results_runs in Hrun as (b & _ & Hfiles & _); try done;
          rewrite ?app_nil_r;
          (eapply Forall_impl; [exact Hfiles|]);
          intros ev; unfold saves_only;
          (intros [->|[->| ->]]; [done|split; [done|set_solver]..]).
      + apply runs_bind in Hrun
          as [(e & Hrun & ->)|(saved & t1 & t2 & -> & Hrun & [-> _])];
          apply save_ocr_results_guard in Hrun; unfold pystr in *;
          rewrite Hs in Hrun; specialize (Hrun Htruth);
          destruct (ocr_result !! py "error");
          destruct Hrun as [-> _]; rewrite ?app_nil_r; quiet_trace.
    - apply runs_bind in Hrun
        as [(e & Hrun & ->)|(saved & t1 & t2 & -> & Hrun & [-> _])];
        apply save_ocr_results_guard in Hrun; unfold pystr in *;
        rewrite Hs in Hrun; destruct Hrun as [-> _]; rewrite ?app_nil_r; quiet_trace. }
  intros _.
  apply trace_all_ask; [intros ?; by apply saves_only_quiet|]. intros _.
  apply trace_all_bind.
  { apply trace_all_send. intros a. by apply saves_only_quiet. }
  intros classification_result.
  apply trace_all_bind; [apply trace_all_item|]. intros classified.
  destruct (negb (truthy classified)).
  { apply trace_all_bind; [apply trace_all_item|]. intros error. apply trace_all_Done. }
  apply trace_all_ask; [intros ?; by apply saves_only_quiet|]. intros _.
  apply trace_all_ask; [intros ?; by apply saves_only_quiet|]. intros _.
  apply trace_all_bind; [apply trace_all_item|]. intros raw_response.
  apply trace_all_bind; [apply trace_all_extract_any|]. intros json_result.
  apply trace_all_bind; [apply trace_all_item|]. intros parsed.
  destruct (negb (truthy parsed)).
  { apply trace_all_bind; [apply trace_all_item|]. intros error.
    apply trace_all_bind; [apply trace_all_item|]. intros raw. apply trace_all_Done. }
  apply trace_all_bind; [apply trace_all_item|]. intros data.
  apply trace_all_bind; [apply trace_all_clean_any|]. intros cleaned_data.
  apply trace_all_ask; [intros ?; by apply saves_only_quiet|]. intros _.
  apply trace_all_bind; [|intros _; apply trace_all_Done].
  destruct save; [|apply trace_all_Done].
  intros t r Hrun.
  apply (save_result_block true) in Hrun as (_ & _ & Hfiles).
  eapply Forall_impl; [exact Hfiles|].
  intros e; unfold saves_only. intros [->| ->]; [done|split; [done|set_solver]].
Qed.

End FileFacts.

(** ** [process_multiple_cards] *)
Section BatchFacts.
Import Builtins OutputCleaner CleanerCalls BusinessCardProcessor.
Context `{PyRuntime} `{PyErrors}.

(** A result of [process_business_card] says whether it succeeded, and
    carries a message when it did not. *)
Lemma card_result_cases (self : GroqLLaMAParser.parser) (image_path : pystr)
    (card_id : option Z) (save_intermediate : option bool) (t : list event)
    (result : gmap pystr pyval) :
  runs (process_business_card self image_path card_id save_intermediate) t
    (inr result) ->
  result !! (py "success" : pystr) = Some (PBool true)
  \/ (result !! (py "success" : pystr) = Some (PBool false)
      /\ exists msg, result !! (py "error" : pystr) = Some (PStr msg)).
Proof.
  intros (t_ocr & ocr_result & t_rest & _ & _ & Hcases)%process_business_card_runs.
  destruct Hcases as [(msg & _ & _ & [= ->])|(text & full & _ & Hcases)].
  { right. split; [done|]. by eexists. }
  destruct Hcases as [(f & [=])|[(msg & [=])|[(e & [=])|[(msg & [= ->])|
    [(msg & raw & [= ->])|(cleaned & _ & [= ->])]]]]].
  - right. split; [done|]. by eexists.
  - right. split; [done|]. by eexists.
  - by left.
Qed.

Lemma card_exceptions (self : GroqLLaMAParser.parser) (image_path : pystr)
    (card_id : option Z) (save_intermediate : option bool) (t : list event)
    (e : raised) :
  runs (process_business_card self image_path card_id save_intermediate) t (inl e) ->
  (exists f, e = Fault f) \/ (exists msg, e = Foreign false msg)
  \/ (exists x, e = FromCleaner x).
Proof.
  intros (t_ocr & ocr_result & t_rest & _ & _ & Hcases)%process_business_card_runs.
  destruct Hcases as [(msg & _ & _ & [=])|(text & full & _ & Hcases)].
  destruct Hcases as [(f & [= ->])|[(msg & [= ->])|[(x & [= ->])|[(msg & [=])|
    [(msg & raw & [=])|(cleaned & _ & [=])]]]]].
  - left. by eexists.
  - right; left. by eexists.
  - right; right. by eexists.
Qed.

Lemma succeeded_lookup (result : gmap pystr pyval) (success : pyval) :
  result !! (py "success" : pystr) = Some success ->
  succeeded result = truthy success.
Proof. unfold succeeded. by intros ->. Qed.

Lemma cards_loop_runs (self : GroqLLaMAParser.parser) (start_card_id : Z)
    (image_paths : list pystr) :
  forall (i : nat) (results : list pyval) (success_count : Z) (t : list event)
         (r : raised + list pyval * Z),
    runs (cards_loop self start_card_id i image_paths results success_count) t r ->
    Forall (fun e => written_file e = None) t
    /\ match r with
       | inl e => (exists f, e = Fault f) \/ (exists msg, e = Foreign false msg)
                  \/ (exists x, e = FromCleaner x)
       | inr looped =>
         exists outcomes,
           batch_of self start_card_id i image_paths outcomes
           /\ looped.1 = results ++ batch_entries start_card_id i image_paths outcomes
           /\ looped.2 = (success_count + success_total outcomes)%Z
       end.
Proof.
  induction image_paths as [|image_path rest IH]; intros i results success_count t r.
  { intros [-> ->]. split; [apply Forall_nil_2|]. exists []. simpl.
    split; [done|]. split; [by rewrite app_nil_r|]. unfold success_total. simpl. lia. }
  cbn [cards_loop]. cbv zeta.
  intros [(e & He & ->)|(result & t1 & t2 & -> & Hcard & Hrun)]%runs_bind.
  { split.
    - eapply Forall_impl; [by eapply process_business_card_files|].
      intros ev. unfold saves_only. simpl. by destruct (written_file ev); [intros [[=] _]|].
    - by eapply card_exceptions. }
  assert (Forall (fun e => written_file e = None) t1) as Ht1.
  { eapply Forall_impl; [by eapply process_business_card_files|].
    intros ev. unfold saves_only. simpl. by destruct (written_file ev); [intros [[=] _]|]. }
  destruct (card_result_cases _ _ _ _ _ _ Hcard) as [Hok|[Hfail [msg Hmsg]]].
  - rewrite (item_present result (py "success") (PBool true)) in Hrun by done.
    rewrite bind_Done in Hrun. cbn [truthy] in Hrun.
    apply IH in Hrun as [Ht2 Hr]. split; [by apply Forall_app|].
    destruct r as [e|looped]; [done|].
    destruct Hr as (outcomes & Hbatch & Hresults & Hcount).
    exists (result :: outcomes). split; [|split].
    + split; [by exists t1|done].
    + rewrite Hresults, <- app_assoc. done.
    + rewrite Hcount. unfold success_total. cbn [List.filter].
      rewrite (succeeded_lookup result (PBool true)) by done. cbn [truthy length]. lia.
  - rewrite (item_present result (py "success") (PBool false)) in Hrun by done.
    rewrite bind_Done in Hrun. cbn [truthy] in Hrun.
    rewrite (item_present result (py "error") (PStr msg)) in Hrun by done.
    rewrite bind_Done in Hrun.
    destruct Hrun as ([] & t3 & -> & Hrun); cbn [io_mbind io_bind] in Hrun.
    apply IH in Hrun as [Ht2 Hr]. split.
    { apply Forall_app. split; [done|]. by apply Forall_cons_2. }
    destruct r as [e|looped]; [done|].
    destruct Hr as (outcomes & Hbatch & Hresults & Hcount).
    exists (result :: outcomes). split; [|split].
    + split; [by exists t1|done].
    + rewrite Hresults, <- app_assoc. done.
    + rewrite Hcount. unfold success_total. cbn [List.filter].
      rewrite (succeeded_lookup result (PBool false)) by done. cbn [truthy length]. lia.
Qed.

Lemma batch_of_length (self : GroqLLaMAParser.parser) (start_card_id : Z)
    (image_paths : list pystr) :
  forall (i : nat) (outcomes : list (gmap pystr pyval)),
    batch_of self start_card_id i image_paths outcomes ->
    length outcomes = length image_paths
    /\ length (batch_entries start_card_id i image_paths outcomes)
       = length image_paths.
Proof.
  induction image_paths as [|image_path rest IH]; intros i [|result outcomes];
    simpl; try done.
  intros [_ (-> & ->)%IH]. done.
Qed.

Lemma success_total_bounds (outcomes : list (gmap pystr pyval)) :
  (0 <= success_total outcomes <= Z.of_nat (length outcomes))%Z.
Proof.
  unfold success_total. pose proof (List.filter_length_le succeeded outcomes). lia.
Qed.

(** A run of [process_multiple_cards]: the cards, then the batch file. *)
Lemma process_multiple_cards_runs (self : GroqLLaMAParser.parser)
    (image_paths : list pystr) (start_card_id : option Z) (t : list event)
    (r : raised + gmap pystr pyval) :
  runs (process_multiple_cards self image_paths start_card_id) t r ->
  exists t_cards,
    Forall (fun e => written_file e = None) t_cards
    /\ ((t = t_cards
         /\ ((exists f, r = inl (Fault f)) \/ (exists msg, r = inl (Foreign false msg))
             \/ (exists x, r = inl (FromCleaner x))))
        \/ (exists outcomes,
              batch_of self (default 1%Z start_card_id) 0 image_paths outcomes
              /\ let batch :=
                   batch_result (Z.of_nat (length image_paths)) (success_total outcomes)
                     (batch_entries (default 1%Z start_card_id) 0 image_paths outcomes) in
                 (exists b msg,
                     (t = t_cards ++ [Opened batch_file (Threw b msg)]
                      \/ t = t_cards ++ [Opened batch_file (Returned ());
                                         Dumped batch_file (PDict batch) (Threw b msg)])
                     /\ r = inl (Foreign b msg))
                 \/ (t = t_cards
                         ++ [Opened batch_file (Returned ());
                             Dumped batch_file (PDict batch) (Returned ());
                             Printed (py "
📊 일괄 처리 완료: "
                                      ++ Str.of_int (success_total outcomes)
                                      ++ py "/"
                                      ++ Str.of_int (Z.of_nat (length image_paths))
                                      ++ py " 성공")]
                     /\ r = inr batch))).
Proof.
  unfold process_multiple_cards. cbv zeta.
  intros [(e & He & ->)|(looped & t_cards & t2 & -> & Hloop & Hrun)]%runs_bind.
  { apply cards_loop_runs in He as [Hquiet He]. exists t. split; [done|]. left.
    split; [done|].
    destruct He as [[f ->]|[[msg ->]|[x ->]]]; [left|right; left|right; right];
      by eexists. }
  apply cards_loop_runs in Hloop as (Hquiet & outcomes & Hbatch & Hresults & Hcount).
  exists t_cards. split; [done|]. right. exists outcomes. split; [done|].
  rewrite app_nil_l in Hresults. rewrite Z.add_0_l in Hcount.
  rewrite Hresults, Hcount in Hrun. cbv zeta.
  apply runs_call in Hrun as (a1 & t3 & -> & Hrun).
  destruct a1 as [[]|b msg].
  2: { destruct Hrun as [-> ->]. left. exists b, msg. split; [by left|done]. }
  apply runs_call in Hrun as (a2 & t4 & -> & Hrun).
  destruct a2 as [[]|b msg].
  2: { destruct Hrun as [-> ->]. left. exists b, msg. split; [by right|done]. }
  destruct Hrun as ([] & t5 & -> & [-> ->]). by right.
Qed.

End BatchFacts.

(** ** Cleaning twice *)
Section RecleanFacts.
Import Str Builtins OutputCleaner.
Context `{PyRuntime}.

Lemma select_alias_insert_ne (raw_data : gmap pystr pyval) (key : pystr)
    (v : pyval) (possible_keys : list pystr) :
  key ∉ possible_keys ->
  select_alias (<[key := v]> raw_data) possible_keys
  = select_alias raw_data possible_keys.
Proof.
  induction possible_keys as [|k rest IH]; [done|].
  intros [Hk Hrest]%not_elem_of_cons. cbn [select_alias].
  rewrite lookup_insert_ne by done. by rewrite IH.
Qed.

Lemma select_alias_absent (raw_data : gmap pystr pyval) (possible_keys : list pystr) :
  Forall (fun k => raw_data !! k = None) possible_keys ->
  select_alias raw_data possible_keys = PNone.
Proof.
  induction 1 as [|k rest Hk _ IH]; [done|]. cbn [select_alias]. by rewrite Hk.
Qed.

(** In a record the first key of a field decides. *)
Lemma select_alias_head (raw_data : gmap pystr pyval) (key : pystr) (v : pyval)
    (rest : list pystr) :
  raw_data !! key = Some v ->
  Forall (fun k => raw_data !! k = None) rest ->
  select_alias raw_data (key :: rest) = v.
Proof.
  intros Hkey Hrest. cbn [select_alias]. rewrite Hkey.
  destruct v; try done. by apply select_alias_absent.
Qed.

Lemma filter_idem (p : N -> bool) (s : pystr) :
  List.filter p (List.filter p s) = List.filter p s.
Proof.
  induction s as [|c s IH]; [done|]. cbn [List.filter].
  destruct (p c) eqn:Hc; [|done]. cbn [List.filter]. by rewrite Hc, IH.
Qed.

Lemma email_not_sentinel (s : pystr) :
  Re.fullmatch email_pattern s = true -> map lower_ascii s = s ->
  lower s ∉ sentinels.
Proof.
  intros Hm Hl.
  pose proof (matched_email_chars s Hm) as Hchars.
  rewrite (email_chars_lower s Hchars), Hl.
  apply fullmatch_lang in Hm.
  intros Hin. unfold sentinels in Hin.
  repeat (apply elem_of_cons in Hin as [->|Hin]);
    [..|by apply elem_of_nil in Hin];
    apply fullmatch_lang in Hm; by vm_compute in Hm.
Qed.

(** A cleaned value is cleaned to itself; for a phone number, when it
    does not read as one of the sentinels. *)
Lemma clean_field_value_idem (value : pyval) (field_type s : pystr) :
  _clean_field_value value field_type = PStr s ->
  (field_type = py "phone" -> lower s ∉ sentinels) ->
  _clean_field_value (PStr s) field_type = PStr s.
Proof.
  intros Hclean Hphone.
  pose proof (clean_field_value_result value field_type) as Hres.
  rewrite Hclean in Hres. destruct Hres as [[=]|(s' & [= <-] & Htrim)].
  pose proof (trimmed_strip s Htrim) as Hstrip.
  destruct Htrim as (Hne & _).
  revert Hclean. unfold _clean_field_value.
  destruct (is_None value || eq_str value []); [done|].
  cbn [is_None eq_str orb str]. rewrite Hstrip.
  repeat match goal with
         | |- context [@bool_decide (s = []) ?d] =>
           rewrite (@bool_decide_eq_false_2 (s = []) d Hne)
         end.
  destruct (bool_decide (strip (str value) = [])
            || bool_decide (lower (strip (str value)) ∈ sentinels)) eqn:Hs; [done|].
  apply orb_false_iff in Hs as [_ Hs%bool_decide_eq_false]. cbn [orb].
  destruct (bool_decide (field_type = py "phone")) eqn:Hp.
  { apply bool_decide_eq_true in Hp.
    rewrite (bool_decide_eq_false_2 (lower s ∈ sentinels)) by auto.
    rewrite !clean_phone_number_filter.
    destruct (List.filter phone_keep (strip (str value))) as [|c t] eqn:E; [done|].
    intros [= <-]. rewrite <- E, filter_idem. by rewrite E. }
  destruct (bool_decide (field_type = py "email")) eqn:He.
  { intros Hemail.
    pose proof (clean_email_value _ _ Hemail) as (Hm & _ & Hl).
    rewrite (bool_decide_eq_false_2 (lower s ∈ sentinels))
      by (by apply email_not_sentinel).
    by eapply clean_email_idem. }
  intros [= <-].
  by rewrite (bool_decide_eq_false_2 (lower _ ∈ sentinels)) by done.
Qed.

(** The keys of a field other than the first are no keys of a record. *)
Lemma aliases_not_canonical :
  Forall (fun fk => exists rest,
              fk.2 = fk.1 :: rest
              /\ Forall (fun k => k ∉ field_mapping.*1) rest) field_mapping.
Proof.
  unfold field_mapping.
  repeat first
    [ apply Forall_nil_2
    | apply Forall_cons_2;
      [eexists; split; [reflexivity|];
       repeat first
         [ apply Forall_nil_2
         | apply Forall_cons_2;
           [apply (bool_decide_unpack _); by vm_compute|] ]|] ].
Qed.

Lemma cleaned_value_again (raw_data cleaned_data : gmap pystr pyval)
    (field : pystr) (keys : list pystr) :
  clean_business_card_data raw_data = Return cleaned_data ->
  (forall p, cleaned_data !! (py "phone" : pystr) = Some (PStr p) ->
             lower p ∉ sentinels) ->
  (field, keys) ∈ field_mapping ->
  cleaned_value cleaned_data field keys = cleaned_value raw_data field keys.
Proof.
  intros Hclean Hphone Hin.
  destruct (cleaned_data_lookup raw_data) as (c & Hc & Hdom & Hlook & _).
  rewrite Hclean in Hc. injection Hc as <-.
  pose proof (Hlook field keys Hin) as Hfield.
  pose proof aliases_not_canonical as Halias.
  rewrite Forall_forall in Halias.
  destruct (Halias _ Hin) as (rest & Hkeys & Hrest). cbn [fst snd] in Hkeys, Hrest.
  subst keys. unfold cleaned_value at 1.
  rewrite (select_alias_head cleaned_data field _ rest Hfield).
  2: { eapply Forall_impl; [exact Hrest|]. intros k Hk.
       apply not_elem_of_dom. rewrite Hdom. by rewrite elem_of_list_to_set. }
  destruct (cleaned_value_result raw_data field (field :: rest)) as [Hv|(s & Hv & Hs)];
    rewrite Hv; [done|].
  destruct Hs as (Hne & _). cbn [truthy].
  rewrite (bool_decide_eq_false_2 (s = [])) by done. cbn [negb].
  assert (_clean_field_value (select_alias raw_data (field :: rest)) field = PStr s)
    as Hraw.
  { revert Hv. unfold cleaned_value. by destruct (truthy _). }
  eapply clean_field_value_idem; [exact Hraw|].
  intros ->. apply Hphone. by rewrite Hfield, Hv.
Qed.

End RecleanFacts.

(** * The pipeline around the cleaner: what its code guarantees *)

(** ** [VisionOCR] *)

(** X1. [extract_text_from_image] never raises: every run ends with the
    dictionary of a success, holding the text, or with the dictionary
    of a failure, holding a message; it prints nothing, writes no file
    and sends nothing to the model. *)
Theorem ocr_never_raises `{PyErrors} (image_path : pystr) (t : list event)
    (r : raised + gmap pystr pyval) :
  runs (VisionOCR.extract_text_from_image image_path) t r ->
  ((exists text full, r = inr (ocr_success text full))
   \/ (exists msg, r = inr (ocr_failure msg)))
  /\ Forall (fun e => written_file e = None /\ is_print e = false /\ is_post e = false) t.
Proof. apply extract_text_shapes. Qed.

Lemma ocr_never_raises_witness :
  runs (@VisionOCR.extract_text_from_image plain_errors Demo.image_path)
    Demo.ocr_run.1 Demo.ocr_run.2
  /\ ((exists text full, Demo.ocr_run.2 = inr (ocr_success text full))
      \/ (exists msg, Demo.ocr_run.2 = inr (ocr_failure msg)))
  /\ Forall (fun e => written_file e = None /\ is_print e = false /\ is_post e = false)
       Demo.ocr_run.1.
Proof.
  assert (runs (@VisionOCR.extract_text_from_image plain_errors Demo.image_path)
            Demo.ocr_run.1 Demo.ocr_run.2) as Hrun
      by (by_play (Demo.working PNone)).
  split; [exact Hrun|].
  exact (@ocr_never_raises plain_errors _ _ _ Hrun).
Defined.

(** X2. What [extract_text_from_image] answers: when the image cannot
    be read or the service raises, the failure with the exception's
    text, after one or two requests; when the service reports an error,
    the failure with that error after a fixed prefix; otherwise the
    success with the description of the first annotation and the
    response as a dictionary, or the failure [OCR 결과 없음] when there
    is no annotation. *)
Theorem ocr_outcomes `{PyErrors} (image_path : pystr) (t : list event)
    (r : raised + gmap pystr pyval) :
  runs (VisionOCR.extract_text_from_image image_path) t r ->
  (exists b msg,
      t = [BinaryRead image_path (Threw b msg)] /\ r = inr (ocr_failure msg))
  \/ (exists content b msg,
        t = [BinaryRead image_path (Returned content);
             Detected content (Threw b msg)]
        /\ r = inr (ocr_failure msg))
  \/ (exists content response,
        t = [BinaryRead image_path (Returned content);
             Detected content (Returned response)]
        /\ r = inr
             (if negb (bool_decide (error_message response = []))
              then ocr_failure (py "Vision API 오류: " ++ error_message response)
              else match text_annotations response with
                   | description :: _ => ocr_success description (message_dict response)
                   | [] => ocr_failure (py "OCR 결과 없음")
                   end)).
Proof. apply extract_text_runs. Qed.

Lemma ocr_outcomes_witness :
  let t := Demo.ocr_run_without_image.1 in
  let r := Demo.ocr_run_without_image.2 in
  runs (@VisionOCR.extract_text_from_image plain_errors Demo.image_path) t r
  /\ ((exists b msg,
          t = [BinaryRead Demo.image_path (Threw b msg)] /\ r = inr (ocr_failure msg))
      \/ (exists content b msg,
            t = [BinaryRead Demo.image_path (Returned content);
                 Detected content (Threw b msg)]
            /\ r = inr (ocr_failure msg))
      \/ (exists content response,
            t = [BinaryRead Demo.image_path (Returned content);
                 Detected content (Returned response)]
            /\ r = inr
                 (if negb (bool_decide (error_message response = []))
                  then ocr_failure (py "Vision API 오류: " ++ error_message response)
                  else match text_annotations response with
                       | description :: _ =>
                         ocr_success description (message_dict response)
                       | [] => ocr_failure (py "OCR 결과 없음")
                       end))).
Proof.
  intros t r.
  assert (runs (@VisionOCR.extract_text_from_image plain_errors Demo.image_path) t r)
    as Hrun by (by_play Demo.without_image).
  split; [exact Hrun|].
  exact (@ocr_outcomes plain_errors _ _ _ Hrun).
Defined.

(** X3. [save_ocr_results] on a result whose [success] is false opens
    no file and sends nothing, whether it returns or raises; when it
    returns, it has printed the result's error and nothing else, and it
    returns [False]. *)
Theorem save_ocr_results_refuses_failure `{PyRuntime} `{PyErrors}
    (ocr_result : gmap pystr pyval) (text_filename json_filename : option pystr)
    (success : pyval) (t : list event) (r : raised + bool) :
  ocr_result !! (py "success" : pystr) = Some success ->
  Builtins.truthy success = false ->
  runs (VisionOCR.save_ocr_results ocr_result text_filename json_filename) t r ->
  Forall (fun e => written_file e = None /\ is_post e = false) t
  /\ (forall saved : bool,
        r = inr saved ->
        saved = false
        /\ exists error,
            ocr_result !! (py "error" : pystr) = Some error
            /\ t = [Printed (py "❌ OCR 결과 저장 실패: " ++ Builtins.str error)]).
Proof.
  intros Hsuccess Hfalsy Hrun.
  apply save_ocr_results_guard in Hrun. unfold pystr in *.
  rewrite Hsuccess in Hrun. specialize (Hrun Hfalsy).
  destruct (ocr_result !! py "error") as [error|]; destruct Hrun as [-> ->].
  - split; [by repeat constructor|]. intros saved [= <-]. split; [done|]. by exists error.
  - split; [constructor|]. by intros saved [=].
Qed.

Lemma save_ocr_results_refuses_failure_witness :
  Forall (fun e => written_file e = None /\ is_post e = false) Demo.save_failed_ocr_run.1
  /\ (forall saved : bool,
        Demo.save_failed_ocr_run.2 = inr saved ->
        saved = false
        /\ exists error,
            ocr_failure (py "no text") !! (py "error" : pystr) = Some error
            /\ Demo.save_failed_ocr_run.1
               = [Printed (py "❌ OCR 결과 저장 실패: " ++ @Builtins.str ascii_runtime error)]).
Proof.
  apply (@save_ocr_results_refuses_failure ascii_runtime plain_errors
           (ocr_failure (py "no text")) None None (PBool false)).
  - by_vm.
  - by_vm.
  - by_play (Demo.working PNone).
Defined.



(** ** [OutputCleaner.save_result] *)



(** ** [GroqLLaMAParser] *)

(** X6. The parser takes its key from the argument when that is
    truthy, without reading the environment; otherwise it reads
    [GROQ_API_KEY], and raises [ValueError] when the variable is unset
    or empty. *)
Theorem parser_key_source `{PyRuntime} (key : pyval) (t : list event)
    (r : raised + GroqLLaMAParser.parser) :
  runs (GroqLLaMAParser.__init__ key) t r ->
  (Builtins.truthy key = true
   /\ t = []
   /\ r = inr {| GroqLLaMAParser.api_key := key;
                 GroqLLaMAParser.endpoint := py "https://api.groq.com/openai/v1/chat/completions" |})
  \/ (Builtins.truthy key = false
      /\ exists v,
          t = [EnvRead (py "GROQ_API_KEY") v]
          /\ r = match v with
                 | Some (c :: s) =>
                   inr {| GroqLLaMAParser.api_key := PStr (c :: s);
                          GroqLLaMAParser.endpoint := py "https://api.groq.com/openai/v1/chat/completions" |}
                 | _ => inl (ValueError (py "GROQ_API_KEY가 설정되지 않았습니다. 환경변수나 매개변수로 제공해주세요."))
                 end).
Proof. apply init_runs. Qed.

Lemma parser_key_source_witness :
  let t := Demo.init_run.1 in
  let r := Demo.init_run.2 in
  runs (@GroqLLaMAParser.__init__ ascii_runtime PNone) t r
  /\ ((@Builtins.truthy ascii_runtime PNone = true
       /\ t = []
       /\ r = inr {| GroqLLaMAParser.api_key := PNone;
                     GroqLLaMAParser.endpoint := py "https://api.groq.com/openai/v1/chat/completions" |})
      \/ (@Builtins.truthy ascii_runtime PNone = false
          /\ exists v,
              t = [EnvRead (py "GROQ_API_KEY") v]
              /\ r = match v with
                     | Some (c :: s) =>
                       inr {| GroqLLaMAParser.api_key := PStr (c :: s);
                              GroqLLaMAParser.endpoint := py "https://api.groq.com/openai/v1/chat/completions" |}
                     | _ => inl (ValueError (py "GROQ_API_KEY가 설정되지 않았습니다. 환경변수나 매개변수로 제공해주세요."))
                     end)).
Proof.
  intros t r.
  assert (runs (@GroqLLaMAParser.__init__ ascii_runtime PNone) t r) as Hrun
      by (by_play (Demo.working PNone)).
  split; [exact Hrun|].
  exact (@parser_key_source ascii_runtime _ _ _ Hrun).
Defined.

(** X7. [classify_business_card_info] sends one request, to the
    endpoint, with the fixed prompt and the text after its fixed
    introduction.  An exception of [requests] (from the request, the
    status or the decoding of the body) gives the failure with its
    text after [API 요청 오류: ]; any other exception is raised to the
    caller; a decoded body is read by the test on [choices]. *)
Theorem classify_single_request `{PyRuntime} (self : GroqLLaMAParser.parser)
    (text : pyval) (model : option pyval) (t : list event)
    (r : raised + gmap pystr pyval) :
  runs (GroqLLaMAParser.classify_business_card_info self text model) t r ->
  exists a,
    t = [Posted (GroqLLaMAParser.endpoint self) (GroqLLaMAParser.headers self)
           (GroqLLaMAParser.payload
              (default (PStr GroqLLaMAParser.default_model) model)
              (PStr GroqLLaMAParser.system_prompt)
              (PStr (py "다음은 명함에서 OCR로 추출한 텍스트입니다. 구조화된 정보로 분류해주세요:

" ++ Builtins.str text))) a]
    /\ match a with
       | Threw true msg =>
         r = inr (reply_failure PNone (py "API 요청 오류: " ++ msg))
       | Threw false msg => r = inl (Foreign false msg)
       | Returned response =>
         match http_error response with
         | Some msg =>
           r = inr (reply_failure PNone (py "API 요청 오류: " ++ msg))
         | None =>
           match json_body response with
           | Threw true msg =>
             r = inr (reply_failure PNone (py "API 요청 오류: " ++ msg))
           | Threw false msg => r = inl (Foreign false msg)
           | Returned result => runs (GroqLLaMAParser.read_choices result) [] r
           end
         end
       end.
Proof. unfold GroqLLaMAParser.classify_business_card_info. apply send_runs. Qed.

Lemma classify_single_request_witness :
  let t := Demo.classify_run_offline.1 in
  let r := Demo.classify_run_offline.2 in
  exists a,
    t = [Posted (GroqLLaMAParser.endpoint Demo.parser)
           (@GroqLLaMAParser.headers ascii_runtime Demo.parser)
           (GroqLLaMAParser.payload (PStr GroqLLaMAParser.default_model)
              (PStr GroqLLaMAParser.system_prompt)
              (PStr (py "다음은 명함에서 OCR로 추출한 텍스트입니다. 구조화된 정보로 분류해주세요:

"
                     ++ @Builtins.str ascii_runtime (PStr (py "Kim"))))) a]
    /\ match a with
       | Threw true msg =>
         r = inr (reply_failure PNone (py "API 요청 오류: " ++ msg))
       | Threw false msg => r = inl (Foreign false msg)
       | Returned response =>
         match http_error response with
         | Some msg =>
           r = inr (reply_failure PNone (py "API 요청 오류: " ++ msg))
         | None =>
           match json_body response with
           | Threw true msg =>
             r = inr (reply_failure PNone (py "API 요청 오류: " ++ msg))
           | Threw false msg => r = inl (Foreign false msg)
           | Returned result => runs (GroqLLaMAParser.read_choices result) [] r
           end
         end
       end.
Proof.
  intros t r.
  apply (@classify_single_request ascii_runtime Demo.parser (PStr (py "Kim")) None).
  by_play Demo.offline.
Defined.

(** X8. When the request is answered without an HTTP error by an
    object whose [choices] is a list that starts with an object whose
    [message] is an object with a [content], the method returns the
    success that holds this content, whatever it is. *)
Theorem classify_returns_first_choice `{PyRuntime} (self : GroqLLaMAParser.parser)
    (text : pyval) (model : option pyval) (url : pystr)
    (request_headers : gmap pystr pyval) (json : pyval) (response : Response)
    (m choice message : gmap pystr pyval) (rest : list pyval) (content : pyval)
    (r : raised + gmap pystr pyval) :
  runs (GroqLLaMAParser.classify_business_card_info self text model)
    [Posted url request_headers json (Returned response)] r ->
  http_error response = None ->
  json_body response = Returned (PDict m) ->
  m !! (py "choices" : pystr) = Some (PList (PDict choice :: rest)) ->
  choice !! (py "message" : pystr) = Some (PDict message) ->
  message !! (py "content" : pystr) = Some content ->
  r = inr (reply_success content).
Proof.
  intros (a & [= _ _ _ <-] & Hr)%send_runs Hhttp Hbody Hm Hchoice Hmessage.
  cbv beta iota in Hr. rewrite Hhttp, Hbody in Hr.
  rewrite (read_choices_first m choice message rest content) in Hr by done.
  by destruct Hr as [_ ->].
Qed.

Lemma classify_returns_first_choice_witness :
  Demo.classify_run.2 = inr (reply_success (PStr Demo.card_reply)).
Proof.
  eapply (@classify_returns_first_choice ascii_runtime Demo.parser (PStr (py "Kim")) None
            _ _ _
            {| http_error := None;
               json_body := Returned (completion (PStr Demo.card_reply)) |}
            _
            (OutputCleaner.dict_of
               [(py "message",
                 PDict (OutputCleaner.dict_of
                          [(py "role", PStr (py "assistant"));
                           (py "content", PStr Demo.card_reply)]))])
            (OutputCleaner.dict_of [(py "role", PStr (py "assistant"));
                                    (py "content", PStr Demo.card_reply)])
            []).
  - by_play (Demo.working (PStr Demo.card_reply)).
  - reflexivity.
  - reflexivity.
  - by_vm.
  - by_vm.
  - by_vm.
Defined.

(** X9. When the answer is an object without [choices], or with
    [choices] of length zero, the method returns the failure that holds
    the whole answer and the fixed message. *)
Theorem classify_without_choices `{PyRuntime} (self : GroqLLaMAParser.parser)
    (text : pyval) (model : option pyval) (url : pystr)
    (request_headers : gmap pystr pyval) (json : pyval) (response : Response)
    (m : gmap pystr pyval) (r : raised + gmap pystr pyval) :
  runs (GroqLLaMAParser.classify_business_card_info self text model)
    [Posted url request_headers json (Returned response)] r ->
  http_error response = None ->
  json_body response = Returned (PDict m) ->
  m !! (py "choices" : pystr) = None
  \/ (exists choices,
         m !! (py "choices" : pystr) = Some choices /\ Dyn.len choices = Done 0) ->
  r = inr (reply_failure (PDict m) (py "API 응답에 예상된 형식이 없습니다.")).
Proof.
  intros (a & [= _ _ _ <-] & Hr)%send_runs Hhttp Hbody Hm.
  cbv beta iota in Hr. rewrite Hhttp, Hbody in Hr.
  rewrite (read_choices_none m) in Hr by done.
  by destruct Hr as [_ ->].
Qed.

Lemma classify_without_choices_witness :
  Demo.classify_run_error_body.2
  = inr (reply_failure (PDict Demo.error_body) (py "API 응답에 예상된 형식이 없습니다.")).
Proof.
  eapply (@classify_without_choices ascii_runtime Demo.parser (PStr (py "Kim")) None
            _ _ _ {| http_error := None; json_body := Returned (PDict Demo.error_body) |}).
  - by_play (Demo.answering (PDict Demo.error_body)).
  - reflexivity.
  - reflexivity.
  - left. by_vm.
Defined.

(** X10. When the first choice has no [message], or its message no
    [content], the method raises the [KeyError] of the missing key: the
    handler for the exceptions of [requests] does not catch it. *)
Theorem classify_malformed_choice_raises `{PyRuntime}
    (self : GroqLLaMAParser.parser) (text : pyval) (model : option pyval)
    (url : pystr) (request_headers : gmap pystr pyval) (json : pyval)
    (response : Response) (m choice : gmap pystr pyval) (rest : list pyval)
    (key : pystr) (r : raised + gmap pystr pyval) :
  runs (GroqLLaMAParser.classify_business_card_info self text model)
    [Posted url request_headers json (Returned response)] r ->
  http_error response = None ->
  json_body response = Returned (PDict m) ->
  m !! (py "choices" : pystr) = Some (PList (PDict choice :: rest)) ->
  (choice !! (py "message" : pystr) = None /\ key = py "message")
  \/ (exists message,
         choice !! (py "message" : pystr) = Some (PDict message)
         /\ message !! (py "content" : pystr) = None /\ key = py "content") ->
  r = inl (Fault (NoKey (PStr key))).
Proof.
  intros (a & [= _ _ _ <-] & Hr)%send_runs Hhttp Hbody Hm Hkey.
  cbv beta iota in Hr. rewrite Hhttp, Hbody in Hr.
  pose proof (read_choices_malformed m choice rest Hm) as Hread.
  destruct Hkey as [[Hchoice ->]|(message & Hchoice & Hmessage & ->)];
    rewrite Hchoice in Hread.
  - rewrite Hread in Hr. by destruct Hr as [_ ->].
  - rewrite (Hread Hmessage) in Hr. by destruct Hr as [_ ->].
Qed.

Lemma classify_malformed_choice_raises_witness :
  Demo.classify_run_truncated.2 = inl (Fault (NoKey (PStr (py "message")))).
Proof.
  eapply (@classify_malformed_choice_raises ascii_runtime Demo.parser (PStr (py "Kim"))
            None _ _ _
            {| http_error := None; json_body := Returned (PDict Demo.truncated_body) |}
            Demo.truncated_body Demo.truncated_choice []).
  - by_play (Demo.answering (PDict Demo.truncated_body)).
  - reflexivity.
  - reflexivity.
  - by_vm.
  - left. split; [by_vm|reflexivity].
Defined.

(** X11. [parse_custom_prompt] sends one request whose two messages
    are the prompt, as the system, and the text, as the user, both
    unchanged; it returns a success or a failure dictionary, and what it
    raises is an error of reading the answer or an exception of the
    request that is not one of [requests]. *)
Theorem parse_custom_prompt_request `{PyRuntime} (self : GroqLLaMAParser.parser)
    (text custom_prompt : pyval) (model : option pyval) (t : list event)
    (r : raised + gmap pystr pyval) :
  runs (GroqLLaMAParser.parse_custom_prompt self text custom_prompt model) t r ->
  (exists json a,
      t = [Posted (GroqLLaMAParser.endpoint self) (GroqLLaMAParser.headers self) json a]
      /\ Dyn.getitem json (py "messages")
         = Done (PList [PDict (OutputCleaner.dict_of
                                 [(py "role", PStr (py "system"));
                                  (py "content", custom_prompt)]);
                        PDict (OutputCleaner.dict_of
                                 [(py "role", PStr (py "user"));
                                  (py "content", text)])]))
  /\ match r with
     | inr d => (exists ai_response, d = reply_success ai_response)
                \/ (exists raw_response msg, d = reply_failure raw_response msg)
     | inl e => (exists f, e = Fault f) \/ (exists msg, e = Foreign false msg)
     end.
Proof.
  unfold GroqLLaMAParser.parse_custom_prompt.
  intros [[a ->] Hr]%send_shapes. split; [|done].
  by eexists _, a.
Qed.

Lemma parse_custom_prompt_request_witness :
  let t := Demo.custom_run.1 in
  let r := Demo.custom_run.2 in
  (exists json a,
      t = [Posted (GroqLLaMAParser.endpoint Demo.parser)
             (@GroqLLaMAParser.headers ascii_runtime Demo.parser) json a]
      /\ Dyn.getitem json (py "messages")
         = Done (PList [PDict (OutputCleaner.dict_of
                                 [(py "role", PStr (py "system"));
                                  (py "content", PStr (py "Name the person."))]);
                        PDict (OutputCleaner.dict_of
                                 [(py "role", PStr (py "user"));
                                  (py "content", PStr (py "Kim"))])]))
  /\ match r with
     | inr d => (exists ai_response, d = reply_success ai_response)
                \/ (exists raw_response msg, d = reply_failure raw_response msg)
     | inl e => (exists f, e = Fault f) \/ (exists msg, e = Foreign false msg)
     end.
Proof.
  intros t r.
  apply (@parse_custom_prompt_request ascii_runtime Demo.parser (PStr (py "Kim"))
           (PStr (py "Name the person.")) None).
  by_play (Demo.working (PStr Demo.card_reply)).
Defined.

(** ** [BusinessCardProcessor.process_business_card] *)

(** X12. A run of [process_business_card] that returns has printed its
    two opening lines and run the OCR.  When the OCR failed nothing
    followed, and the result is the failure of the step [OCR] with the
    OCR's message.  Otherwise the result is one of three: the failure
    of the step [Classification], the failure of the step
    [JSON Parsing] with the model's text, or the success whose data is
    the final record of a cleaned record, with the card identifier (1
    by default) and the image path. *)
Theorem card_result_shapes `{PyRuntime} `{PyErrors} (self : GroqLLaMAParser.parser)
    (image_path : pystr) (card_id : option Z) (save_intermediate : option bool)
    (t : list event) (result : gmap pystr pyval) :
  runs (BusinessCardProcessor.process_business_card self image_path card_id
          save_intermediate) t (inr result) ->
  exists t_ocr ocr_result t_rest,
    t = Printed (py "
🔹 명함 처리 시작: " ++ image_path)
        :: Printed (py "1️⃣ OCR 텍스트 추출 중...") :: t_ocr ++ t_rest
    /\ runs (VisionOCR.extract_text_from_image image_path) t_ocr (inr ocr_result)
    /\ ((exists msg,
            ocr_result = ocr_failure msg /\ t_rest = []
            /\ result = stage_failure (py "OCR 실패: " ++ msg) (py "OCR"))
        \/ (exists text full,
              ocr_result = ocr_success text full
              /\ ((exists msg,
                      result = stage_failure (py "분류 실패: " ++ msg)
                                 (py "Classification"))
                  \/ (exists msg raw,
                        result = parsing_failure (py "JSON 파싱 실패: " ++ msg)
                                   (PStr raw))
                  \/ (exists cleaned_data,
                        cleaned_record cleaned_data
                        /\ result = card_success
                                      (OutputCleaner.create_final_result cleaned_data
                                         (Some (default 1%Z card_id))
                                         (Some (PStr image_path)) None)
                                      (PStr text))))).
Proof.
  intros (t_ocr & ocr_result & t_rest & Ht & Hocr & Hcases)%process_business_card_runs.
  exists t_ocr, ocr_result, t_rest. split; [done|]. split; [done|].
  destruct Hcases as [(msg & -> & -> & [= ->])|(text & full & -> & Hcases)].
  { left. by exists msg. }
  right. exists text, full. split; [done|].
  destruct Hcases as [(f & [=])|[(msg & [=])|[(e & [=])|[(msg & [= ->])|
    [(msg & raw & [= ->])|(cleaned & Hrec & [= ->])]]]]].
  - left. by exists msg.
  - right; left. by exists msg, raw.
  - right; right. by exists cleaned.
Qed.

Lemma card_result_shapes_witness :
  exists result,
    Demo.card_run.2 = inr result
    /\ exists t_ocr ocr_result t_rest,
        Demo.card_run.1
        = Printed (py "
🔹 명함 처리 시작: " ++ Demo.image_path)
          :: Printed (py "1️⃣ OCR 텍스트 추출 중...") :: t_ocr ++ t_rest
        /\ runs (@VisionOCR.extract_text_from_image plain_errors Demo.image_path) t_ocr
             (inr ocr_result)
        /\ ((exists msg,
                ocr_result = ocr_failure msg /\ t_rest = []
                /\ result = stage_failure (py "OCR 실패: " ++ msg) (py "OCR"))
            \/ (exists text full,
                  ocr_result = ocr_success text full
                  /\ ((exists msg,
                          result = stage_failure (py "분류 실패: " ++ msg)
                                     (py "Classification"))
                      \/ (exists msg raw,
                            result = parsing_failure (py "JSON 파싱 실패: " ++ msg)
                                       (PStr raw))
                      \/ (exists cleaned_data,
                            cleaned_record cleaned_data
                            /\ result = card_success
                                          (OutputCleaner.create_final_result cleaned_data
                                             (Some 7%Z) (Some (PStr Demo.image_path)) None)
                                          (PStr text))))).
Proof.
  eexists. split; [reflexivity|].
  apply (@card_result_shapes ascii_runtime plain_errors Demo.parser Demo.image_path
           (Some 7%Z) None).
  by_play (Demo.working (PStr Demo.card_reply)).
Defined.

(** X13. A result that names the step [OCR] is the failure with the
    OCR's message, and the run that gave it sent nothing to the model
    and touched no file. *)
Theorem ocr_failure_stops_pipeline `{PyRuntime} `{PyErrors}
    (self : GroqLLaMAParser.parser) (image_path : pystr) (card_id : option Z)
    (save_intermediate : option bool) (t : list event)
    (result : gmap pystr pyval) :
  runs (BusinessCardProcessor.process_business_card self image_path card_id
          save_intermediate) t (inr result) ->
  result !! (py "step" : pystr) = Some (PStr (py "OCR")) ->
  (exists msg, result = stage_failure (py "OCR 실패: " ++ msg) (py "OCR"))
  /\ Forall (fun e => written_file e = None /\ is_post e = false) t.
Proof.
  intros (t_ocr & ocr_result & t_rest & -> & Hocr & Hcases)%process_business_card_runs
         Hstep.
  destruct Hcases as [(msg & _ & -> & [= ->])|(text & full & _ & Hcases)].
  - split; [by exists msg|].
    apply extract_text_shapes in Hocr as [_ Hocr]. rewrite app_nil_r.
    apply Forall_cons_2; [done|]. apply Forall_cons_2; [done|].
    eapply Forall_impl; [exact Hocr|]. by intros e (? & _ & ?).
  - exfalso.
    destruct Hcases as [(f & [=])|[(msg & [=])|[(e & [=])|[(msg & [= ->])|
      [(msg & raw & [= ->])|(cleaned & _ & [= ->])]]]]]; discriminate Hstep.
Qed.

Lemma ocr_failure_stops_pipeline_witness :
  exists result,
    Demo.card_run_without_image.2 = inr result
    /\ (exists msg, result = stage_failure (py "OCR 실패: " ++ msg) (py "OCR"))
    /\ Forall (fun e => written_file e = None /\ is_post e = false)
         Demo.card_run_without_image.1.
Proof.
  eexists. split; [reflexivity|].
  apply (@ocr_failure_stops_pipeline ascii_runtime plain_errors Demo.parser
           Demo.image_path None None).
  - by_play Demo.without_image.
  - by_vm.
Defined.

(** X14. [process_business_card] touches no file when
    [save_intermediate] is false, and otherwise no other file than
    [ocr_result.txt], [ocr_result.json] and
    [card_classified_data.json]. *)
Theorem card_files `{PyRuntime} `{PyErrors} (self : GroqLLaMAParser.parser)
    (image_path : pystr) (card_id : option Z) (save_intermediate : option bool)
    (t : list event) (r : raised + gmap pystr pyval) :
  runs (BusinessCardProcessor.process_business_card self image_path card_id
          save_intermediate) t r ->
  Forall (saves_only (default true save_intermediate)) t.
Proof. apply process_business_card_files. Qed.

Lemma card_files_witness : Forall (saves_only true) Demo.card_run.1.
Proof.
  apply (@card_files ascii_runtime plain_errors Demo.parser Demo.image_path
           (Some 7%Z) None _ Demo.card_run.2).
  by_play (Demo.working (PStr Demo.card_reply)).
Defined.

(** X15. When the content of the model's answer is not a text, for
    example [null], [process_business_card] raises an error of handling
    a value instead of returning a failure. *)
Theorem non_text_reply_raises `{PyRuntime} `{PyErrors}
    (self : GroqLLaMAParser.parser) (image_path : pystr) (card_id : option Z)
    (save_intermediate : option bool) (t : list event)
    (r : raised + gmap pystr pyval) (url : pystr)
    (request_headers : gmap pystr pyval) (json : pyval) (response : Response)
    (body ai_response : pyval) :
  runs (BusinessCardProcessor.process_business_card self image_path card_id
          save_intermediate) t r ->
  Posted url request_headers json (Returned response) ∈ t ->
  http_error response = None ->
  json_body response = Returned body ->
  GroqLLaMAParser.read_choices body = Done (reply_success ai_response) ->
  (forall raw, ai_response <> PStr raw) ->
  exists f, r = inl (Fault f).
Proof.
  intros Hrun Hin Hhttp Hbody Hread Hai.
  destruct (process_business_card_content _ _ _ _ _ _ _ _ _ _ _ _
              Hrun Hin Hhttp Hbody Hread) as [text Hout].
  unfold reply_outcome in Hout. destruct ai_response; try done.
  by destruct (Hai s).
Qed.

Lemma non_text_reply_raises_witness :
  exists f, Demo.card_run_null_reply.2 = inl (Fault f).
Proof.
  eapply (@non_text_reply_raises ascii_runtime plain_errors Demo.parser Demo.image_path
            None (Some false) Demo.card_run_null_reply.1 _ _ _ _ _ _ PNone).
  - by_play (Demo.working PNone).
  - apply (list_elem_of_lookup_2 _ 6); reflexivity.
  - reflexivity.
  - reflexivity.
  - by_vm.
  - intros raw; discriminate.
Defined.

(** X16. When the content of the model's answer is a text from which
    [extract_json_from_response] gets an object, the result is the
    success whose data is the final record made of the cleaning of this
    object, the card identifier (1 by default) and the image path. *)
Theorem card_data_from_reply `{PyRuntime} `{PyErrors}
    (self : GroqLLaMAParser.parser) (image_path : pystr) (card_id : option Z)
    (save_intermediate : option bool) (t : list event)
    (r : raised + gmap pystr pyval) (url : pystr)
    (request_headers : gmap pystr pyval) (json : pyval) (response : Response)
    (body : pyval) (raw : pystr) (m : gmap pystr pyval) :
  runs (BusinessCardProcessor.process_business_card self image_path card_id
          save_intermediate) t r ->
  Posted url request_headers json (Returned response) ∈ t ->
  http_error response = None ->
  json_body response = Returned body ->
  GroqLLaMAParser.read_choices body = Done (reply_success (PStr raw)) ->
  OutputCleaner.extract_json_from_response raw
  = Return (extraction_success (PDict m)) ->
  exists text cleaned_data,
    OutputCleaner.clean_business_card_data m = Return cleaned_data
    /\ r = inr (card_success
                 (OutputCleaner.create_final_result cleaned_data
                    (Some (default 1%Z card_id)) (Some (PStr image_path)) None)
                 (PStr text)).
Proof.
  intros Hrun Hin Hhttp Hbody Hread Hextract.
  destruct (process_business_card_content _ _ _ _ _ _ _ _ _ _ _ _
              Hrun Hin Hhttp Hbody Hread) as [text Hout].
  exists text. unfold reply_outcome in Hout. rewrite Hextract in Hout.
  destruct Hout as [(e & [=] & _)|[(msg & doc & Heq%Return_inj & _)
                                   |(parsed & Heq%Return_inj & Hclean)]].
  { assert (extraction_success (PDict m) !! (py "success" : pystr)
            = extraction_failure msg doc raw !! (py "success" : pystr)) as Hlook
        by (by rewrite Heq).
    discriminate Hlook. }
  assert (parsed = PDict m) as ->.
  { assert (extraction_success (PDict m) !! (py "data" : pystr)
            = extraction_success parsed !! (py "data" : pystr)) as Hlook
        by (by rewrite Heq).
    by injection Hlook. }
  rewrite clean_any_dict in Hclean.
  destruct (OutputCleaner.clean_business_card_data m) as [cleaned|e].
  - exists cleaned. split; [done|].
    destruct Hclean as [(f & [=] & _)|(cleaned' & [= <-] & _ & ->)]. done.
  - by destruct Hclean as [(f & [=] & _)|(cleaned' & [=] & _)].
Qed.

Lemma card_data_from_reply_witness :
  exists text cleaned_data,
    @OutputCleaner.clean_business_card_data ascii_runtime Demo.card_fields
    = Return cleaned_data
    /\ Demo.card_run.2
       = inr (card_success
                (OutputCleaner.create_final_result cleaned_data (Some 7%Z)
                   (Some (PStr Demo.image_path)) None)
                (PStr text)).
Proof.
  eapply (@card_data_from_reply ascii_runtime plain_errors Demo.parser Demo.image_path
            (Some 7%Z) None Demo.card_run.1 _ _ _ _ _ _ Demo.card_reply).
  - by_play (Demo.working (PStr Demo.card_reply)).
  - apply (list_elem_of_lookup_2 _ 12); reflexivity.
  - reflexivity.
  - reflexivity.
  - by_vm.
  - by_vm.
Defined.

(** X17. When the content of the model's answer is a text that
    [extract_json_from_response] cannot decode, the result is the
    failure of the step [JSON Parsing], with the decoder's message after
    the two prefixes and with the model's text. *)
Theorem undecodable_reply_reported `{PyRuntime} `{PyErrors}
    (self : GroqLLaMAParser.parser) (image_path : pystr) (card_id : option Z)
    (save_intermediate : option bool) (t : list event)
    (r : raised + gmap pystr pyval) (url : pystr)
    (request_headers : gmap pystr pyval) (json : pyval) (response : Response)
    (body : pyval) (raw doc : pystr) (msg : decode_error) :
  runs (BusinessCardProcessor.process_business_card self image_path card_id
          save_intermediate) t r ->
  Posted url request_headers json (Returned response) ∈ t ->
  http_error response = None ->
  json_body response = Returned body ->
  GroqLLaMAParser.read_choices body = Done (reply_success (PStr raw)) ->
  OutputCleaner.extract_json_from_response raw
  = Return (extraction_failure msg doc raw) ->
  r = inr (parsing_failure
             (py "JSON 파싱 실패: " ++ py "JSON 파싱 오류: "
              ++ str_JSONDecodeError msg doc)
             (PStr raw)).
Proof.
  intros Hrun Hin Hhttp Hbody Hread Hextract.
  destruct (process_business_card_content _ _ _ _ _ _ _ _ _ _ _ _
              Hrun Hin Hhttp Hbody Hread) as [text Hout].
  unfold reply_outcome in Hout. rewrite Hextract in Hout.
  destruct Hout as [(e & [=] & _)|[(msg' & doc' & Heq%Return_inj & ->)
                                   |(parsed & Heq%Return_inj & _)]].
  - assert (extraction_failure msg doc raw !! (py "error" : pystr)
            = extraction_failure msg' doc' raw !! (py "error" : pystr)) as Hlook
        by (by rewrite Heq).
    assert (str_JSONDecodeError msg doc = str_JSONDecodeError msg' doc') as ->
        by (by injection Hlook).
    done.
  - assert (extraction_failure msg doc raw !! (py "success" : pystr)
            = extraction_success parsed !! (py "success" : pystr)) as Hlook
        by (by rewrite Heq).
    discriminate Hlook.
Qed.

Lemma undecodable_reply_reported_witness :
  Demo.card_run_bad_reply.2
  = inr (parsing_failure
           (py "JSON 파싱 실패: " ++ py "JSON 파싱 오류: "
            ++ @str_JSONDecodeError ascii_runtime ExpectingValue Demo.refusal)
           (PStr Demo.refusal)).
Proof.
  eapply (@undecodable_reply_reported ascii_runtime plain_errors Demo.parser
            Demo.image_path None (Some false) Demo.card_run_bad_reply.1 _ _ _ _ _ _
            Demo.refusal Demo.refusal ExpectingValue).
  - by_play (Demo.working (PStr Demo.refusal)).
  - apply (list_elem_of_lookup_2 _ 6); reflexivity.
  - reflexivity.
  - reflexivity.
  - by_vm.
  - by_vm.
Defined.

(** ** [BusinessCardProcessor.process_multiple_cards] *)

(** X18. What [process_multiple_cards] returns: one entry for each
    image, in the order of the images, the image of index [k] with the
    card identifier [start_card_id + k] (from 1 by default) and with a
    result of [process_business_card] run on it without saving; the
    count of the successes is the number of these results whose
    [success] is true, it lies between zero and the number of images,
    and the count of the failures is the rest. *)
Theorem batch_result_counts `{PyRuntime} `{PyErrors} (self : GroqLLaMAParser.parser)
    (image_paths : list pystr) (start_card_id : option Z) (t : list event)
    (batch : gmap pystr pyval) :
  runs (BusinessCardProcessor.process_multiple_cards self image_paths start_card_id)
    t (inr batch) ->
  exists outcomes,
    batch_of self (default 1%Z start_card_id) 0 image_paths outcomes
    /\ batch = batch_result (Z.of_nat (length image_paths)) (success_total outcomes)
                 (batch_entries (default 1%Z start_card_id) 0 image_paths outcomes)
    /\ length (batch_entries (default 1%Z start_card_id) 0 image_paths outcomes)
       = length image_paths
    /\ (0 <= success_total outcomes <= Z.of_nat (length image_paths))%Z.
Proof.
  intros (t_cards & _ & [[_ [[f [=]]|[[msg [=]]|[x [=]]]]]|(outcomes & Hbatch & Hend)])
           %process_multiple_cards_runs.
  exists outcomes. split; [done|].
  destruct (batch_of_length _ _ _ _ _ Hbatch) as [Hlen Hentries].
  cbv zeta in Hend.
  destruct Hend as [(b & msg & _ & [=])|[_ [= <-]]].
  split; [done|]. split; [done|].
  rewrite <- Hlen. apply success_total_bounds.
Qed.

Lemma batch_result_counts_witness :
  exists outcomes,
    @batch_of ascii_runtime plain_errors Demo.parser 5%Z 0
      [py "a.png"; py "b.png"] outcomes
    /\ Demo.batch = batch_result 2%Z (@success_total ascii_runtime outcomes)
                      (batch_entries 5%Z 0 [py "a.png"; py "b.png"] outcomes)
    /\ length (batch_entries 5%Z 0 [py "a.png"; py "b.png"] outcomes) = 2
    /\ (0 <= @success_total ascii_runtime outcomes <= 2)%Z.
Proof.
  apply (@batch_result_counts ascii_runtime plain_errors Demo.parser
           [py "a.png"; py "b.png"] (Some 5%Z) Demo.batch_run.1 Demo.batch).
  by_play (Demo.working (PStr Demo.card_reply)).
Defined.

(** X19. [process_multiple_cards] touches no other file than
    [batch_processing_result.json], whether it returns or raises.  When
    it returns, the run ends with the opening of this file, the dump of
    the returned dictionary into it and one line of output, and no file
    was touched before. *)
Theorem batch_files `{PyRuntime} `{PyErrors} (self : GroqLLaMAParser.parser)
    (image_paths : list pystr) (start_card_id : option Z) (t : list event)
    (r : raised + gmap pystr pyval) :
  runs (BusinessCardProcessor.process_multiple_cards self image_paths start_card_id)
    t r ->
  Forall (fun e => written_file e = None \/ written_file e = Some batch_file) t
  /\ (forall batch,
        r = inr batch ->
        exists t_cards line,
          t = t_cards ++ [Opened batch_file (Returned ());
                          Dumped batch_file (PDict batch) (Returned ());
                          Printed line]
          /\ Forall (fun e => written_file e = None) t_cards).
Proof.
  intros (t_cards & Hquiet & Hcases)%process_multiple_cards_runs.
  assert (Forall (fun e => written_file e = None \/ written_file e = Some batch_file)
            t_cards) as Hcards.
  { eapply Forall_impl; [exact Hquiet|]. intros e. by left. }
  destruct Hcases as [[-> Hr]|(outcomes & _ & Hend)].
  { split; [done|]. intros batch ->.
    by destruct Hr as [[f [=]]|[[msg [=]]|[x [=]]]]. }
  cbv zeta in Hend.
  destruct Hend as [(b & msg & [->| ->] & ->)|[-> ->]].
  - split; [|by intros batch [=]].
    apply Forall_app. split; [done|]. apply Forall_cons_2; [by right|apply Forall_nil_2].
  - split; [|by intros batch [=]].
    apply Forall_app. split; [done|].
    apply Forall_cons_2; [by right|]. apply Forall_cons_2; [by right|apply Forall_nil_2].
  - split.
    + apply Forall_app. split; [done|].
      apply Forall_cons_2; [by right|]. apply Forall_cons_2; [by right|].
      apply Forall_cons_2; [by left|apply Forall_nil_2].
    + intros batch [= <-]. by eexists t_cards, _.
Qed.

Lemma batch_files_witness :
  Forall (fun e => written_file e = None \/ written_file e = Some batch_file)
    Demo.batch_run.1
  /\ (forall batch,
        Demo.batch_run.2 = inr batch ->
        exists t_cards line,
          Demo.batch_run.1
          = t_cards ++ [Opened batch_file (Returned ());
                        Dumped batch_file (PDict batch) (Returned ());
                        Printed line]
          /\ Forall (fun e => written_file e = None) t_cards).
Proof.
  apply (@batch_files ascii_runtime plain_errors Demo.parser [py "a.png"; py "b.png"]
           (Some 5%Z)).
  by_play (Demo.working (PStr Demo.card_reply)).
Defined.

(** ** [OutputCleaner.clean_business_card_data] on what is not an object *)

(** X20. What the model's text decodes to need not be an object.  On a
    list or a text, [clean_business_card_data] raises [TypeError] at the
    first of the recognised keys that is an item of the list or a part
    of the text, and returns the record of absent fields when there is
    none; on [None], a boolean or a number it raises [TypeError] at the
    first test. *)
Theorem clean_on_non_objects `{PyRuntime} (raw_data : pyval) :
  CleanerCalls.clean_business_card_data_any raw_data
  = match raw_data with
    | PDict m => lift (OutputCleaner.clean_business_card_data m)
    | PList _ | PStr _ =>
      match List.find (mentions raw_data) (concat (OutputCleaner.field_mapping.*2)) with
      | Some key => Throw (Fault (NotSubscriptable raw_data (PStr key)))
      | None => Done absent_record
      end
    | _ => Throw (Fault (NotContainer raw_data))
    end.
Proof.
  destruct raw_data as [|b|z|f|s|l|m]; try reflexivity.
  - unfold CleanerCalls.clean_business_card_data_any.
    rewrite clean_fields_any_sequence by (right; by eexists).
    by destruct (List.find _ _).
  - unfold CleanerCalls.clean_business_card_data_any.
    rewrite clean_fields_any_sequence by (left; by eexists).
    by destruct (List.find _ _).
  - apply clean_any_dict.
Qed.

(** ** [OutputCleaner.clean_business_card_data], once more *)

(** X21. A key that is none of the recognised keys has no effect: with
    or without it, whatever its value, the cleaned record is the
    same. *)
Theorem unrecognised_keys_ignored `{PyRuntime} (raw_data : gmap pystr pyval)
    (key : pystr) (v : pyval) :
  key ∉ concat (OutputCleaner.field_mapping.*2) ->
  OutputCleaner.clean_business_card_data (<[key := v]> raw_data)
  = OutputCleaner.clean_business_card_data raw_data.
Proof.
  intros Hkey. rewrite !clean_business_card_data_spec. do 2 f_equal.
  apply map_ext_in. intros [field keys] Hin. cbn [fst snd].
  unfold cleaned_value. rewrite select_alias_insert_ne; [done|].
  intros Hk%list_elem_of_In. apply Hkey. apply list_elem_of_In, in_concat.
  exists keys. split; [|done]. by apply (in_map snd) in Hin.
Qed.

Lemma unrecognised_keys_ignored_witness :
  @OutputCleaner.clean_business_card_data ascii_runtime
    (<[py "note" := PStr (py "x")]> Demo.card_record)
  = @OutputCleaner.clean_business_card_data ascii_runtime Demo.card_record.
Proof.
  apply (@unrecognised_keys_ignored ascii_runtime).
  apply (bool_decide_unpack _). by vm_compute.
Defined.

(** X22. Cleaning a cleaned record gives the same record, provided its
    phone number does not read as one of the sentinels [null], [none],
    [n/a] and [-]: a phone number that was cleaned to a lone hyphen
    would be absent the second time. *)
Theorem recleaning_is_identity `{PyRuntime} (raw_data cleaned_data : gmap pystr pyval) :
  OutputCleaner.clean_business_card_data raw_data = Return cleaned_data ->
  (forall p, cleaned_data !! (py "phone" : pystr) = Some (PStr p) ->
             Builtins.lower p ∉ OutputCleaner.sentinels) ->
  OutputCleaner.clean_business_card_data cleaned_data = Return cleaned_data.
Proof.
  intros Hclean Hphone.
  rewrite clean_business_card_data_spec.
  pose proof Hclean as Hspec. rewrite clean_business_card_data_spec in Hspec.
  apply Return_inj in Hspec. f_equal. etrans; [|exact Hspec]. f_equal.
  apply map_ext_in. intros [field keys] Hin%list_elem_of_In. cbn [fst snd].
  f_equal. by eapply cleaned_value_again.
Qed.

Lemma recleaning_is_identity_witness :
  @OutputCleaner.clean_business_card_data ascii_runtime Demo.card_record
  = Return Demo.card_record.
Proof.
  apply (@recleaning_is_identity ascii_runtime Demo.card_fields).
  - by_vm.
  - intros p Hp. vm_compute in Hp. injection Hp as <-.
    apply (bool_decide_unpack _). by vm_compute.
Defined.
